(** * TradeLab back end: the repository layer over its SQLite store

    A shallow embedding of [user_repository.js], [trade_repository.js],
    [sub_account_repository.js] and of the two schema files
    ([src/db/database.js] and [src/db/database_test_env.js]).

    The store is explicit state: one record of tables, the snapshot of an
    open transaction, and the failures the environment is going to inflict.
    Every repository function takes the handle state and returns the settled
    value of its promise together with the new handle state.  The clock
    reading [new Date().toISOString()] is the argument [now].

    What is taken from SQLite and node-sqlite3 rather than from the
    JavaScript text:
    - a failing statement changes nothing and leaves an open transaction
      open; BEGIN fails inside a transaction, COMMIT and ROLLBACK fail
      outside one; ROLLBACK restores the tables as they were at BEGIN;
    - [INTEGER PRIMARY KEY AUTOINCREMENT] gives the successor of the table's
      [sqlite_sequence] counter and the counter never decreases;
    - TEXT compares byte by byte, NULL sorts before every value, rows with
      equal sort keys come out in rowid order;
    - a negative LIMIT is no limit and a negative OFFSET is none; a LIMIT or
      OFFSET that is not an integer strictly between -2^63 and 2^63 fails the
      statement with SQLITE_MISMATCH;
    - a statement naming a column that the table lacks fails when it is
      prepared; when an INSERT breaks several UNIQUE constraints the one
      declared last is reported;
    - [undefined] and [null] parameters are bound as NULL;
    - statements submitted inside one [db.serialize] callback all run, in
      order, whatever the earlier ones answered.
    REAL columns are rationals here: the repository only stores them and
    compares [quantity] with zero. *)

From Stdlib Require Import ZArith QArith String Ascii List Lia Bool.
From Stdlib Require Import OrdersEx Sorted Permutation.
From stdpp Require Import base tactics option list gmap strings.

Import ListNotations.
Local Open Scope string_scope.
Local Open Scope Z_scope.

(** ** JavaScript values reaching the repository *)

(** An argument or object field as the caller passes it: absent
    ([undefined]), an explicit [null], or a value. *)
Inductive jsval (A : Type) : Type :=
| Undefined
| Null
| Val (a : A).
Arguments Undefined {A}.
Arguments Null {A}.
Arguments Val {A} a.

(** How node-sqlite3 binds a parameter: [undefined] is left unbound and
    [null] is bound as NULL, so both reach SQL as NULL. *)
Definition bind {A} (v : jsval A) : option A :=
  match v with
  | Val a => Some a
  | Undefined | Null => None
  end.

(** [v !== undefined] *)
Definition is_defined {A} (v : jsval A) : bool :=
  match v with
  | Undefined => false
  | Null | Val _ => true
  end.

(** [v || d] on a string-valued field: every falsy [v] ([undefined], [null]
    and the empty string) gives [d]. *)
Definition js_or (v : jsval string) (d : string) : string :=
  match v with
  | Val s => if String.eqb s "" then d else s
  | Undefined | Null => d
  end.

(** SQL [COALESCE(?, col)] *)
Definition COALESCE {A} (p : option A) (col : option A) : option A :=
  match p with
  | Some a => Some a
  | None => col
  end.

(** ** Errors of the store *)

Inductive sqlerr : Type :=
| UNIQUE_failed (columns : string)
| NOT_NULL_failed (column : string)
| CHECK_failed (expr : string)
| FOREIGN_KEY_failed
| TXN_error (msg : string)
| STORE_fault (msg : string)
| DATATYPE_mismatch
| NO_SUCH_COLUMN (column : string).

(** A settled (or still pending) promise. *)
Inductive outcome (A : Type) : Type :=
| Pending
| Resolved (a : A)
| Rejected (e : sqlerr).
Arguments Pending {A}.
Arguments Resolved {A} a.
Arguments Rejected {A} e.

(** [resolve]/[reject] on a promise: only the first settlement counts. *)
Definition settle {A} (p : outcome A) (new : outcome A) : outcome A :=
  match p with
  | Pending => new
  | _ => p
  end.

(** ** Rows *)

Inductive direction : Type := long | short.
Inductive status : Type := open | closed.

(** [CHECK (direction IN ('long', 'short'))] *)
Definition check_direction (s : string) : option direction :=
  if String.eqb s "long" then Some long
  else if String.eqb s "short" then Some short
  else None.

(** [CHECK (status IN ('open', 'closed'))] *)
Definition check_status (s : string) : option status :=
  if String.eqb s "open" then Some open
  else if String.eqb s "closed" then Some closed
  else None.

Definition status_eqb (a b : status) : bool :=
  match a, b with
  | open, open | closed, closed => true
  | _, _ => false
  end.

Module User.
Record t : Type := mk {
  id : Z;
  username : string;
  email : string;
  password_hash : string;
  created_at : string;
  updated_at : string
}.
End User.

Module Settings.
Record t : Type := mk {
  user_id : Z;
  default_currency : string;
  theme : string;
  created_at : string;
  updated_at : string
}.
End Settings.

Module SubAccount.
Record t : Type := mk {
  id : Z;
  user_id : Z;
  name : string;
  description : option string;
  broker : option string;
  created_at : string;
  updated_at : string
}.
End SubAccount.

Module Trade.
Record t : Type := mk {
  id : Z;
  user_id : Z;
  sub_account_id : option Z;
  ticker : string;
  quantity : Q;
  entry_price : Q;
  exit_price : option Q;
  dir : direction;
  st : status;
  entry_date : string;
  exit_date : option string;
  notes : option string;
  commission : option Q;
  created_at : string;
  updated_at : string
}.
End Trade.

(** ** The store *)

(** What the two schema files differ in: the UNIQUE constraints of [users]
    and the [broker] column of [sub_accounts]. *)
Record schema : Type := mk_schema {
  users_username_unique : bool;
  users_email_unique : bool;
  sub_accounts_broker : bool
}.

(** Table contents in rowid order, with the [sqlite_sequence] counters of the
    three [AUTOINCREMENT] tables. *)
Record tables : Type := mk_tables {
  users : list User.t;
  user_settings : list Settings.t;
  sub_accounts : list SubAccount.t;
  trades : list Trade.t;
  seq_users : Z;
  seq_sub_accounts : Z;
  seq_trades : Z
}.

(** The shared handle: the schema it was initialised with, the current
    tables, the snapshot taken by an open transaction, and the failures the
    environment will inflict on the next statements ([Some e]: the statement
    fails with [e] before touching anything, as SQLITE_BUSY or SQLITE_IOERR
    do; [None], or an exhausted list: the statement runs). *)
Record db : Type := mk_db {
  db_schema : schema;
  cur : tables;
  txn : option tables;
  faults : list (option sqlerr)
}.

Definition empty_tables : tables :=
  mk_tables [] [] [] [] 0 0 0.

(** [initDB] of [src/db/database.js]: [users] is created with plain
    [username TEXT NOT NULL] and [email TEXT NOT NULL] columns, [sub_accounts]
    without a [broker] column. *)
Definition initDB_database : db :=
  mk_db (mk_schema false false false) empty_tables None [].

(** [initDB] of [src/db/database_test_env.js]: [username TEXT UNIQUE NOT NULL],
    [email TEXT UNIQUE NOT NULL], and [broker TEXT] in [sub_accounts]. *)
Definition initDB_test_env : db :=
  mk_db (mk_schema true true true) empty_tables None [].

Definition set_cur (d : db) (t : tables) : db :=
  mk_db (db_schema d) t (txn d) (faults d).

Definition set_txn (d : db) (x : option tables) : db :=
  mk_db (db_schema d) (cur d) x (faults d).

Definition set_trades (t : tables) (l : list Trade.t) : tables :=
  mk_tables (users t) (user_settings t) (sub_accounts t) l
            (seq_users t) (seq_sub_accounts t) (seq_trades t).

(** The environment's verdict on the statement about to run. *)
Definition next_fault (d : db) : option sqlerr * db :=
  match faults d with
  | [] => (None, d)
  | f :: fs => (f, mk_db (db_schema d) (cur d) (txn d) fs)
  end.

(** What the callback of [db.run] sees: [err], or [this.lastID] and
    [this.changes]. *)
Inductive run_result : Type :=
| RunErr (e : sqlerr)
| RunOk (lastID : Z) (changes : Z).

(** ** Running statements *)

(** [db.run(sql, params, callback)]: the statement fails at once when the
    environment says so, and runs on the store otherwise. *)
Definition db_run (stmt : db -> run_result * db) (d : db) : run_result * db :=
  let '(f, d1) := next_fault d in
  match f with
  | Some e => (RunErr e, d1)
  | None => stmt d1
  end.

(** [db.get(sql, params, callback)]: [err], or the first row of the result
    ([undefined] when there is none). *)
Definition db_get {R} (query : tables -> list R) (d : db)
  : (sqlerr + option R) * db :=
  let '(f, d1) := next_fault d in
  match f with
  | Some e => (inl e, d1)
  | None => (inr (head (query (cur d1))), d1)
  end.

(** [db.all(sql, params, callback)]: [err], which is the environment's or
    the statement's own, or all rows of the result. *)
Definition db_all {R} (query : tables -> sqlerr + list R) (d : db)
  : (sqlerr + list R) * db :=
  let '(f, d1) := next_fault d in
  match f with
  | Some e => (inl e, d1)
  | None => (query (cur d1), d1)
  end.

(** *** Transaction control *)

Definition BEGIN_TRANSACTION (d : db) : run_result * db :=
  match txn d with
  | Some _ =>
      (RunErr (TXN_error "cannot start a transaction within a transaction"), d)
  | None => (RunOk 0 0, set_txn d (Some (cur d)))
  end.

Definition COMMIT (d : db) : run_result * db :=
  match txn d with
  | None => (RunErr (TXN_error "cannot commit - no transaction is active"), d)
  | Some _ => (RunOk 0 0, set_txn d None)
  end.

Definition ROLLBACK (d : db) : run_result * db :=
  match txn d with
  | None =>
      (RunErr (TXN_error "cannot rollback - no transaction is active"), d)
  | Some snapshot => (RunOk 0 0, mk_db (db_schema d) snapshot None (faults d))
  end.

(** *** [users] and [user_settings] *)

(** [INSERT INTO users (username, email, password_hash, created_at,
    updated_at) VALUES (?, ?, ?, ?, ?)].  The UNIQUE indexes exist only when
    the schema declares them, and the one on [email], declared last, is
    consulted first; the id is the next [AUTOINCREMENT] value. *)
Definition INSERT_users (username email password_hash created_at updated_at : string)
    (d : db) : run_result * db :=
  let t := cur d in
  if users_email_unique (db_schema d)
     && existsb (fun u => String.eqb (User.email u) email) (users t)
  then (RunErr (UNIQUE_failed "users.email"), d)
  else if users_username_unique (db_schema d)
          && existsb (fun u => String.eqb (User.username u) username) (users t)
  then (RunErr (UNIQUE_failed "users.username"), d)
  else
    let id := seq_users t + 1 in
    let row := User.mk id username email password_hash created_at updated_at in
    (RunOk id 1,
     set_cur d (mk_tables (users t ++ [row]) (user_settings t) (sub_accounts t)
                          (trades t) id (seq_sub_accounts t) (seq_trades t))).

(** [INSERT INTO user_settings (user_id, default_currency, theme, created_at,
    updated_at) VALUES (?, ?, ?, ?, ?)]: [user_id] is the primary key and
    references [users (id)]. *)
Definition INSERT_user_settings (user_id : Z)
    (default_currency theme created_at updated_at : string)
    (d : db) : run_result * db :=
  let t := cur d in
  if existsb (fun s => Settings.user_id s =? user_id) (user_settings t)
  then (RunErr (UNIQUE_failed "user_settings.user_id"), d)
  else if negb (existsb (fun u => User.id u =? user_id) (users t))
  then (RunErr FOREIGN_KEY_failed, d)
  else
    let row := Settings.mk user_id default_currency theme created_at updated_at in
    (RunOk user_id 1,
     set_cur d (mk_tables (users t) (user_settings t ++ [row]) (sub_accounts t)
                          (trades t) (seq_users t) (seq_sub_accounts t)
                          (seq_trades t))).

(** [SELECT * FROM users WHERE id = ?] *)
Definition SELECT_users_WHERE_id (id : Z) (t : tables) : list User.t :=
  List.filter (fun u => User.id u =? id) (users t).

(** [SELECT * FROM users WHERE email = ?] *)
Definition SELECT_users_WHERE_email (email : string) (t : tables) : list User.t :=
  List.filter (fun u => String.eqb (User.email u) email) (users t).

(** [SELECT * FROM user_settings WHERE user_id = ?] *)
Definition SELECT_user_settings_WHERE_user_id (user_id : Z) (t : tables)
  : list Settings.t :=
  List.filter (fun s => Settings.user_id s =? user_id) (user_settings t).

(** *** [sub_accounts] *)

(** [INSERT INTO sub_accounts (user_id, name, description, created_at,
    updated_at) VALUES (?, ?, ?, ?, ?)] with [UNIQUE (user_id, name)] and the
    foreign key to [users (id)]; [broker] is left NULL. *)
Definition INSERT_sub_accounts (user_id : Z) (name : string)
    (description : option string) (created_at updated_at : string)
    (d : db) : run_result * db :=
  let t := cur d in
  if existsb (fun a => (SubAccount.user_id a =? user_id)
                       && String.eqb (SubAccount.name a) name) (sub_accounts t)
  then (RunErr (UNIQUE_failed "sub_accounts.user_id, sub_accounts.name"), d)
  else if negb (existsb (fun u => User.id u =? user_id) (users t))
  then (RunErr FOREIGN_KEY_failed, d)
  else
    let id := seq_sub_accounts t + 1 in
    let row := SubAccount.mk id user_id name description None
                             created_at updated_at in
    (RunOk id 1,
     set_cur d (mk_tables (users t) (user_settings t) (sub_accounts t ++ [row])
                          (trades t) (seq_users t) id (seq_trades t))).

(** [SELECT user_id FROM sub_accounts WHERE id = ?] *)
Definition SELECT_user_id_FROM_sub_accounts_WHERE_id (id : Z) (t : tables)
  : list Z :=
  map SubAccount.user_id
      (List.filter (fun a => SubAccount.id a =? id) (sub_accounts t)).

(** [DELETE FROM sub_accounts WHERE id = ?]; the trades that referenced a
    deleted row get [sub_account_id = NULL] ([ON DELETE SET NULL]). *)
Definition DELETE_FROM_sub_accounts_WHERE_id (id : Z) (d : db)
  : run_result * db :=
  let t := cur d in
  let gone := List.filter (fun a => SubAccount.id a =? id) (sub_accounts t) in
  let kept := List.filter (fun a => negb (SubAccount.id a =? id)) (sub_accounts t) in
  let set_null (r : Trade.t) :=
    match Trade.sub_account_id r with
    | Some s =>
        if (s =? id) && negb (Nat.eqb (length gone) 0)
        then Trade.mk (Trade.id r) (Trade.user_id r) None (Trade.ticker r)
               (Trade.quantity r) (Trade.entry_price r) (Trade.exit_price r)
               (Trade.dir r) (Trade.st r) (Trade.entry_date r)
               (Trade.exit_date r) (Trade.notes r) (Trade.commission r)
               (Trade.created_at r) (Trade.updated_at r)
        else r
    | None => r
    end in
  (RunOk 0 (Z.of_nat (length gone)),
   set_cur d (mk_tables (users t) (user_settings t) kept
                        (map set_null (trades t))
                        (seq_users t) (seq_sub_accounts t) (seq_trades t))).

(** [UPDATE sub_accounts SET name = ?, description = ?, broker = ?,
    updated_at = ? WHERE id = ?], under [UNIQUE (user_id, name)].  On a table
    created without the [broker] column the statement cannot be prepared. *)
Definition UPDATE_sub_accounts (name : string) (description broker : option string)
    (updated_at : string) (id : Z) (d : db) : run_result * db :=
  let t := cur d in
  let hit (a : SubAccount.t) := SubAccount.id a =? id in
  let clash (a : SubAccount.t) :=
    existsb (fun b => negb (SubAccount.id b =? id)
                      && (SubAccount.user_id b =? SubAccount.user_id a)
                      && String.eqb (SubAccount.name b) name) (sub_accounts t) in
  if negb (sub_accounts_broker (db_schema d))
  then (RunErr (NO_SUCH_COLUMN "broker"), d)
  else if existsb (fun a => hit a && clash a) (sub_accounts t)
  then (RunErr (UNIQUE_failed "sub_accounts.user_id, sub_accounts.name"), d)
  else
    let set (a : SubAccount.t) :=
      if hit a
      then SubAccount.mk (SubAccount.id a) (SubAccount.user_id a) name
             description broker (SubAccount.created_at a) updated_at
      else a in
    (RunOk 0 (Z.of_nat (length (List.filter hit (sub_accounts t)))),
     set_cur d (mk_tables (users t) (user_settings t)
                          (map set (sub_accounts t)) (trades t)
                          (seq_users t) (seq_sub_accounts t) (seq_trades t))).

(** *** [trades] *)

(** A NOT NULL column receiving a bound parameter. *)
Definition not_null {A} (column : string) (v : option A) : sqlerr + A :=
  match v with
  | Some a => inr a
  | None => inl (NOT_NULL_failed column)
  end.

(** [INSERT INTO trades (user_id, sub_account_id, ticker, quantity,
    entry_price, direction, entry_date, exit_date, exit_price, notes,
    commission, status, created_at, updated_at) VALUES (...)]: the NOT NULL
    columns, then the three CHECKs, then the two foreign keys. *)
Definition INSERT_trades (user_id sub_account_id : option Z) (ticker : option string)
    (quantity entry_price : option Q) (direction entry_date exit_date : option string)
    (exit_price : option Q) (notes : option string) (commission : option Q)
    (status created_at updated_at : string) (d : db) : run_result * db :=
  let t := cur d in
  match not_null "trades.user_id" user_id with inl e => (RunErr e, d) | inr uid =>
  match not_null "trades.ticker" ticker with inl e => (RunErr e, d) | inr tk =>
  match not_null "trades.quantity" quantity with inl e => (RunErr e, d) | inr qty =>
  match not_null "trades.entry_price" entry_price with inl e => (RunErr e, d) | inr ep =>
  match not_null "trades.direction" direction with inl e => (RunErr e, d) | inr dr =>
  match not_null "trades.entry_date" entry_date with inl e => (RunErr e, d) | inr ed =>
  if Qle_bool qty 0 then (RunErr (CHECK_failed "quantity > 0"), d) else
  match check_direction dr with
  | None => (RunErr (CHECK_failed "direction IN ('long', 'short')"), d)
  | Some dir =>
  match check_status status with
  | None => (RunErr (CHECK_failed "status IN ('open', 'closed')"), d)
  | Some st =>
  if negb (existsb (fun u => User.id u =? uid) (users t))
  then (RunErr FOREIGN_KEY_failed, d)
  else if match sub_account_id with
          | Some s => negb (existsb (fun a => SubAccount.id a =? s) (sub_accounts t))
          | None => false
          end
  then (RunErr FOREIGN_KEY_failed, d)
  else
    let id := seq_trades t + 1 in
    let row := Trade.mk id uid sub_account_id tk qty ep exit_price dir st ed
                        exit_date notes commission created_at updated_at in
    (RunOk id 1,
     set_cur d (mk_tables (users t) (user_settings t) (sub_accounts t)
                          (trades t ++ [row])
                          (seq_users t) (seq_sub_accounts t) id))
  end end end end end end end end.

(** [UPDATE trades SET ... WHERE ...]: every row satisfying the WHERE clause
    is rewritten by the SET clause; [this.changes] counts them.  No SET clause
    of the repository touches a constrained column with an offending value. *)
Definition UPDATE_trades (SET : Trade.t -> Trade.t) (WHERE : Trade.t -> bool)
    (d : db) : run_result * db :=
  let t := cur d in
  (RunOk 0 (Z.of_nat (length (List.filter WHERE (trades t)))),
   set_cur d (set_trades t (map (fun r => if WHERE r then SET r else r) (trades t)))).

(** [DELETE FROM trades WHERE id = ?] *)
Definition DELETE_FROM_trades_WHERE_id (id : Z) (d : db) : run_result * db :=
  let t := cur d in
  (RunOk 0 (Z.of_nat (length (List.filter (fun r => Trade.id r =? id) (trades t)))),
   set_cur d (set_trades t (List.filter (fun r => negb (Trade.id r =? id)) (trades t)))).

(** The SET clause of [closeTrade]:
    [exit_price = ?, exit_date = ?, status = 'closed', updated_at = ?,
     notes = COALESCE(?, notes), commission = COALESCE(?, commission)]. *)
Definition SET_close (exit_price : option Q) (exit_date : option string)
    (updated_at : string) (notes : option string) (commission : option Q)
    (r : Trade.t) : Trade.t :=
  Trade.mk (Trade.id r) (Trade.user_id r) (Trade.sub_account_id r)
           (Trade.ticker r) (Trade.quantity r) (Trade.entry_price r)
           exit_price (Trade.dir r) closed (Trade.entry_date r) exit_date
           (COALESCE notes (Trade.notes r))
           (COALESCE commission (Trade.commission r))
           (Trade.created_at r) updated_at.

(** One ["column = ?"] entry of [fieldsToUpdate] together with its entry of
    [params]. *)
Inductive assignment : Type :=
| updated_at_eq (v : string)
| notes_eq (v : option string)
| commission_eq (v : option Q).

Definition assign (r : Trade.t) (a : assignment) : Trade.t :=
  match a with
  | updated_at_eq v =>
      Trade.mk (Trade.id r) (Trade.user_id r) (Trade.sub_account_id r)
               (Trade.ticker r) (Trade.quantity r) (Trade.entry_price r)
               (Trade.exit_price r) (Trade.dir r) (Trade.st r)
               (Trade.entry_date r) (Trade.exit_date r) (Trade.notes r)
               (Trade.commission r) (Trade.created_at r) v
  | notes_eq v =>
      Trade.mk (Trade.id r) (Trade.user_id r) (Trade.sub_account_id r)
               (Trade.ticker r) (Trade.quantity r) (Trade.entry_price r)
               (Trade.exit_price r) (Trade.dir r) (Trade.st r)
               (Trade.entry_date r) (Trade.exit_date r) v
               (Trade.commission r) (Trade.created_at r) (Trade.updated_at r)
  | commission_eq v =>
      Trade.mk (Trade.id r) (Trade.user_id r) (Trade.sub_account_id r)
               (Trade.ticker r) (Trade.quantity r) (Trade.entry_price r)
               (Trade.exit_price r) (Trade.dir r) (Trade.st r)
               (Trade.entry_date r) (Trade.exit_date r) (Trade.notes r)
               v (Trade.created_at r) (Trade.updated_at r)
  end.

(** [SET ${fieldsToUpdate.join(", ")}] *)
Definition SET_fields (fieldsToUpdate : list assignment) (r : Trade.t) : Trade.t :=
  fold_left assign fieldsToUpdate r.

(** *** Reading [trades] *)

(** Comparison of a nullable TEXT column: NULL is smaller than every value,
    values compare byte by byte. *)
Definition compare_nullable (a b : option string) : comparison :=
  match a, b with
  | None, None => Eq
  | None, Some _ => Lt
  | Some _, None => Gt
  | Some x, Some y => String_as_OT.compare x y
  end.

(** [ORDER BY exit_date DESC, entry_date DESC]: row [a] may come before
    row [b]. *)
Definition exit_date_DESC_entry_date_DESC (a b : Trade.t) : bool :=
  match compare_nullable (Trade.exit_date a) (Trade.exit_date b) with
  | Gt => true
  | Lt => false
  | Eq =>
      match String_as_OT.compare (Trade.entry_date a) (Trade.entry_date b) with
      | Lt => false
      | Eq | Gt => true
      end
  end.

(** [ORDER BY entry_date ASC] *)
Definition entry_date_ASC (a b : Trade.t) : bool :=
  match String_as_OT.compare (Trade.entry_date a) (Trade.entry_date b) with
  | Gt => false
  | Eq | Lt => true
  end.

(** The relation a comparison function decides. *)
Definition precedes (before : Trade.t -> Trade.t -> bool) : relation Trade.t :=
  fun a b => before a b = true.

(** A row put into rows that are already in order: in front of the first
    row that it may precede. *)
Fixpoint insert_before {A} (before : A -> A -> bool) (x : A) (l : list A)
  : list A :=
  match l with
  | [] => [x]
  | y :: l' => if before x y then x :: l else y :: insert_before before x l'
  end.

(** The sorter behind ORDER BY: rows with equal sort keys keep the order in
    which the table gave them. *)
Definition sorter {A} (before : A -> A -> bool) (rows : list A) : list A :=
  fold_right (insert_before before) [] rows.

Definition ORDER_BY (before : Trade.t -> Trade.t -> bool) (rows : list Trade.t)
  : list Trade.t :=
  sorter before rows.

(** Whether the number bound to LIMIT or to OFFSET is accepted.  The number
    is a JavaScript one ([Z] holds the value of an integral one); node-sqlite3
    binds it as a 32-bit integer when it is one and as a double otherwise,
    and SQLite takes a double for an integer only strictly between -2^63 and
    2^63. *)
Definition reads_as_integer (v : Z) : bool :=
  (-9223372036854775808 <? v) && (v <? 9223372036854775808).

(** [LIMIT ? OFFSET ?]: a negative limit means no limit, a negative offset
    means none; a number that is not read as an integer fails the statement
    with SQLITE_MISMATCH before any row is produced. *)
Definition LIMIT_OFFSET {A} (limit offset : Z) (rows : list A)
  : sqlerr + list A :=
  if reads_as_integer limit && reads_as_integer offset
  then
    let rest := drop (Z.to_nat offset) rows in
    inr (if limit <? 0 then rest else take (Z.to_nat limit) rest)
  else inl DATATYPE_mismatch.

(** [SELECT * FROM trades WHERE id = ?] *)
Definition SELECT_trades_WHERE_id (id : Z) (t : tables) : list Trade.t :=
  List.filter (fun r => Trade.id r =? id) (trades t).

(** The row [findTradeById] would be given on a working store. *)
Definition trade_row (id : Z) (d : db) : option Trade.t :=
  head (SELECT_trades_WHERE_id id (cur d)).

(** [SELECT * FROM trades WHERE user_id = ? AND status = 'open'
    ORDER BY entry_date ASC] *)
Definition SELECT_open_trades (user_id : Z) (t : tables) : list Trade.t :=
  ORDER_BY entry_date_ASC
    (List.filter (fun r => (Trade.user_id r =? user_id)
                           && status_eqb (Trade.st r) open) (trades t)).

(** [SELECT * FROM trades WHERE user_id = ? AND status = 'closed'
    ORDER BY exit_date DESC, entry_date DESC LIMIT ? OFFSET ?] *)
Definition SELECT_closed_trades (user_id limit offset : Z) (t : tables)
  : sqlerr + list Trade.t :=
  LIMIT_OFFSET limit offset
    (ORDER_BY exit_date_DESC_entry_date_DESC
       (List.filter (fun r => (Trade.user_id r =? user_id)
                              && status_eqb (Trade.st r) closed) (trades t))).

(** The WHERE clause [sub_account_id = ? AND user_id = ?]. *)
Definition in_sub_account (sub_account_id user_id : Z) (r : Trade.t) : bool :=
  match Trade.sub_account_id r with
  | Some s => (s =? sub_account_id) && (Trade.user_id r =? user_id)
  | None => false
  end.

(** [SELECT * FROM trades WHERE sub_account_id = ? AND user_id = ?
    ORDER BY exit_date DESC, entry_date DESC LIMIT ? OFFSET ?] *)
Definition SELECT_sub_account_trades (sub_account_id user_id limit offset : Z)
    (t : tables) : sqlerr + list Trade.t :=
  LIMIT_OFFSET limit offset
    (ORDER_BY exit_date_DESC_entry_date_DESC
       (List.filter (in_sub_account sub_account_id user_id) (trades t))).

(** ** user_repository.js *)

(** The callback shared by the single-row finders:
    [if (err) reject(err); else resolve(row || null)]. *)
Definition resolve_row {R} (r : sqlerr + option R) : outcome (option R) :=
  match r with
  | inl err => Rejected err
  | inr row => Resolved row
  end.

(** The callback shared by the multi-row finders:
    [if (err) reject(err); else resolve(rows || [])]. *)
Definition resolve_rows {R} (r : sqlerr + list R) : outcome (list R) :=
  match r with
  | inl err => Rejected err
  | inr rows => Resolved rows
  end.

(** The callback shared by the inserts:
    [if (err) reject(err); else resolve(this.lastID)]. *)
Definition resolve_lastID (r : run_result) : outcome Z :=
  match r with
  | RunErr err => Rejected err
  | RunOk lastID _ => Resolved lastID
  end.

(** The callback shared by the updates and deletes:
    [if (err) reject(err); else resolve(this.changes > 0)]. *)
Definition resolve_changes (r : run_result) : outcome bool :=
  match r with
  | RunErr err => Rejected err
  | RunOk _ changes => Resolved (0 <? changes)
  end.

Definition createUser (username email passwordHash now : string) (d : db)
  : outcome Z * db :=
  let '(r, d') := db_run (INSERT_users username email passwordHash now now) d in
  (resolve_lastID r, d').

Definition findUserById (id : Z) (d : db) : outcome (option User.t) * db :=
  let '(r, d') := db_get (SELECT_users_WHERE_id id) d in
  (resolve_row r, d').

Definition findUserByEmail (email : string) (d : db)
  : outcome (option User.t) * db :=
  let '(r, d') := db_get (SELECT_users_WHERE_email email) d in
  (resolve_row r, d').

(** The [defaultSettings] argument of [createUserWithSettings]. *)
Module DefaultSettings.
Record t : Type := mk {
  default_currency : jsval string;
  theme : jsval string
}.
End DefaultSettings.

(** [createUserWithSettings].  Inside [db.serialize] the BEGIN and the user
    INSERT are both submitted before either callback runs, so the INSERT runs
    whatever BEGIN answered; the later statements are submitted from the
    callbacks, one after the other.  [p] is the promise: BEGIN's callback may
    already have rejected it when the later callbacks settle it. *)
Definition createUserWithSettings (username email passwordHash : string)
    (defaultSettings : DefaultSettings.t) (now : string) (d : db)
  : outcome Z * db :=
  let '(r_begin, d) := db_run BEGIN_TRANSACTION d in
  let p := match r_begin with
           | RunErr err => settle Pending (Rejected err)
           | RunOk _ _ => Pending
           end in
  let '(r_user, d) := db_run (INSERT_users username email passwordHash now now) d in
  match r_user with
  | RunErr userErr =>
      let '(_, d) := db_run ROLLBACK d in
      (settle p (Rejected userErr), d)
  | RunOk userId _ =>
      let '(r_settings, d) :=
        db_run (INSERT_user_settings userId
                  (js_or (DefaultSettings.default_currency defaultSettings) "USD")
                  (js_or (DefaultSettings.theme defaultSettings) "light")
                  now now) d in
      match r_settings with
      | RunErr settingsErr =>
          let '(_, d) := db_run ROLLBACK d in
          (settle p (Rejected settingsErr), d)
      | RunOk _ _ =>
          let '(r_commit, d) := db_run COMMIT d in
          match r_commit with
          | RunErr commitErr =>
              let '(_, d) := db_run ROLLBACK d in
              (settle p (Rejected commitErr), d)
          | RunOk _ _ => (settle p (Resolved userId), d)
          end
      end
  end.

(** What [import * as userRepository from "../user_repository.js"] binds: the
    names of the module's [export { ... }] list. *)
Inductive user_repository_fn : Type :=
| fn_createUser
| fn_findUserById
| fn_findUserByEmail
| fn_createUserWithSettings
| fn_findSettingsByUserId.

Definition userRepository : gmap string user_repository_fn :=
  list_to_map
    [("createUser", fn_createUser);
     ("findUserById", fn_findUserById);
     ("findUserByEmail", fn_findUserByEmail);
     ("createUserWithSettings", fn_createUserWithSettings);
     ("findSettingsByUserId", fn_findSettingsByUserId)].

(** The result of calling a property of the module object. *)
Inductive call (A : Type) : Type :=
| TypeError_is_not_a_function (name : string)
| Returns (a : A).
Arguments TypeError_is_not_a_function {A} name.
Arguments Returns {A} a.

(** [userRepository[name](...)]: a name that the module does not export is
    [undefined], and calling it throws; an exported one runs its body. *)
Definition call_export {A} (name : string) (body : user_repository_fn -> A)
  : call A :=
  match userRepository !! name with
  | Some fn => Returns (body fn)
  | None => TypeError_is_not_a_function name
  end.

(** ** sub_account_repository.js *)

Definition createSubAccount (userId : Z) (name : string)
    (description : jsval string) (now : string) (d : db) : outcome Z * db :=
  let '(r, d') :=
    db_run (INSERT_sub_accounts userId name (bind description) now now) d in
  (resolve_lastID r, d').

Definition updateSubAccount (id : Z) (name : string)
    (description broker : jsval string) (now : string) (d : db)
  : outcome bool * db :=
  let '(r, d') :=
    db_run (UPDATE_sub_accounts name (bind description) (bind broker) now id) d in
  (resolve_changes r, d').

Definition deleteSubAccount (id : Z) (d : db) : outcome bool * db :=
  let '(r, d') := db_run (DELETE_FROM_sub_accounts_WHERE_id id) d in
  (resolve_changes r, d').

(** ** trade_repository.js *)

(** The [tradeData] argument of [createTrade]. *)
Module TradeData.
Record t : Type := mk {
  userId : jsval Z;
  subAccountId : jsval Z;
  ticker : jsval string;
  quantity : jsval Q;
  entryPrice : jsval Q;
  direction : jsval string;
  entryDate : jsval string;
  exitDate : jsval string;
  exitPrice : jsval Q;
  notes : jsval string;
  commission : jsval Q;
  status : jsval string
}.
End TradeData.

(** The [closeData] argument of [closeTrade]. *)
Module CloseData.
Record t : Type := mk {
  id : Z;
  exitPrice : jsval Q;
  exitDate : jsval string;
  notes : jsval string;
  commission : jsval Q
}.
End CloseData.

(** The second argument of [updateTradeDetails], after its destructuring
    [{notes = undefined, commission = undefined}]. *)
Module Updates.
Record t : Type := mk {
  notes : jsval string;
  commission : jsval Q
}.
End Updates.

Definition createTrade (tradeData : TradeData.t) (now : string) (d : db)
  : outcome Z * db :=
  let '(r, d') :=
    db_run (INSERT_trades
              (bind (TradeData.userId tradeData))
              (bind (TradeData.subAccountId tradeData))
              (bind (TradeData.ticker tradeData))
              (bind (TradeData.quantity tradeData))
              (bind (TradeData.entryPrice tradeData))
              (bind (TradeData.direction tradeData))
              (bind (TradeData.entryDate tradeData))
              (bind (TradeData.exitDate tradeData))
              (bind (TradeData.exitPrice tradeData))
              (bind (TradeData.notes tradeData))
              (bind (TradeData.commission tradeData))
              (js_or (TradeData.status tradeData) "open")
              now now) d in
  (resolve_lastID r, d').

Definition findTradeById (id : Z) (d : db) : outcome (option Trade.t) * db :=
  let '(r, d') := db_get (SELECT_trades_WHERE_id id) d in
  (resolve_row r, d').

Definition findOpenTradesByUserId (userId : Z) (d : db)
  : outcome (list Trade.t) * db :=
  let '(r, d') := db_all (fun t => inr (SELECT_open_trades userId t)) d in
  (resolve_rows r, d').

(** A parameter with a default value: the default replaces [undefined]. *)
Definition default_param (v : option Z) (dflt : Z) : Z :=
  match v with
  | Some z => z
  | None => dflt
  end.

Definition findClosedTradesByUserId (userId : Z) (limit offset : option Z)
    (d : db) : outcome (list Trade.t) * db :=
  let limit := default_param limit 50 in
  let offset := default_param offset 0 in
  let '(r, d') := db_all (SELECT_closed_trades userId limit offset) d in
  (resolve_rows r, d').

Definition findTradesBySubAccountId (subAccountId : Z) (limit offset : option Z)
    (d : db) : outcome (list Trade.t) * db :=
  let limit := default_param limit 50 in
  let offset := default_param offset 0 in
  let '(r, d) := db_get (SELECT_user_id_FROM_sub_accounts_WHERE_id subAccountId) d in
  match r with
  | inl err => (Rejected err, d)
  | inr None => (Resolved [], d)
  | inr (Some userId) =>
      let '(r, d) :=
        db_all (SELECT_sub_account_trades subAccountId userId limit offset) d in
      (resolve_rows r, d)
  end.

(** The WHERE clause of [closeTrade]: [id = ? and status = 'open']. *)
Definition open_with_id (id : Z) (r : Trade.t) : bool :=
  (Trade.id r =? id) && status_eqb (Trade.st r) open.

(** The [sql] and [params] of [closeTrade]. *)
Definition closeTrade_sql (closeData : CloseData.t) (now : string)
  : db -> run_result * db :=
  UPDATE_trades
    (SET_close (bind (CloseData.exitPrice closeData))
               (bind (CloseData.exitDate closeData))
               now
               (bind (CloseData.notes closeData))
               (bind (CloseData.commission closeData)))
    (open_with_id (CloseData.id closeData)).

Definition closeTrade (closeData : CloseData.t) (now : string) (d : db)
  : outcome bool * db :=
  let '(r, d') := db_run (closeTrade_sql closeData now) d in
  (resolve_changes r, d').

(** The [fieldsToUpdate]/[params] pair that [updateTradeDetails] builds. *)
Definition fieldsToUpdate (updates : Updates.t) (now : string) : list assignment :=
  [updated_at_eq now]
  ++ (if is_defined (Updates.notes updates)
      then [notes_eq (bind (Updates.notes updates))] else [])
  ++ (if is_defined (Updates.commission updates)
      then [commission_eq (bind (Updates.commission updates))] else []).

(** The WHERE clause [id = ?]. *)
Definition with_id (id : Z) (r : Trade.t) : bool := Trade.id r =? id.

(** The [sql] and [params] of [updateTradeDetails]. *)
Definition updateTradeDetails_sql (id : Z) (updates : Updates.t) (now : string)
  : db -> run_result * db :=
  UPDATE_trades (SET_fields (fieldsToUpdate updates now)) (with_id id).

Definition updateTradeDetails (id : Z) (updates : Updates.t) (now : string)
    (d : db) : outcome bool * db :=
  if negb (is_defined (Updates.notes updates))
     && negb (is_defined (Updates.commission updates))
  then (Resolved false, d)
  else
    let '(r, d') := db_run (updateTradeDetails_sql id updates now) d in
    (resolve_changes r, d').

Definition deleteTrade (id : Z) (d : db) : outcome bool * db :=
  let '(r, d') := db_run (DELETE_FROM_trades_WHERE_id id) d in
  (resolve_changes r, d').

(** ** Sequences of repository operations *)

(** Every operation of the three repositories that writes to the store. *)
Inductive op : Type :=
| op_createUser (username email passwordHash : string)
| op_createUserWithSettings (username email passwordHash : string)
                            (defaultSettings : DefaultSettings.t)
| op_createSubAccount (userId : Z) (name : string) (description : jsval string)
| op_updateSubAccount (id : Z) (name : string) (description broker : jsval string)
| op_deleteSubAccount (id : Z)
| op_createTrade (tradeData : TradeData.t)
| op_closeTrade (closeData : CloseData.t)
| op_updateTradeDetails (id : Z) (updates : Updates.t)
| op_deleteTrade (id : Z).

(** One operation performed at clock reading [now]; only the store is kept. *)
Definition step (d : db) (o_now : op * string) : db :=
  let '(o, now) := o_now in
  match o with
  | op_createUser u e h => snd (createUser u e h now d)
  | op_createUserWithSettings u e h s => snd (createUserWithSettings u e h s now d)
  | op_createSubAccount u n ds => snd (createSubAccount u n ds now d)
  | op_updateSubAccount i n ds b => snd (updateSubAccount i n ds b now d)
  | op_deleteSubAccount i => snd (deleteSubAccount i d)
  | op_createTrade t => snd (createTrade t now d)
  | op_closeTrade c => snd (closeTrade c now d)
  | op_updateTradeDetails i u => snd (updateTradeDetails i u now d)
  | op_deleteTrade i => snd (deleteTrade i d)
  end.

Definition run (ops : list (op * string)) (d : db) : db :=
  fold_left step ops d.

(** ** Well-formed stores *)

(** The stored status of the trade with a given id, if any. *)
Definition status_of (id : Z) (d : db) : option status :=
  Trade.st <$> trade_row id d.

(** [id INTEGER PRIMARY KEY AUTOINCREMENT]: ids are pairwise distinct and none
    exceeds the table's [sqlite_sequence] counter. *)
Definition keys_ok (ids : list Z) (seq : Z) : Prop :=
  NoDup ids /\ Forall (fun i => i <= seq) ids.

(** The store between two operations when the environment inflicts no
    failure: primary keys are in order, no transaction is open. *)
Record healthy (d : db) : Prop := mk_healthy {
  healthy_users : keys_ok (map User.id (users (cur d))) (seq_users (cur d));
  healthy_trades : keys_ok (map Trade.id (trades (cur d))) (seq_trades (cur d));
  healthy_txn : txn d = None;
  healthy_faults : faults d = []
}.

(** What the trade repository owns of the store. *)
Definition trade_part (d : db) : list Trade.t * Z :=
  (trades (cur d), seq_trades (cur d)).

(** The moves that one operation may make on the status of the trade with
    id [k]: a closed trade never becomes open, and an open one becomes closed
    only through [closeTrade] on that id. *)
Definition status_move (o : op) (k : Z) (s s' : option status) : Prop :=
  match s, s' with
  | Some closed, Some open => False
  | Some open, Some closed =>
      exists closeData, o = op_closeTrade closeData /\ CloseData.id closeData = k
  | _, _ => True
  end.

(** ** Sample data *)

Module Sample.
Definition t0 : string := "2025-01-01T00:00:00.000Z".
Definition t1 : string := "2025-01-02T00:00:00.000Z".
Definition t2 : string := "2025-01-03T00:00:00.000Z".
Definition t3 : string := "2025-01-04T00:00:00.000Z".

Definition tradeData : TradeData.t :=
  TradeData.mk (Val 1) (Val 1) (Val "TST") (Val (10 # 1)) (Val (100 # 1))
               (Val "long") (Val t0) Undefined Undefined
               (Val "Initial trade notes") (Val (199 # 100)) Undefined.

(** One user, one sub-account and one open trade on the test schema. *)
Definition store : db :=
  run [(op_createUser "tradeUser" "trade@example.com" "hashed_password", t0);
       (op_createSubAccount 1 "Trade Test SubAcc" (Val "for trade tests"), t0);
       (op_createTrade tradeData, t1)]
      initDB_test_env.

Definition closeData : CloseData.t :=
  CloseData.mk 1 (Val (115 # 1)) (Val t2) Undefined Undefined.

(** The same store after the trade was closed. *)
Definition closed_store : db := snd (closeTrade closeData t2 store).

Definition entered (ticker date : string) : TradeData.t :=
  TradeData.mk (Val 1) (Val 1) (Val ticker) (Val (10 # 1)) (Val (100 # 1))
               (Val "long") (Val date) Undefined Undefined
               (Val "Initial trade notes") (Val (199 # 100)) Undefined.

Definition exited (id : Z) (date : string) : CloseData.t :=
  CloseData.mk id (Val (110 # 1)) (Val date) Undefined Undefined.

(** Three more trades, closed on the 12th, the 10th and the 11th of
    January; trade 1 stays open. *)
Definition journal : db :=
  run [(op_createTrade (entered "CLOSED2" "2025-01-05T00:00:00.000Z"), t1);
       (op_createTrade (entered "CLOSED3" "2025-01-04T00:00:00.000Z"), t1);
       (op_createTrade (entered "RD-CLOSED" "2025-01-06T00:00:00.000Z"), t1);
       (op_closeTrade (exited 2 "2025-01-12T00:00:00.000Z"), t2);
       (op_closeTrade (exited 3 "2025-01-10T00:00:00.000Z"), t2);
       (op_closeTrade (exited 4 "2025-01-11T00:00:00.000Z"), t2)]
      store.

Definition ids (p : outcome (list Trade.t) * db) : list Z :=
  match fst p with
  | Resolved rows => map Trade.id rows
  | _ => []
  end.

(** The empty test store with a transaction left open on the handle. *)
Definition in_transaction : db :=
  mk_db (db_schema initDB_test_env) empty_tables (Some empty_tables) [].

Definition settings : DefaultSettings.t :=
  DefaultSettings.mk (Val "EUR") (Val "dark").

(** The empty test store at a moment when the store refuses the next
    statement. *)
Definition busy : db :=
  mk_db (db_schema initDB_test_env) empty_tables None
        [Some (STORE_fault "SQLITE_BUSY: database is locked")].

(** The store of [src/db/database.js] after one sign-up. *)
Definition production : db :=
  snd (createUser "existingUser" "fail_email@example.com" "hashed_pass" t0
                  initDB_database).

(** The test store after the same sign-up. *)
Definition test : db :=
  snd (createUser "existingUser" "fail_email@example.com" "hashed_pass" t0
                  initDB_test_env).
End Sample.

(** The reading of [createUserWithSettings] under which every supplied
    [default_currency] is stored as given. *)
Definition supplied_currency_stored_as_given : Prop :=
  forall (u e h : string) (s : DefaultSettings.t) (now : string) (d : db)
         (uid : Z) (d' : db) (c : string),
    createUserWithSettings u e h s now d = (Resolved uid, d') ->
    DefaultSettings.default_currency s = Val c ->
    exists row,
      In row (user_settings (cur d'))
      /\ Settings.user_id row = uid
      /\ Settings.default_currency row = c.

(** ** sub_account_repository.js: the finders *)

(** [SELECT * FROM sub_accounts WHERE id = ?] *)
Definition SELECT_sub_accounts_WHERE_id (id : Z) (t : tables)
  : list SubAccount.t :=
  List.filter (fun a => SubAccount.id a =? id) (sub_accounts t).

Definition findSubAccountById (id : Z) (d : db)
  : outcome (option SubAccount.t) * db :=
  let '(r, d') := db_get (SELECT_sub_accounts_WHERE_id id) d in
  (resolve_row r, d').

(** [ORDER BY name ASC] *)
Definition name_ASC (a b : SubAccount.t) : bool :=
  match String_as_OT.compare (SubAccount.name a) (SubAccount.name b) with
  | Gt => false
  | Eq | Lt => true
  end.

Definition name_precedes : relation SubAccount.t :=
  fun a b => name_ASC a b = true.

(** [SELECT * FROM sub_accounts WHERE user_id = ? ORDER BY name ASC] *)
Definition SELECT_sub_accounts_WHERE_user_id (user_id : Z) (t : tables)
  : list SubAccount.t :=
  sorter name_ASC
    (List.filter (fun a => SubAccount.user_id a =? user_id) (sub_accounts t)).

Definition findSubAccountsByUserId (userId : Z) (d : db)
  : outcome (list SubAccount.t) * db :=
  let '(r, d') :=
    db_all (fun t => inr (SELECT_sub_accounts_WHERE_user_id userId t)) d in
  (resolve_rows r, d').

(** ** src/db/database_test_env.js: the connection *)

Module Connection.
(** An open [sqlite3.Database] object: the file it was opened on and whether
    foreign keys are enforced on it (off on a new connection, switched on by
    [PRAGMA foreign_keys = ON]). *)
Record handle : Type := mk_handle {
  file : string;
  foreign_keys : bool
}.

(** What the environment answers during one call: to opening the file, to
    the PRAGMA, to closing. *)
Record answers : Type := mk_answers {
  open_err : option sqlerr;
  pragma_err : option sqlerr;
  close_err : option sqlerr
}.

(** [dbFileName], chosen by [process.env.NODE_ENV]. *)
Definition dbFileName (NODE_ENV : string) : string :=
  if String.eqb NODE_ENV "test" then "trading_app_test.db" else "trading_app.db".

(** [connectToDatabase], on the module variable [db] ([None] is [null]).  The
    variable is assigned as soon as the [Database] object is constructed; the
    open callback resets it on an error; the PRAGMA callback rejects on an
    error and then calls [resolve], which a rejected promise ignores. *)
Definition connectToDatabase (NODE_ENV : string) (env : answers)
    (db : option handle) : outcome handle * option handle :=
  match db with
  | Some h => (Resolved h, db)
  | None =>
      match open_err env with
      | Some err => (Rejected err, None)
      | None =>
          match pragma_err env with
          | Some fkErr =>
              let h := mk_handle (dbFileName NODE_ENV) false in
              (settle (Rejected fkErr) (Resolved h), Some h)
          | None =>
              let h := mk_handle (dbFileName NODE_ENV) true in
              (settle Pending (Resolved h), Some h)
          end
      end
  end.

(** [closeDb] *)
Definition closeDb (env : answers) (db : option handle)
  : outcome unit * option handle :=
  match db with
  | Some h =>
      match close_err env with
      | Some err => (Rejected err, db)
      | None => (Resolved tt, None)
      end
  | None => (Resolved tt, db)
  end.
End Connection.

(** ** What the schema promises about a store *)

(** The foreign keys: every settings row, sub-account and trade belongs to a
    stored user, and a trade's sub-account, when it has one, is stored. *)
Record references_ok (d : db) : Prop := mk_references_ok {
  settings_user :
    Forall (fun s => In (Settings.user_id s) (map User.id (users (cur d))))
           (user_settings (cur d));
  sub_account_user :
    Forall (fun a => In (SubAccount.user_id a) (map User.id (users (cur d))))
           (sub_accounts (cur d));
  trade_user :
    Forall (fun r => In (Trade.user_id r) (map User.id (users (cur d))))
           (trades (cur d));
  trade_sub_account :
    Forall (fun r => match Trade.sub_account_id r with
                     | Some s => In s (map SubAccount.id (sub_accounts (cur d)))
                     | None => True
                     end)
           (trades (cur d))
}.

(** [username TEXT UNIQUE], [email TEXT UNIQUE] of the test schema. *)
Definition users_unique (d : db) : Prop :=
  NoDup (map User.username (users (cur d)))
  /\ NoDup (map User.email (users (cur d))).

(** [user_id INTEGER PRIMARY KEY] of [user_settings]. *)
Definition one_settings_row_per_user (d : db) : Prop :=
  NoDup (map Settings.user_id (user_settings (cur d))).

(** [id INTEGER PRIMARY KEY AUTOINCREMENT] of [sub_accounts]. *)
Definition sub_account_keys_ok (d : db) : Prop :=
  keys_ok (map SubAccount.id (sub_accounts (cur d))) (seq_sub_accounts (cur d)).

(** ** More sample data *)

Module Demo.
(** Two users with one sub-account each, the first user with a second one. *)
Definition accounts : db :=
  run [(op_createUser "subAccUser" "subacc@example.com" "hashed_password",
        Sample.t0);
       (op_createUser "otherUser" "other@example.com" "hashed_pw", Sample.t0);
       (op_createSubAccount 1 "Account B" (Val "Desc B"), Sample.t1);
       (op_createSubAccount 2 "Other Account" (Val "Other Desc"), Sample.t1);
       (op_createSubAccount 1 "Account A" (Val "Desc A"), Sample.t1)]
      initDB_test_env.

(** The environment answering without any error. *)
Definition fine : Connection.answers :=
  Connection.mk_answers None None None.

(** The environment failing the PRAGMA. *)
Definition pragma_fails : Connection.answers :=
  Connection.mk_answers None (Some (STORE_fault "SQLITE_BUSY")) None.

(** An empty test store on which the second statement to come fails. *)
Definition second_statement_fails : db :=
  mk_db (db_schema initDB_test_env) empty_tables None
        [None; Some (STORE_fault "SQLITE_IOERR")].
End Demo.

Example sample_trade_is_open : status_of 1 Sample.store = Some open.
Proof. reflexivity. Qed.

Example sample_trade_gets_closed :
  fst (closeTrade Sample.closeData Sample.t2 Sample.store) = Resolved true
  /\ status_of 1 Sample.closed_store = Some closed.
Proof. split; reflexivity. Qed.

Example sample_second_close :
  closeTrade Sample.closeData Sample.t3 Sample.closed_store
  = (Resolved false, Sample.closed_store).
Proof. reflexivity. Qed.

Example closed_trades_in_pages :
  Sample.ids (findClosedTradesByUserId 1 (Some 2) (Some 0) Sample.journal) = [2; 4]
  /\ Sample.ids (findClosedTradesByUserId 1 (Some 2) (Some 2) Sample.journal) = [3].
Proof. split; reflexivity. Qed.

Example sub_account_trades_sorted :
  Sample.ids (findTradesBySubAccountId 1 None None Sample.journal) = [2; 4; 3; 1]
  /\ Sample.ids (findTradesBySubAccountId 1 (Some 2) (Some 1) Sample.journal)
     = [4; 3]
  /\ findTradesBySubAccountId 9999 None None Sample.journal
     = (Resolved [], Sample.journal).
Proof. repeat split; reflexivity. Qed.

Example open_trades_of_user :
  Sample.ids (findOpenTradesByUserId 1 Sample.journal) = [1].
Proof. reflexivity. Qed.

(** Trades entered at the same instant are listed in the order of their
    ids. *)
Example equal_entry_dates_in_rowid_order :
  Sample.ids
    (findOpenTradesByUserId 1
       (run [(op_createTrade (Sample.entered "B" Sample.t0), Sample.t1);
             (op_createTrade (Sample.entered "A" Sample.t0), Sample.t1);
             (op_createTrade (Sample.entered "C" "2024-12-31T00:00:00.000Z"),
              Sample.t1)]
            Sample.store))
  = [4; 1; 2; 3].
Proof. reflexivity. Qed.

(** ** Statements on a working store *)

Lemma next_fault_none d : faults d = [] -> next_fault d = (None, d).
Proof. unfold next_fault. intros ->. reflexivity. Qed.

Lemma db_run_working stmt d : faults d = [] -> db_run stmt d = stmt d.
Proof. intros H. unfold db_run. rewrite next_fault_none by exact H. reflexivity. Qed.

Lemma db_get_working {R} (q : tables -> list R) d :
  faults d = [] -> db_get q d = (inr (head (q (cur d))), d).
Proof. intros H. unfold db_get. rewrite next_fault_none by exact H. reflexivity. Qed.

Lemma db_all_working {R} (q : tables -> sqlerr + list R) d :
  faults d = [] -> db_all q d = (q (cur d), d).
Proof. intros H. unfold db_all. rewrite next_fault_none by exact H. reflexivity. Qed.

Lemma set_trades_same d : set_cur d (set_trades (cur d) (trades (cur d))) = d.
Proof. destruct d as [s [] x f]. reflexivity. Qed.

(** ** Rows and primary keys *)

Section Keyed.
Context {A : Type} (key : A -> Z).

Lemma filter_key_map (f : A -> A) k l :
  (forall a, key (f a) = key a) ->
  List.filter (fun a => key a =? k) (map f l)
  = map f (List.filter (fun a => key a =? k) l).
Proof.
  intros Hf. induction l as [|a l IH]; simpl; [reflexivity|].
  rewrite Hf. destruct (key a =? k); simpl; congruence.
Qed.

Lemma filter_filter_key k k' l :
  List.filter (fun a => key a =? k)
              (List.filter (fun a => negb (key a =? k')) l)
  = if k =? k' then [] else List.filter (fun a => key a =? k) l.
Proof.
  induction l as [|a l IH]; simpl; [destruct (k =? k'); reflexivity|].
  destruct (Z.eqb_spec (key a) k'), (Z.eqb_spec (key a) k),
           (Z.eqb_spec k k'); simpl;
    try (destruct (Z.eqb_spec (key a) k)); try lia;
    rewrite IH; try reflexivity;
    destruct (Z.eqb_spec k k'); try lia; reflexivity.
Qed.

Lemma map_if_none (w : A -> bool) (f : A -> A) l :
  List.filter w l = [] -> map (fun a => if w a then f a else a) l = l.
Proof.
  induction l as [|a l IH]; simpl; [reflexivity|].
  destruct (w a); [discriminate|]. intros H. f_equal. auto.
Qed.
End Keyed.

Lemma head_map {A B} (f : A -> B) l : head (map f l) = f <$> head l.
Proof. destruct l; reflexivity. Qed.

(** The row with a given id after an UPDATE whose SET clause keeps ids. *)
Lemma trade_row_UPDATE SET WHERE d k :
  (forall r, Trade.id (SET r) = Trade.id r) ->
  trade_row k (snd (UPDATE_trades SET WHERE d))
  = (fun r => if WHERE r then SET r else r) <$> trade_row k d.
Proof.
  intros Hid. unfold trade_row, SELECT_trades_WHERE_id. simpl.
  rewrite (filter_key_map Trade.id).
  - apply head_map.
  - intros a. destruct (WHERE a); [apply Hid | reflexivity].
Qed.

Lemma assign_id r a : Trade.id (assign r a) = Trade.id r.
Proof. destruct a; reflexivity. Qed.

Lemma assign_st r a : Trade.st (assign r a) = Trade.st r.
Proof. destruct a; reflexivity. Qed.

Lemma SET_fields_id fs r : Trade.id (SET_fields fs r) = Trade.id r.
Proof.
  unfold SET_fields. revert r.
  induction fs as [|a fs IH]; intros r; simpl; [reflexivity|].
  rewrite IH. apply assign_id.
Qed.

Lemma SET_fields_st fs r : Trade.st (SET_fields fs r) = Trade.st r.
Proof.
  unfold SET_fields. revert r.
  induction fs as [|a fs IH]; intros r; simpl; [reflexivity|].
  rewrite IH. apply assign_st.
Qed.

(** [this.changes] of an UPDATE or DELETE keyed by the primary key. *)
Lemma changes_by_id (w p : Trade.t -> bool) k d :
  healthy d ->
  (forall r, w r = (Trade.id r =? k) && p r) ->
  length (List.filter w (trades (cur d)))
  = match trade_row k d with
    | Some r => if p r then 1%nat else 0%nat
    | None => 0%nat
    end.
Proof.
  intros [_ [Hnd _] _ _] Hw. unfold trade_row, SELECT_trades_WHERE_id.
  induction (trades (cur d)) as [|a l IH]; simpl; [reflexivity|].
  simpl in Hnd. apply NoDup_cons in Hnd as [Hnotin Hnd].
  rewrite Hw.
  destruct (Z.eqb_spec (Trade.id a) k) as [Heq|Hne]; simpl; [|auto].
  assert (Hnil : List.filter w l = []).
  { clear IH Hnd. induction l as [|b l IHl]; simpl; [reflexivity|].
    simpl in Hnotin. rewrite not_elem_of_cons in Hnotin.
    destruct Hnotin as [Hb Hl]. rewrite Hw.
    destruct (Z.eqb_spec (Trade.id b) k); simpl; [congruence|]. auto. }
  rewrite Hnil. destruct (p a); reflexivity.
Qed.

(** The row found under an id carries that id. *)
Lemma trade_row_id k d r : trade_row k d = Some r -> Trade.id r = k.
Proof.
  unfold trade_row, SELECT_trades_WHERE_id. intros Er.
  destruct (List.filter _ _) as [|x l] eqn:Efl; [discriminate|].
  simpl in Er. injection Er as ->.
  assert (Hin : In r (List.filter (fun r0 => Trade.id r0 =? k) (trades (cur d))))
    by (rewrite Efl; left; reflexivity).
  apply filter_In in Hin. destruct Hin as [_ Hin]. lia.
Qed.

(** ** closeTrade *)

Lemma closeTrade_working cd now d :
  faults d = [] ->
  closeTrade cd now d
  = (Resolved (0 <? Z.of_nat (length (List.filter (open_with_id (CloseData.id cd))
                                                  (trades (cur d))))),
     snd (closeTrade_sql cd now d)).
Proof.
  intros H. unfold closeTrade. rewrite db_run_working by exact H. reflexivity.
Qed.

Lemma closeTrade_no_open_row cd now d :
  List.filter (open_with_id (CloseData.id cd)) (trades (cur d)) = [] ->
  snd (closeTrade_sql cd now d) = d.
Proof.
  intros H. unfold closeTrade_sql, UPDATE_trades. simpl.
  rewrite map_if_none by exact H. apply set_trades_same.
Qed.

(** C2: [closeTrade] rewrites the row only when its status is ['open'],
    storing the exit price and the exit date of the call (NULL for one that
    is left out or null), status ['closed'] and the operation time; it
    resolves with [true] exactly when one row was affected, and with [false],
    the store untouched, when the id is unknown or the trade is already
    closed. *)
Theorem closeTrade_conditional_update (cd : CloseData.t) (now : string) (d : db) :
  healthy d ->
  exists changes d',
    db_run (closeTrade_sql cd now) d = (RunOk 0 changes, d')
    /\ closeTrade cd now d = (Resolved (0 <? changes), d')
    /\ ((0 <? changes) = true <-> changes = 1)
    /\ match trade_row (CloseData.id cd) d with
       | Some r =>
           match Trade.st r with
           | open =>
               changes = 1
               /\ exists r', trade_row (CloseData.id cd) d' = Some r'
                  /\ Trade.exit_price r' = match CloseData.exitPrice cd with
                                           | Val p => Some p
                                           | Undefined | Null => None
                                           end
                  /\ Trade.exit_date r' = match CloseData.exitDate cd with
                                          | Val x => Some x
                                          | Undefined | Null => None
                                          end
                  /\ Trade.st r' = closed
                  /\ Trade.updated_at r' = now
           | closed => changes = 0 /\ d' = d
           end
       | None => changes = 0 /\ d' = d
       end.
Proof.
  intros Hd. pose proof (healthy_faults d Hd) as Hf.
  assert (Hch : length (List.filter (open_with_id (CloseData.id cd))
                                    (trades (cur d)))
                = match trade_row (CloseData.id cd) d with
                  | Some r => if status_eqb (Trade.st r) open then 1%nat else 0%nat
                  | None => 0%nat
                  end)
    by exact (changes_by_id _ (fun r => status_eqb (Trade.st r) open)
                            (CloseData.id cd) d Hd (fun r => eq_refl)).
  exists (Z.of_nat (length (List.filter (open_with_id (CloseData.id cd))
                                        (trades (cur d))))),
         (snd (closeTrade_sql cd now d)).
  split; [rewrite db_run_working by exact Hf; reflexivity|].
  split; [apply closeTrade_working; exact Hf|].
  pose proof (trade_row_UPDATE
                (SET_close (bind (CloseData.exitPrice cd))
                           (bind (CloseData.exitDate cd)) now
                           (bind (CloseData.notes cd))
                           (bind (CloseData.commission cd)))
                (open_with_id (CloseData.id cd)) d (CloseData.id cd)
                (fun r => eq_refl)) as Hrow.
  fold (closeTrade_sql cd now) in Hrow.
  destruct (trade_row (CloseData.id cd) d) as [r|] eqn:Er.
  - assert (Hk : (Trade.id r =? CloseData.id cd) = true)
      by (apply Z.eqb_eq, (trade_row_id _ d), Er).
    destruct (Trade.st r) eqn:Est; simpl in Hch; rewrite Hch.
    + split; [split; reflexivity|]. split; [reflexivity|].
      rewrite Hrow. simpl. unfold open_with_id. rewrite Hk, Est. simpl.
      eexists. split; [reflexivity|].
      split; [destruct (CloseData.exitPrice cd); reflexivity|].
      split; [destruct (CloseData.exitDate cd); reflexivity|].
      split; reflexivity.
    + split; [split; [discriminate | lia]|]. split; [reflexivity|].
      apply closeTrade_no_open_row. apply length_zero_iff_nil. exact Hch.
  - rewrite Hch. split; [split; [discriminate | lia]|]. split; [reflexivity|].
    apply closeTrade_no_open_row. apply length_zero_iff_nil. exact Hch.
Qed.

(** C3: the row that [closeTrade] rewrites keeps every field except
    [exit_price], [exit_date], [status] and [updated_at]; its [notes] and
    [commission] are replaced only by a value the caller supplied and keep
    their stored value otherwise; every other row and every other table is
    left as it was. *)
Theorem closeTrade_frame (cd : CloseData.t) (now : string) (d : db) :
  faults d = [] ->
  let d' := snd (closeTrade cd now d) in
  users (cur d') = users (cur d)
  /\ user_settings (cur d') = user_settings (cur d)
  /\ sub_accounts (cur d') = sub_accounts (cur d)
  /\ Forall2
       (fun r r' =>
          if open_with_id (CloseData.id cd) r
          then Trade.id r' = Trade.id r
               /\ Trade.user_id r' = Trade.user_id r
               /\ Trade.sub_account_id r' = Trade.sub_account_id r
               /\ Trade.ticker r' = Trade.ticker r
               /\ Trade.quantity r' = Trade.quantity r
               /\ Trade.entry_price r' = Trade.entry_price r
               /\ Trade.dir r' = Trade.dir r
               /\ Trade.entry_date r' = Trade.entry_date r
               /\ Trade.created_at r' = Trade.created_at r
               /\ Trade.notes r' = match CloseData.notes cd with
                                   | Val n => Some n
                                   | Undefined | Null => Trade.notes r
                                   end
               /\ Trade.commission r' = match CloseData.commission cd with
                                        | Val c => Some c
                                        | Undefined | Null => Trade.commission r
                                        end
          else r' = r)
       (trades (cur d)) (trades (cur d')).
Proof.
  intros Hf d'. subst d'. rewrite closeTrade_working by exact Hf.
  unfold closeTrade_sql, UPDATE_trades. simpl.
  repeat (split; [reflexivity|]).
  induction (trades (cur d)) as [|r l IH]; simpl; constructor; [|exact IH].
  destruct (open_with_id (CloseData.id cd) r); [|reflexivity].
  repeat (split; [reflexivity|]).
  split; [destruct (CloseData.notes cd) | destruct (CloseData.commission cd)];
    reflexivity.
Qed.

(** ** updateTradeDetails *)

Lemma updateTradeDetails_nothing id u now d :
  Updates.notes u = Undefined -> Updates.commission u = Undefined ->
  updateTradeDetails id u now d = (Resolved false, d).
Proof. intros Hn Hc. unfold updateTradeDetails. rewrite Hn, Hc. reflexivity. Qed.

Lemma updateTradeDetails_working id u now d :
  faults d = [] ->
  is_defined (Updates.notes u) || is_defined (Updates.commission u) = true ->
  updateTradeDetails id u now d
  = (Resolved (0 <? Z.of_nat (length (List.filter (with_id id) (trades (cur d))))),
     snd (updateTradeDetails_sql id u now d)).
Proof.
  intros Hf Hsome. unfold updateTradeDetails.
  destruct (is_defined (Updates.notes u)), (is_defined (Updates.commission u));
    try discriminate; simpl; rewrite db_run_working by exact Hf; reflexivity.
Qed.

Lemma updateTradeDetails_sql_no_row id u now d :
  List.filter (with_id id) (trades (cur d)) = [] ->
  snd (updateTradeDetails_sql id u now d) = d.
Proof.
  intros H. unfold updateTradeDetails_sql, UPDATE_trades. simpl.
  rewrite map_if_none by exact H. apply set_trades_same.
Qed.

Lemma updateTradeDetails_sql_row id u now d r :
  trade_row id d = Some r ->
  trade_row id (snd (updateTradeDetails_sql id u now d))
  = Some (SET_fields (fieldsToUpdate u now) r).
Proof.
  intros Er. unfold updateTradeDetails_sql.
  rewrite trade_row_UPDATE by apply SET_fields_id.
  rewrite Er. simpl. unfold with_id.
  rewrite (trade_row_id _ _ _ Er), Z.eqb_refl. reflexivity.
Qed.

(** C6: [updateTradeDetails] resolves with [false] without submitting any
    statement when neither field is supplied; otherwise it resolves with
    [false], the store untouched, when the id is unknown, and with [true] when
    the trade exists, in which case [updated_at] is the operation time, a
    supplied field takes the supplied value, an omitted field keeps its stored
    value, and all other columns are kept. *)
Theorem updateTradeDetails_partial_merge
    (id : Z) (u : Updates.t) (now : string) (d : db) :
  (Updates.notes u = Undefined -> Updates.commission u = Undefined ->
   updateTradeDetails id u now d = (Resolved false, d))
  /\ (healthy d ->
      is_defined (Updates.notes u) || is_defined (Updates.commission u) = true ->
      match trade_row id d with
      | None => updateTradeDetails id u now d = (Resolved false, d)
      | Some r =>
          exists d' r',
            updateTradeDetails id u now d = (Resolved true, d')
            /\ trade_row id d' = Some r'
            /\ Trade.updated_at r' = now
            /\ Trade.notes r' = match Updates.notes u with
                                | Undefined => Trade.notes r
                                | Null => None
                                | Val n => Some n
                                end
            /\ Trade.commission r' = match Updates.commission u with
                                     | Undefined => Trade.commission r
                                     | Null => None
                                     | Val c => Some c
                                     end
            /\ Trade.id r' = Trade.id r
            /\ Trade.user_id r' = Trade.user_id r
            /\ Trade.sub_account_id r' = Trade.sub_account_id r
            /\ Trade.ticker r' = Trade.ticker r
            /\ Trade.quantity r' = Trade.quantity r
            /\ Trade.entry_price r' = Trade.entry_price r
            /\ Trade.exit_price r' = Trade.exit_price r
            /\ Trade.dir r' = Trade.dir r
            /\ Trade.st r' = Trade.st r
            /\ Trade.entry_date r' = Trade.entry_date r
            /\ Trade.exit_date r' = Trade.exit_date r
            /\ Trade.created_at r' = Trade.created_at r
      end).
Proof.
  split; [apply updateTradeDetails_nothing|].
  intros Hd Hsome. pose proof (healthy_faults d Hd) as Hf.
  rewrite updateTradeDetails_working by assumption.
  assert (Hch : length (List.filter (with_id id) (trades (cur d)))
                = match trade_row id d with
                  | Some r => 1%nat
                  | None => 0%nat
                  end).
  { rewrite (changes_by_id (with_id id) (fun _ => true) id d Hd).
    - destruct (trade_row id d); reflexivity.
    - intros r. unfold with_id. rewrite andb_true_r. reflexivity. }
  destruct (trade_row id d) as [r|] eqn:Er; rewrite Hch.
  - exists (snd (updateTradeDetails_sql id u now d)),
           (SET_fields (fieldsToUpdate u now) r).
    split; [reflexivity|].
    split; [apply updateTradeDetails_sql_row; exact Er|].
    unfold fieldsToUpdate.
    destruct (Updates.notes u), (Updates.commission u);
      try discriminate; simpl; repeat split.
  - rewrite updateTradeDetails_sql_no_row; [reflexivity|].
    apply length_zero_iff_nil. exact Hch.
Qed.

(** ** [null] in the two update operations *)

(** C10: an explicit [null] for [notes] or [commission] leaves the stored
    value in place in [closeTrade], which therefore never turns a stored value
    into NULL, whereas in [updateTradeDetails] it stores NULL; there only an
    absent field is skipped. *)
Theorem explicit_null_close_vs_update
    (id : Z) (r : Trade.t) (now : string) (d : db) :
  healthy d ->
  trade_row id d = Some r ->
  (forall exitPrice exitDate notes commission,
      exists r',
        trade_row id (snd (closeTrade
                             (CloseData.mk id exitPrice exitDate notes commission)
                             now d)) = Some r'
        /\ (notes = Null -> Trade.notes r' = Trade.notes r)
        /\ (commission = Null -> Trade.commission r' = Trade.commission r)
        /\ (is_Some (Trade.notes r) -> is_Some (Trade.notes r'))
        /\ (is_Some (Trade.commission r) -> is_Some (Trade.commission r')))
  /\ (forall notes commission,
         exists r',
           trade_row id (snd (updateTradeDetails id (Updates.mk notes commission)
                                                 now d)) = Some r'
           /\ (notes = Null -> Trade.notes r' = None)
           /\ (commission = Null -> Trade.commission r' = None)
           /\ (notes = Undefined -> Trade.notes r' = Trade.notes r)
           /\ (commission = Undefined -> Trade.commission r' = Trade.commission r)).
Proof.
  intros Hd Er. pose proof (healthy_faults d Hd) as Hf.
  pose proof (trade_row_id _ _ _ Er) as Hid.
  split.
  - intros ep ed n c. rewrite closeTrade_working by exact Hf. cbn [snd].
    unfold closeTrade_sql.
    rewrite trade_row_UPDATE by (intros; reflexivity).
    rewrite Er. simpl. eexists. split; [reflexivity|].
    unfold open_with_id. simpl. rewrite Hid, Z.eqb_refl. simpl.
    destruct (status_eqb (Trade.st r) open); simpl.
    + repeat split; intros H; try (subst; reflexivity).
      * destruct n; simpl; [exact H | exact H | eexists; reflexivity].
      * destruct c; simpl; [exact H | exact H | eexists; reflexivity].
    + repeat split; auto.
  - intros n c.
    destruct (is_defined n || is_defined c) eqn:Hsome.
    + rewrite updateTradeDetails_working by assumption. cbn [snd].
      rewrite (updateTradeDetails_sql_row _ _ _ _ _ Er).
      eexists. split; [reflexivity|].
      unfold fieldsToUpdate.
      destruct n, c; simpl in *; try discriminate;
        repeat split; intros; try discriminate; reflexivity.
    + destruct n, c; try discriminate.
      rewrite updateTradeDetails_nothing by reflexivity. simpl.
      exists r. repeat split; intros; try discriminate; auto.
Qed.

(** ** Primary keys under the repository's statements *)

Section Keys.
Context {A : Type} (key : A -> Z).

Lemma keys_ok_snoc l seq row :
  key row = seq + 1 ->
  keys_ok (map key l) seq -> keys_ok (map key (l ++ [row])) (seq + 1).
Proof.
  intros Hrow [Hnd Hle]. rewrite map_app. simpl. split.
  - apply NoDup_app. split; [exact Hnd|]. split.
    + intros i Hi Hi'. apply list_elem_of_singleton in Hi'. subst i.
      rewrite Forall_forall in Hle. apply Hle in Hi. lia.
    + apply NoDup_singleton.
  - apply Forall_app. split.
    + eapply Forall_impl; [exact Hle|]. simpl. intros. lia.
    + constructor; [lia | constructor].
Qed.

Lemma keys_ok_filter (p : A -> bool) l seq :
  keys_ok (map key l) seq -> keys_ok (map key (List.filter p l)) seq.
Proof.
  intros [Hnd Hle]. induction l as [|a l IH]; simpl; [split; constructor|].
  simpl in Hnd, Hle. apply NoDup_cons in Hnd as [Hnotin Hnd].
  apply Forall_cons in Hle as [Ha Hle].
  specialize (IH Hnd Hle). destruct IH as [IHnd IHle].
  destruct (p a); simpl; [|split; assumption].
  split.
  - apply NoDup_cons. split; [|exact IHnd].
    intros Hin. apply Hnotin.
    apply list_elem_of_fmap in Hin as (b & -> & Hb).
    apply list_elem_of_fmap. exists b. split; [reflexivity|].
    apply list_elem_of_In. apply list_elem_of_In in Hb.
    apply filter_In in Hb. tauto.
  - constructor; assumption.
Qed.

Lemma keys_ok_map (f : A -> A) l seq :
  (forall a, key (f a) = key a) ->
  keys_ok (map key l) seq -> keys_ok (map key (map f l)) seq.
Proof.
  intros Hf H. rewrite map_map.
  rewrite (map_ext (fun a => key (f a)) key Hf). exact H.
Qed.
End Keys.
(** ** createUserWithSettings on a working store *)

(** With no transaction open and no failure inflicted, the protocol amounts
    to the two INSERTs, undone together when either fails. *)
Lemma createUserWithSettings_working u e h s now d :
  txn d = None -> faults d = [] ->
  createUserWithSettings u e h s now d
  = match INSERT_users u e h now now d with
    | (RunErr userErr, _) => (Rejected userErr, d)
    | (RunOk userId _, d1) =>
        match INSERT_user_settings userId
                (js_or (DefaultSettings.default_currency s) "USD")
                (js_or (DefaultSettings.theme s) "light") now now d1 with
        | (RunErr settingsErr, _) => (Rejected settingsErr, d)
        | (RunOk _ _, d2) => (Resolved userId, d2)
        end
    end.
Proof.
  destruct d as [sc t x f]. simpl. intros -> ->.
  unfold createUserWithSettings, db_run, next_fault, BEGIN_TRANSACTION. cbn.
  unfold INSERT_users. cbn.
  destruct (users_email_unique sc && _); [reflexivity|].
  destruct (users_username_unique sc && _); [reflexivity|].
  cbn. unfold INSERT_user_settings. cbn.
  destruct (existsb _ (user_settings t)); [reflexivity|].
  destruct (negb _); reflexivity.
Qed.

(** ** The statements keep the store well formed *)

Lemma healthy_intro s t :
  keys_ok (map User.id (users t)) (seq_users t) ->
  keys_ok (map Trade.id (trades t)) (seq_trades t) ->
  healthy (mk_db s t None []).
Proof. intros; constructor; simpl; auto. Qed.

Ltac split_store d Hd :=
  let s := fresh "sc" in let t := fresh "t" in
  let x := fresh "x" in let f := fresh "f" in
  let Hu := fresh "Hu" in let Ht := fresh "Ht" in
  let Hx := fresh "Hx" in let Hf := fresh "Hf" in
  destruct d as [s t x f]; destruct Hd as [Hu Ht Hx Hf];
  simpl in Hu, Ht, Hx, Hf; subst x f.

Lemma healthy_INSERT_users u e h c m d :
  healthy d -> healthy (snd (INSERT_users u e h c m d)).
Proof.
  intros Hd. split_store d Hd. unfold INSERT_users. cbn.
  repeat (match goal with |- context [if ?b then _ else _] => destruct b end;
          [apply healthy_intro; assumption|]).
  apply healthy_intro; simpl; [|assumption].
  apply keys_ok_snoc; [reflexivity | assumption].
Qed.

Lemma trade_part_INSERT_users u e h c m d :
  trade_part (snd (INSERT_users u e h c m d)) = trade_part d.
Proof.
  unfold trade_part, INSERT_users.
  repeat (match goal with |- context [if ?b then _ else _] => destruct b end);
    reflexivity.
Qed.

Lemma healthy_INSERT_user_settings uid c t0 cr up d :
  healthy d -> healthy (snd (INSERT_user_settings uid c t0 cr up d)).
Proof.
  intros Hd. split_store d Hd. unfold INSERT_user_settings. cbn.
  repeat (match goal with |- context [if ?b then _ else _] => destruct b end);
    apply healthy_intro; assumption.
Qed.

Lemma trade_part_INSERT_user_settings uid c t0 cr up d :
  trade_part (snd (INSERT_user_settings uid c t0 cr up d)) = trade_part d.
Proof.
  unfold trade_part, INSERT_user_settings.
  repeat (match goal with |- context [if ?b then _ else _] => destruct b end);
    reflexivity.
Qed.

Lemma healthy_INSERT_sub_accounts uid n ds cr up d :
  healthy d -> healthy (snd (INSERT_sub_accounts uid n ds cr up d)).
Proof.
  intros Hd. split_store d Hd. unfold INSERT_sub_accounts. cbn.
  repeat (match goal with |- context [if ?b then _ else _] => destruct b end);
    apply healthy_intro; assumption.
Qed.

Lemma trade_part_INSERT_sub_accounts uid n ds cr up d :
  trade_part (snd (INSERT_sub_accounts uid n ds cr up d)) = trade_part d.
Proof.
  unfold trade_part, INSERT_sub_accounts.
  repeat (match goal with |- context [if ?b then _ else _] => destruct b end);
    reflexivity.
Qed.

Lemma healthy_UPDATE_sub_accounts n ds b up i d :
  healthy d -> healthy (snd (UPDATE_sub_accounts n ds b up i d)).
Proof.
  intros Hd. split_store d Hd. unfold UPDATE_sub_accounts. cbn.
  repeat (match goal with |- context [if ?b then _ else _] => destruct b end);
    apply healthy_intro; assumption.
Qed.

Lemma trade_part_UPDATE_sub_accounts n ds b up i d :
  trade_part (snd (UPDATE_sub_accounts n ds b up i d)) = trade_part d.
Proof.
  unfold trade_part, UPDATE_sub_accounts.
  repeat (match goal with |- context [if ?b then _ else _] => destruct b end);
    reflexivity.
Qed.

Lemma healthy_DELETE_FROM_sub_accounts i d :
  healthy d -> healthy (snd (DELETE_FROM_sub_accounts_WHERE_id i d)).
Proof.
  intros Hd. split_store d Hd. unfold DELETE_FROM_sub_accounts_WHERE_id. cbn.
  apply healthy_intro; simpl; [assumption|].
  apply keys_ok_map; [|assumption].
  intros r. destruct (Trade.sub_account_id r); [|reflexivity].
  destruct (_ && _); reflexivity.
Qed.

Lemma status_DELETE_FROM_sub_accounts i d k :
  status_of k (snd (DELETE_FROM_sub_accounts_WHERE_id i d)) = status_of k d.
Proof.
  unfold status_of, trade_row, SELECT_trades_WHERE_id,
    DELETE_FROM_sub_accounts_WHERE_id. cbn.
  rewrite (filter_key_map Trade.id).
  - rewrite head_map. destruct (head _) as [r|]; [|reflexivity]. simpl.
    destruct (Trade.sub_account_id r); [|reflexivity].
    destruct (_ && _); reflexivity.
  - intros r. destruct (Trade.sub_account_id r); [|reflexivity].
    destruct (_ && _); reflexivity.
Qed.

Lemma healthy_UPDATE_trades SET WHERE d :
  (forall r, Trade.id (SET r) = Trade.id r) ->
  healthy d -> healthy (snd (UPDATE_trades SET WHERE d)).
Proof.
  intros Hid Hd. split_store d Hd. unfold UPDATE_trades. cbn.
  apply healthy_intro; simpl; [assumption|].
  apply keys_ok_map; [|assumption].
  intros r. destruct (WHERE r); [apply Hid | reflexivity].
Qed.

Lemma healthy_DELETE_FROM_trades i d :
  healthy d -> healthy (snd (DELETE_FROM_trades_WHERE_id i d)).
Proof.
  intros Hd. split_store d Hd. unfold DELETE_FROM_trades_WHERE_id. cbn.
  apply healthy_intro; simpl; [assumption|].
  apply keys_ok_filter. assumption.
Qed.

Lemma trade_row_DELETE_FROM_trades i d k :
  trade_row k (snd (DELETE_FROM_trades_WHERE_id i d))
  = if k =? i then None else trade_row k d.
Proof.
  unfold trade_row, SELECT_trades_WHERE_id, DELETE_FROM_trades_WHERE_id. cbn.
  rewrite (filter_filter_key Trade.id). destruct (k =? i); reflexivity.
Qed.

Lemma healthy_INSERT_trades uid sid tk q ep dr ed xd xp n c st cr up d :
  healthy d ->
  healthy (snd (INSERT_trades uid sid tk q ep dr ed xd xp n c st cr up d)).
Proof.
  intros Hd. split_store d Hd. unfold INSERT_trades, not_null. cbn.
  repeat (match goal with
          | |- context [if ?b then _ else _] => destruct b
          | |- context [match ?o with Some _ => _ | None => _ end] => destruct o
          end; cbn);
    apply healthy_intro; simpl; try assumption.
  apply keys_ok_snoc; [reflexivity | assumption].
Qed.

(** A successful INSERT adds a row under a fresh id, so the rows already
    present keep their status. *)
Lemma status_INSERT_trades uid sid tk q ep dr ed xd xp n c st cr up d k s :
  healthy d ->
  status_of k d = Some s ->
  status_of k (snd (INSERT_trades uid sid tk q ep dr ed xd xp n c st cr up d))
  = Some s.
Proof.
  intros Hd Hs. unfold INSERT_trades, not_null.
  repeat (match goal with
          | |- context [if ?b then _ else _] => destruct b
          | |- context [match ?o with Some _ => _ | None => _ end] => destruct o
          end; cbn); try exact Hs.
  unfold status_of, trade_row, SELECT_trades_WHERE_id in *. cbn.
  rewrite List.filter_app.
  destruct (List.filter _ (trades (cur d))); [discriminate | exact Hs].
Qed.

Lemma absent_INSERT_trades uid sid tk q ep dr ed xd xp n c st cr up d k :
  status_of k d = None ->
  k <= seq_trades (cur d) ->
  status_of k (snd (INSERT_trades uid sid tk q ep dr ed xd xp n c st cr up d))
  = None.
Proof.
  intros Hs Hk. unfold INSERT_trades, not_null.
  repeat (match goal with
          | |- context [if ?b then _ else _] => destruct b
          | |- context [match ?o with Some _ => _ | None => _ end] => destruct o
          end; cbn); try exact Hs.
  unfold status_of, trade_row, SELECT_trades_WHERE_id in *. cbn.
  rewrite List.filter_app. simpl.
  destruct (Z.eqb_spec (seq_trades (cur d) + 1) k); [lia|].
  rewrite app_nil_r. exact Hs.
Qed.

Lemma seq_INSERT_trades uid sid tk q ep dr ed xd xp n c st cr up d :
  seq_trades (cur d)
  <= seq_trades (cur (snd (INSERT_trades uid sid tk q ep dr ed xd xp n c st
                                          cr up d))).
Proof.
  unfold INSERT_trades, not_null.
  repeat (match goal with
          | |- context [if ?b then _ else _] => destruct b
          | |- context [match ?o with Some _ => _ | None => _ end] => destruct o
          end; cbn); lia.
Qed.

(** ** The status of a trade along sequences of operations *)

Lemma status_of_trades k d d' :
  trades (cur d') = trades (cur d) -> status_of k d' = status_of k d.
Proof.
  intros H. unfold status_of, trade_row, SELECT_trades_WHERE_id. rewrite H.
  reflexivity.
Qed.

Lemma status_of_trade_part k d d' :
  trade_part d' = trade_part d -> status_of k d' = status_of k d.
Proof. intros H. apply status_of_trades. injection H as H _. exact H. Qed.

Lemma seq_of_trade_part d d' :
  trade_part d' = trade_part d -> seq_trades (cur d') = seq_trades (cur d).
Proof. intros H. injection H as _ H. exact H. Qed.

Lemma status_move_same o k s : status_move o k s s.
Proof. destruct s as [[]|]; exact I. Qed.

Lemma status_move_eq o k s s' : s' = s -> status_move o k s s'.
Proof. intros ->. apply status_move_same. Qed.

Lemma snd_resolved {A} (f : run_result -> outcome A) (x : run_result * db) :
  snd (let '(r, d') := x in (f r, d')) = snd x.
Proof. destruct x; reflexivity. Qed.

Lemma createUserWithSettings_store u e h s now d :
  healthy d ->
  snd (createUserWithSettings u e h s now d) = d
  \/ exists uid c t0,
       snd (createUserWithSettings u e h s now d)
       = snd (INSERT_user_settings uid c t0 now now
                (snd (INSERT_users u e h now now d))).
Proof.
  intros Hd.
  rewrite createUserWithSettings_working
    by (apply Hd || apply (healthy_faults d Hd)).
  destruct (INSERT_users u e h now now d) as [[err|uid ch] d1] eqn:E1;
    [left; reflexivity|].
  destruct (INSERT_user_settings uid _ _ now now d1) as [[err|i ch'] d2] eqn:E2;
    [left; reflexivity|].
  right. exists uid. do 2 eexists. cbn [snd]. rewrite E2. reflexivity.
Qed.

Lemma healthy_step d o now : healthy d -> healthy (step d (o, now)).
Proof.
  intros Hd. pose proof (healthy_faults d Hd) as Hf.
  destruct o; cbn [step].
  - unfold createUser. rewrite snd_resolved, db_run_working by exact Hf.
    apply healthy_INSERT_users, Hd.
  - destruct (createUserWithSettings_store username email passwordHash
                defaultSettings now d Hd) as [-> | (uid & c & t0 & ->)];
      [exact Hd|].
    apply healthy_INSERT_user_settings, healthy_INSERT_users, Hd.
  - unfold createSubAccount. rewrite snd_resolved, db_run_working by exact Hf.
    apply healthy_INSERT_sub_accounts, Hd.
  - unfold updateSubAccount. rewrite snd_resolved, db_run_working by exact Hf.
    apply healthy_UPDATE_sub_accounts, Hd.
  - unfold deleteSubAccount. rewrite snd_resolved, db_run_working by exact Hf.
    apply healthy_DELETE_FROM_sub_accounts, Hd.
  - unfold createTrade. rewrite snd_resolved, db_run_working by exact Hf.
    apply healthy_INSERT_trades, Hd.
  - unfold closeTrade. rewrite snd_resolved, db_run_working by exact Hf.
    apply healthy_UPDATE_trades; [intros; reflexivity | exact Hd].
  - unfold updateTradeDetails. destruct (_ && _); [exact Hd|].
    rewrite snd_resolved, db_run_working by exact Hf.
    apply healthy_UPDATE_trades; [apply SET_fields_id | exact Hd].
  - unfold deleteTrade. rewrite snd_resolved, db_run_working by exact Hf.
    apply healthy_DELETE_FROM_trades, Hd.
Qed.

Lemma healthy_initDB : healthy initDB_test_env /\ healthy initDB_database.
Proof. split; constructor; try reflexivity; split; constructor. Qed.

Lemma healthy_run ops d : healthy d -> healthy (run ops d).
Proof.
  unfold run. revert d.
  induction ops as [|[o now] ops IH]; intros d Hd; cbn [fold_left];
    [exact Hd|].
  apply IH, healthy_step, Hd.
Qed.

Lemma status_updateTradeDetails id u now d k :
  status_of k (snd (updateTradeDetails id u now d)) = status_of k d.
Proof.
  unfold updateTradeDetails. destruct (_ && _); [reflexivity|].
  rewrite snd_resolved. unfold db_run.
  destruct (next_fault d) as [[e|] d1] eqn:En.
  - apply status_of_trades. unfold next_fault in En.
    destruct (faults d); inversion En; reflexivity.
  - assert (Ht : trades (cur d1) = trades (cur d)).
    { unfold next_fault in En. destruct (faults d); inversion En; reflexivity. }
    rewrite <- (status_of_trades k d d1 Ht).
    unfold status_of, updateTradeDetails_sql.
    rewrite trade_row_UPDATE by apply SET_fields_id.
    destruct (trade_row k d1) as [r|]; [|reflexivity]. simpl.
    destruct (with_id id r); [|reflexivity].
    rewrite SET_fields_st. reflexivity.
Qed.

(** The trade part of the store after the operations of the other two
    repositories. *)
Lemma trade_part_other_ops d o now :
  healthy d ->
  match o with
  | op_createUser _ _ _ | op_createUserWithSettings _ _ _ _
  | op_createSubAccount _ _ _ | op_updateSubAccount _ _ _ _ =>
      trade_part (step d (o, now)) = trade_part d
  | _ => True
  end.
Proof.
  intros Hd. pose proof (healthy_faults d Hd) as Hf.
  destruct o; cbn [step]; try exact I.
  - unfold createUser. rewrite snd_resolved, db_run_working by exact Hf.
    apply trade_part_INSERT_users.
  - destruct (createUserWithSettings_store username email passwordHash
                defaultSettings now d Hd) as [-> | (uid & c & t0 & ->)];
      [reflexivity|].
    rewrite trade_part_INSERT_user_settings. apply trade_part_INSERT_users.
  - unfold createSubAccount. rewrite snd_resolved, db_run_working by exact Hf.
    apply trade_part_INSERT_sub_accounts.
  - unfold updateSubAccount. rewrite snd_resolved, db_run_working by exact Hf.
    apply trade_part_UPDATE_sub_accounts.
Qed.

Lemma status_step d o now k :
  healthy d ->
  status_move o k (status_of k d) (status_of k (step d (o, now))).
Proof.
  intros Hd. pose proof (healthy_faults d Hd) as Hf.
  pose proof (trade_part_other_ops d o now Hd) as Hother.
  destruct o; cbn [step] in *;
    try (apply status_move_eq, status_of_trade_part; exact Hother).
  - apply status_move_eq.
    unfold deleteSubAccount. rewrite snd_resolved, db_run_working by exact Hf.
    apply status_DELETE_FROM_sub_accounts.
  - unfold createTrade. rewrite snd_resolved, db_run_working by exact Hf.
    destruct (status_of k d) as [s|] eqn:Es; [|exact I].
    rewrite (status_INSERT_trades _ _ _ _ _ _ _ _ _ _ _ _ _ _ d k s Hd Es).
    apply status_move_same.
  - unfold closeTrade. rewrite snd_resolved, db_run_working by exact Hf.
    unfold status_of, closeTrade_sql.
    rewrite trade_row_UPDATE by (intros; reflexivity).
    destruct (trade_row k d) as [r|] eqn:Er; [|exact I]. simpl.
    unfold open_with_id.
    destruct (Z.eqb_spec (Trade.id r) (CloseData.id closeData)) as [Heq|Hne];
      simpl; [|destruct (Trade.st r); exact I].
    destruct (Trade.st r) eqn:Est; simpl; [|rewrite Est; exact I].
    exists closeData. split; [reflexivity|].
    rewrite <- Heq. apply (trade_row_id _ _ _ Er).
  - apply status_move_eq, status_updateTradeDetails.
  - unfold deleteTrade. rewrite snd_resolved, db_run_working by exact Hf.
    unfold status_of. rewrite trade_row_DELETE_FROM_trades.
    destruct (k =? id); [|apply status_move_same].
    simpl. destruct (Trade.st <$> trade_row k d) as [[]|]; exact I.
Qed.

(** [AUTOINCREMENT]: the counter of [trades] never decreases. *)
Lemma seq_step d o now :
  healthy d -> seq_trades (cur d) <= seq_trades (cur (step d (o, now))).
Proof.
  intros Hd. pose proof (healthy_faults d Hd) as Hf.
  pose proof (trade_part_other_ops d o now Hd) as Hother.
  destruct o; cbn [step] in *;
    try (rewrite (seq_of_trade_part _ _ Hother); lia).
  - unfold deleteSubAccount. rewrite snd_resolved, db_run_working by exact Hf.
    cbn. lia.
  - unfold createTrade. rewrite snd_resolved, db_run_working by exact Hf.
    apply seq_INSERT_trades.
  - unfold closeTrade. rewrite snd_resolved, db_run_working by exact Hf.
    cbn. lia.
  - unfold updateTradeDetails. destruct (_ && _); [cbn; lia|].
    rewrite snd_resolved, db_run_working by exact Hf. cbn. lia.
  - unfold deleteTrade. rewrite snd_resolved, db_run_working by exact Hf.
    cbn. lia.
Qed.

(** An id that was used and whose row is gone is never used again. *)
Lemma absent_step d o now k :
  healthy d ->
  k <= seq_trades (cur d) ->
  status_of k d = None ->
  status_of k (step d (o, now)) = None.
Proof.
  intros Hd Hk Hs. pose proof (healthy_faults d Hd) as Hf.
  pose proof (trade_part_other_ops d o now Hd) as Hother.
  destruct o; cbn [step] in *;
    try (rewrite (status_of_trade_part k _ _ Hother); exact Hs).
  - unfold deleteSubAccount. rewrite snd_resolved, db_run_working by exact Hf.
    rewrite status_DELETE_FROM_sub_accounts. exact Hs.
  - unfold createTrade. rewrite snd_resolved, db_run_working by exact Hf.
    apply absent_INSERT_trades; assumption.
  - pose proof (status_step d (op_closeTrade closeData) now k Hd) as Hm.
    cbn [step] in Hm. rewrite Hs in Hm.
    unfold closeTrade in *. rewrite snd_resolved, db_run_working in * by exact Hf.
    unfold status_of, closeTrade_sql in *.
    rewrite trade_row_UPDATE in * by (intros; reflexivity).
    destruct (trade_row k d); [discriminate | reflexivity].
  - rewrite status_updateTradeDetails. exact Hs.
  - unfold deleteTrade. rewrite snd_resolved, db_run_working by exact Hf.
    unfold status_of in *. rewrite trade_row_DELETE_FROM_trades.
    destruct (k =? id); [reflexivity | exact Hs].
Qed.

Lemma closed_or_absent_run ops d k :
  healthy d ->
  k <= seq_trades (cur d) ->
  status_of k d = Some closed \/ status_of k d = None ->
  status_of k (run ops d) = Some closed \/ status_of k (run ops d) = None.
Proof.
  unfold run. revert d.
  induction ops as [|[o now] ops IH]; intros d Hd Hk Hs; cbn [fold_left];
    [exact Hs|].
  apply IH.
  - apply healthy_step, Hd.
  - pose proof (seq_step d o now Hd). lia.
  - destruct Hs as [Hs|Hs].
    + pose proof (status_step d o now k Hd) as Hm. rewrite Hs in Hm.
      destruct (status_of k (step d (o, now))) as [[]|]; simpl in Hm; tauto.
    + right. apply absent_step; assumption.
Qed.

(** The id of a stored trade is at most the counter. *)
Lemma stored_id_le_seq d k s :
  healthy d -> status_of k d = Some s -> k <= seq_trades (cur d).
Proof.
  intros [_ [_ Hle] _ _] Hs. unfold status_of in Hs.
  destruct (trade_row k d) as [r|] eqn:Er; [|discriminate].
  pose proof (trade_row_id _ _ _ Er) as Hid.
  unfold trade_row, SELECT_trades_WHERE_id in Er.
  destruct (List.filter _ _) as [|x l] eqn:Efl; [discriminate|].
  simpl in Er. injection Er as ->.
  assert (Hin : In r (List.filter (fun r0 => Trade.id r0 =? k) (trades (cur d))))
    by (rewrite Efl; left; reflexivity).
  apply filter_In in Hin. destruct Hin as [Hin _].
  rewrite Forall_forall in Hle. subst k. apply Hle.
  apply list_elem_of_In, in_map, Hin.
Qed.

Lemma closeTrade_not_open cd now d :
  healthy d ->
  status_of (CloseData.id cd) d <> Some open ->
  closeTrade cd now d = (Resolved false, d).
Proof.
  intros Hd Hs. rewrite closeTrade_working by apply (healthy_faults d Hd).
  assert (Hch : length (List.filter (open_with_id (CloseData.id cd))
                                    (trades (cur d))) = 0%nat).
  { rewrite (changes_by_id (open_with_id (CloseData.id cd))
                           (fun r => status_eqb (Trade.st r) open)
                           (CloseData.id cd) d Hd (fun r => eq_refl)).
    unfold status_of in Hs.
    destruct (trade_row (CloseData.id cd) d) as [r|]; [|reflexivity].
    simpl in Hs. destruct (Trade.st r); [congruence | reflexivity]. }
  rewrite Hch. rewrite closeTrade_no_open_row; [reflexivity|].
  apply length_zero_iff_nil, Hch.
Qed.

(** C4: on a working store the status of a trade moves only from ['open'] to
    ['closed'], and only through [closeTrade] on its id; closing a closed
    trade resolves with [false] and leaves the store as it was;
    [updateTradeDetails] never changes a status; and after any sequence of
    repository operations a trade that was closed is still closed, unless it
    was deleted. *)
Theorem closed_is_terminal (d : db) :
  healthy d ->
  (forall o now k,
      status_move o k (status_of k d) (status_of k (step d (o, now))))
  /\ (forall cd now,
         status_of (CloseData.id cd) d = Some closed ->
         closeTrade cd now d = (Resolved false, d))
  /\ (forall id u now k,
         status_of k (snd (updateTradeDetails id u now d)) = status_of k d)
  /\ (forall ops k,
         status_of k d = Some closed ->
         healthy (run ops d)
         /\ (status_of k (run ops d) = Some closed
             \/ status_of k (run ops d) = None)).
Proof.
  intros Hd. split; [|split; [|split]].
  - intros o now k. apply status_step, Hd.
  - intros cd now Hs. apply closeTrade_not_open; [exact Hd | congruence].
  - intros id u now k. apply status_updateTradeDetails.
  - intros ops k Hs. split; [apply healthy_run, Hd|].
    apply closed_or_absent_run; [exact Hd | | left; exact Hs].
    eapply stored_id_le_seq; eassumption.
Qed.

(** ** ORDER BY *)

Section Comparison.
Context {K : Type} (cmp : K -> K -> comparison).
Hypothesis cmp_eq : forall x y, cmp x y = Eq -> x = y.
Hypothesis cmp_antisym : forall x y, cmp x y = CompOpp (cmp y x).
Hypothesis cmp_lt_trans :
  forall x y z, cmp x y = Lt -> cmp y z = Lt -> cmp x z = Lt.

Lemma cmp_gt_trans x y z : cmp x y = Gt -> cmp y z = Gt -> cmp x z = Gt.
Proof.
  intros Hxy Hyz. rewrite cmp_antisym in Hxy, Hyz |- *.
  destruct (cmp y x) eqn:Eyx; try discriminate.
  destruct (cmp z y) eqn:Ezy; try discriminate.
  rewrite (cmp_lt_trans z y x Ezy Eyx). reflexivity.
Qed.

Lemma cmp_not_lt_trans x y z : cmp x y <> Lt -> cmp y z <> Lt -> cmp x z <> Lt.
Proof.
  intros Hxy Hyz.
  destruct (cmp x y) eqn:Exy; [apply cmp_eq in Exy; subst; exact Hyz | tauto |].
  destruct (cmp y z) eqn:Eyz; [apply cmp_eq in Eyz; subst; congruence | tauto |].
  rewrite (cmp_gt_trans x y z Exy Eyz). discriminate.
Qed.

End Comparison.

Lemma text_compare_eq x y : String_as_OT.compare x y = Eq -> x = y.
Proof.
  intros H. destruct (String_as_OT.compare_spec x y); congruence.
Qed.

Lemma text_compare_refl x : String_as_OT.compare x x = Eq.
Proof.
  destruct (String_as_OT.compare_spec x x) as [_|H|H]; [reflexivity| |];
    exfalso; revert H; apply (StrictOrder_Irreflexive (R := String_as_OT.lt)).
Qed.

Lemma text_compare_lt_trans x y z :
  String_as_OT.compare x y = Lt -> String_as_OT.compare y z = Lt ->
  String_as_OT.compare x z = Lt.
Proof. apply (StrictOrder_Transitive (R := String_as_OT.lt)). Qed.

Lemma text_compare_antisym x y :
  String_as_OT.compare x y = CompOpp (String_as_OT.compare y x).
Proof.
  destruct (String_as_OT.compare_spec x y) as [->|H|H].
  - rewrite text_compare_refl. reflexivity.
  - destruct (String_as_OT.compare_spec y x) as [->|H'|H']; [| |reflexivity];
      exfalso.
    + revert H. apply (StrictOrder_Irreflexive (R := String_as_OT.lt)).
    + apply (StrictOrder_Irreflexive (R := String_as_OT.lt) x).
      apply (StrictOrder_Transitive (R := String_as_OT.lt) x y x); assumption.
  - unfold String_as_OT.lt in H. rewrite H. reflexivity.
Qed.

Lemma compare_nullable_eq a b : compare_nullable a b = Eq -> a = b.
Proof.
  destruct a, b; simpl; try discriminate; [|reflexivity].
  intros H. f_equal. apply text_compare_eq, H.
Qed.

Lemma compare_nullable_antisym a b :
  compare_nullable a b = CompOpp (compare_nullable b a).
Proof. destruct a, b; simpl; try reflexivity. apply text_compare_antisym. Qed.

Lemma compare_nullable_lt_trans a b c :
  compare_nullable a b = Lt -> compare_nullable b c = Lt ->
  compare_nullable a c = Lt.
Proof.
  destruct a, b, c; simpl; try discriminate; try reflexivity.
  apply text_compare_lt_trans.
Qed.

#[global] Instance exit_entry_DESC_total :
  Total (precedes exit_date_DESC_entry_date_DESC).
Proof.
  intros a b. unfold precedes, exit_date_DESC_entry_date_DESC.
  rewrite (compare_nullable_antisym (Trade.exit_date b)).
  rewrite (text_compare_antisym (Trade.entry_date b)).
  destruct (compare_nullable _ _); simpl; auto.
  destruct (String_as_OT.compare _ _); simpl; auto.
Qed.

#[global] Instance exit_entry_DESC_trans :
  Transitive (precedes exit_date_DESC_entry_date_DESC).
Proof.
  intros a b c. unfold precedes, exit_date_DESC_entry_date_DESC.
  destruct (compare_nullable (Trade.exit_date a) (Trade.exit_date b)) eqn:Eab;
    [|discriminate|].
  - apply compare_nullable_eq in Eab. rewrite Eab.
    destruct (compare_nullable (Trade.exit_date b) (Trade.exit_date c)) eqn:Ebc;
      [|discriminate|reflexivity].
    intros Hab Hbc.
    pose proof (cmp_not_lt_trans String_as_OT.compare text_compare_eq
                  text_compare_antisym text_compare_lt_trans
                  (Trade.entry_date a) (Trade.entry_date b) (Trade.entry_date c))
      as Ht.
    destruct (String_as_OT.compare (Trade.entry_date a) (Trade.entry_date b));
      try discriminate;
      destruct (String_as_OT.compare (Trade.entry_date b) (Trade.entry_date c));
      try discriminate;
      destruct (String_as_OT.compare (Trade.entry_date a) (Trade.entry_date c));
      try reflexivity; exfalso; apply Ht; congruence.
  - intros _.
    destruct (compare_nullable (Trade.exit_date b) (Trade.exit_date c)) eqn:Ebc;
      [|discriminate|].
    + apply compare_nullable_eq in Ebc. rewrite <- Ebc, Eab. reflexivity.
    + rewrite (cmp_gt_trans compare_nullable compare_nullable_antisym
                 compare_nullable_lt_trans _ _ _ Eab Ebc).
      reflexivity.
Qed.

(** The sorter returns the rows it was given, in order. *)
Section Sorter.
Context {A : Type} (before : A -> A -> bool).
Hypothesis before_total : forall a b, before a b = true \/ before b a = true.
Hypothesis before_trans :
  forall a b c, before a b = true -> before b c = true -> before a c = true.

Lemma insert_before_Permutation x l :
  Permutation (insert_before before x l) (x :: l).
Proof.
  induction l as [|y l IH]; simpl; [reflexivity|].
  destruct (before x y); [reflexivity|].
  rewrite IH. apply perm_swap.
Qed.

Lemma sorter_Permutation l : Permutation (sorter before l) l.
Proof.
  induction l as [|x l IH]; simpl; [reflexivity|].
  rewrite insert_before_Permutation. constructor. exact IH.
Qed.

Lemma insert_before_sorted x l :
  StronglySorted (fun a b => before a b = true) l ->
  StronglySorted (fun a b => before a b = true) (insert_before before x l).
Proof.
  induction l as [|y l IH]; simpl; intros Hs.
  - repeat constructor.
  - apply StronglySorted_inv in Hs as [Hs Hy].
    destruct (before x y) eqn:Exy.
    + constructor; [constructor; assumption|].
      constructor; [exact Exy|].
      eapply Forall_impl; [exact Hy|]. intros z Hz.
      exact (before_trans _ _ _ Exy Hz).
    + constructor; [apply IH, Hs|].
      rewrite insert_before_Permutation. constructor; [|exact Hy].
      destruct (before_total x y) as [H|H]; [congruence | exact H].
Qed.

Lemma StronglySorted_sorter l :
  StronglySorted (fun a b => before a b = true) (sorter before l).
Proof.
  induction l as [|x l IH]; simpl; [constructor|].
  apply insert_before_sorted, IH.
Qed.
End Sorter.

Lemma ORDER_BY_exit_entry_DESC rows :
  Permutation (ORDER_BY exit_date_DESC_entry_date_DESC rows) rows
  /\ StronglySorted (precedes exit_date_DESC_entry_date_DESC)
       (ORDER_BY exit_date_DESC_entry_date_DESC rows).
Proof.
  unfold ORDER_BY. split.
  - apply sorter_Permutation.
  - apply (StronglySorted_sorter exit_date_DESC_entry_date_DESC).
    + exact exit_entry_DESC_total.
    + exact exit_entry_DESC_trans.
Qed.

(** ** findTradesBySubAccountId *)

Lemma reads_as_integer_iff v :
  reads_as_integer v = true
  <-> -9223372036854775808 < v < 9223372036854775808.
Proof. unfold reads_as_integer. rewrite andb_true_iff, !Z.ltb_lt. tauto. Qed.

Lemma default_param_given v dflt :
  default_param v dflt = match v with Some n => n | None => dflt end.
Proof. destruct v; reflexivity. Qed.

(** A default is read as an integer, a given number when it is within the
    bounds. *)
Lemma default_param_reads_as_integer v dflt :
  -9223372036854775808 < dflt < 9223372036854775808 ->
  (forall n, v = Some n -> -9223372036854775808 < n < 9223372036854775808) ->
  reads_as_integer (default_param v dflt) = true.
Proof.
  intros Hd Hv. apply reads_as_integer_iff.
  destruct v as [n|]; simpl; [apply Hv; reflexivity | exact Hd].
Qed.

(** C8: [findTradesBySubAccountId] resolves with the empty list when no
    sub-account has the id; otherwise, with [owner] the [user_id] of that
    sub-account, it resolves with the trades whose [sub_account_id] is the id
    and whose [user_id] is [owner], ordered by exit date and then entry date,
    both descending, cut after the ordering: the first [offset] rows are
    skipped (none unless an offset is given) and at most [limit] of the rest
    are kept (50 unless a limit is given, all of them for a negative limit).
    A limit and an offset that are given are integers strictly between
    -2^63 and 2^63. *)
Theorem findTradesBySubAccountId_sorted_page
    (subAccountId : Z) (limit offset : option Z) (d : db) :
  faults d = [] ->
  (forall n, limit = Some n ->
             -9223372036854775808 < n < 9223372036854775808) ->
  (forall n, offset = Some n ->
             -9223372036854775808 < n < 9223372036854775808) ->
  match head (List.filter (fun a => SubAccount.id a =? subAccountId)
                          (sub_accounts (cur d))) with
  | None => findTradesBySubAccountId subAccountId limit offset d = (Resolved [], d)
  | Some a =>
      let owner := SubAccount.user_id a in
      let lim := match limit with Some n => n | None => 50 end in
      let off := match offset with Some n => n | None => 0 end in
      exists sorted,
        findTradesBySubAccountId subAccountId limit offset d
        = (Resolved (if lim <? 0
                     then drop (Z.to_nat off) sorted
                     else take (Z.to_nat lim) (drop (Z.to_nat off) sorted)), d)
        /\ Permutation sorted
             (List.filter (in_sub_account subAccountId owner) (trades (cur d)))
        /\ (forall r, In r sorted <->
                      In r (trades (cur d))
                      /\ Trade.sub_account_id r = Some subAccountId
                      /\ Trade.user_id r = owner)
        /\ StronglySorted (precedes exit_date_DESC_entry_date_DESC) sorted
  end.
Proof.
  intros Hf Hlim Hoff. unfold findTradesBySubAccountId.
  rewrite db_get_working by exact Hf.
  unfold SELECT_user_id_FROM_sub_accounts_WHERE_id. rewrite head_map.
  destruct (head (List.filter _ (sub_accounts (cur d)))) as [a|];
    [|reflexivity].
  cbn [fmap option_fmap option_map]. rewrite db_all_working by exact Hf.
  unfold SELECT_sub_account_trades, LIMIT_OFFSET.
  rewrite (default_param_reads_as_integer limit 50) by (lia || exact Hlim).
  rewrite (default_param_reads_as_integer offset 0) by (lia || exact Hoff).
  rewrite !default_param_given. cbn [andb resolve_rows].
  pose proof (ORDER_BY_exit_entry_DESC
                (List.filter (in_sub_account subAccountId (SubAccount.user_id a))
                             (trades (cur d)))) as [Hperm Hsorted].
  eexists. split; [reflexivity|].
  split; [exact Hperm | split; [|exact Hsorted]].
  intros r. rewrite <- !list_elem_of_In. rewrite Hperm.
  rewrite !list_elem_of_In, filter_In. unfold in_sub_account.
  destruct (Trade.sub_account_id r) as [s|].
  - rewrite andb_true_iff, !Z.eqb_eq. intuition congruence.
  - intuition discriminate.
Qed.

(** Outside these bounds the second statement fails and the promise is
    rejected, as long as the sub-account exists. *)
Lemma findTradesBySubAccountId_out_of_range subAccountId limit offset d a :
  faults d = [] ->
  head (List.filter (fun a => SubAccount.id a =? subAccountId)
                    (sub_accounts (cur d))) = Some a ->
  reads_as_integer (match limit with Some n => n | None => 50 end)
  && reads_as_integer (match offset with Some n => n | None => 0 end) = false ->
  findTradesBySubAccountId subAccountId limit offset d
  = (Rejected DATATYPE_mismatch, d).
Proof.
  intros Hf Ha Hout. unfold findTradesBySubAccountId.
  rewrite db_get_working by exact Hf.
  unfold SELECT_user_id_FROM_sub_accounts_WHERE_id. rewrite head_map, Ha.
  cbn [fmap option_fmap option_map]. rewrite db_all_working by exact Hf.
  unfold SELECT_sub_account_trades, LIMIT_OFFSET.
  rewrite !default_param_given, Hout. reflexivity.
Qed.

Example limit_too_large_for_an_integer :
  findTradesBySubAccountId 1 (Some (10 ^ 19)) None Sample.journal
  = (Rejected DATATYPE_mismatch, Sample.journal).
Proof. reflexivity. Qed.

(** ** createUserWithSettings *)

(** A statement that [db.run] reports as successful ran on the store as it
    was, with one verdict of the environment consumed. *)
Lemma db_run_ok stmt d lastID changes d' :
  db_run stmt d = (RunOk lastID changes, d') ->
  exists d0, cur d0 = cur d /\ txn d0 = txn d /\ db_schema d0 = db_schema d
             /\ stmt d0 = (RunOk lastID changes, d').
Proof.
  unfold db_run, next_fault.
  destruct (faults d) as [|[e|] fs]; try discriminate; intros H;
    eexists; (split; [|split; [|split; [|exact H]]]); reflexivity.
Qed.

Lemma BEGIN_ok d i c d' :
  BEGIN_TRANSACTION d = (RunOk i c, d') -> cur d' = cur d /\ txn d = None.
Proof.
  unfold BEGIN_TRANSACTION. destruct (txn d); [discriminate|].
  intros H. injection H as _ _ <-. split; reflexivity.
Qed.

Lemma COMMIT_ok d i c d' :
  COMMIT d = (RunOk i c, d') -> cur d' = cur d /\ txn d' = None.
Proof.
  unfold COMMIT. destruct (txn d); [|discriminate].
  intros H. injection H as _ _ <-. split; reflexivity.
Qed.

Lemma INSERT_users_ok u e h cr up d i c d' :
  INSERT_users u e h cr up d = (RunOk i c, d') ->
  i = seq_users (cur d) + 1
  /\ users (cur d') = (users (cur d) ++ [User.mk i u e h cr up])%list
  /\ user_settings (cur d') = user_settings (cur d)
  /\ txn d' = txn d.
Proof.
  unfold INSERT_users.
  destruct (_ && _); [discriminate|]. destruct (_ && _); [discriminate|].
  intros H. injection H as <- _ <-. repeat split.
Qed.

Lemma INSERT_user_settings_ok uid cu th cr up d i c d' :
  INSERT_user_settings uid cu th cr up d = (RunOk i c, d') ->
  users (cur d') = users (cur d)
  /\ user_settings (cur d')
     = (user_settings (cur d) ++ [Settings.mk uid cu th cr up])%list
  /\ existsb (fun s => Settings.user_id s =? uid) (user_settings (cur d)) = false
  /\ txn d' = txn d.
Proof.
  unfold INSERT_user_settings.
  destruct (existsb _ (user_settings (cur d))); [discriminate|].
  destruct (negb _); [discriminate|].
  intros H. injection H as _ _ <-. repeat split.
Qed.

(** The statements behind a resolved [createUserWithSettings]. *)
Lemma createUserWithSettings_resolved u e h s now d uid d' :
  createUserWithSettings u e h s now d = (Resolved uid, d') ->
  txn d = None
  /\ txn d' = None
  /\ uid = seq_users (cur d) + 1
  /\ users (cur d') = (users (cur d) ++ [User.mk uid u e h now now])%list
  /\ user_settings (cur d')
     = (user_settings (cur d)
        ++ [Settings.mk uid (js_or (DefaultSettings.default_currency s) "USD")
                        (js_or (DefaultSettings.theme s) "light") now now])%list
  /\ existsb (fun x => Settings.user_id x =? uid) (user_settings (cur d)) = false.
Proof.
  unfold createUserWithSettings.
  destruct (db_run BEGIN_TRANSACTION d) as [rb d1] eqn:Eb.
  destruct (db_run (INSERT_users u e h now now) d1) as [[ue|i ci] d2] eqn:Eu.
  { destruct (db_run ROLLBACK d2), rb; discriminate. }
  destruct (db_run (INSERT_user_settings i _ _ now now) d2)
    as [[se|j cj] d3] eqn:Es.
  { destruct (db_run ROLLBACK d3), rb; discriminate. }
  destruct (db_run COMMIT d3) as [[ce|k ck] d4] eqn:Ec.
  { destruct (db_run ROLLBACK d4), rb; discriminate. }
  destruct rb as [be|b cb]; [discriminate|].
  intros H. injection H as -> ->.
  apply db_run_ok in Eb as (b0 & Hb1 & Hb2 & _ & Eb).
  apply BEGIN_ok in Eb as [Hb3 Hb4].
  apply db_run_ok in Eu as (u0 & Hu1 & Hu2 & _ & Eu).
  apply INSERT_users_ok in Eu as (Hu3 & Hu4 & Hu5 & Hu6).
  apply db_run_ok in Es as (s0 & Hs1 & Hs2 & _ & Es).
  apply INSERT_user_settings_ok in Es as (Hs3 & Hs4 & Hs5 & Hs6).
  apply db_run_ok in Ec as (c0 & Hc1 & Hc2 & _ & Ec).
  apply COMMIT_ok in Ec as [Hc3 Hc4].
  rewrite Hc3, Hc1, Hs3, Hs4, Hs1, Hu4, Hu5, Hu1, Hb3, Hb1 in *.
  repeat split; try assumption; congruence.
Qed.

(** C9 (amended): when [createUserWithSettings] resolves with an id, the new
    settings row carries that id, which is the id of the new user row, and for
    each of [default_currency] and [theme] the caller's value when it is a
    non-empty string, and ['USD'] (respectively ['light']) when the field is
    absent, [null] or the empty string. *)
Theorem settings_row_of_createUserWithSettings
    (u e h : string) (s : DefaultSettings.t) (now : string) (d : db)
    (uid : Z) (d' : db) :
  createUserWithSettings u e h s now d = (Resolved uid, d') ->
  exists row,
    user_settings (cur d') = (user_settings (cur d) ++ [row])%list
    /\ users (cur d') = (users (cur d) ++ [User.mk uid u e h now now])%list
    /\ Settings.user_id row = uid
    /\ Settings.created_at row = now
    /\ Settings.updated_at row = now
    /\ Settings.default_currency row
       = match DefaultSettings.default_currency s with
         | Val c => if String.eqb c "" then "USD" else c
         | Undefined | Null => "USD"
         end
    /\ Settings.theme row
       = match DefaultSettings.theme s with
         | Val t => if String.eqb t "" then "light" else t
         | Undefined | Null => "light"
         end.
Proof.
  intros H. apply createUserWithSettings_resolved in H
    as (_ & _ & _ & Hu & Hs & _).
  eexists. split; [exact Hs|]. split; [exact Hu|]. repeat split.
Qed.

(** C9 as stated does not hold: a supplied empty string is not stored as
    given, ['USD'] is stored in its place. *)
Lemma empty_currency_is_replaced : ~ supplied_currency_stored_as_given.
Proof.
  intros H.
  destruct (H "u" "e@x.com" "h" (DefaultSettings.mk (Val "") (Val "dark"))
              Sample.t0 initDB_test_env 1 _ "" eq_refl eq_refl)
    as (row & Hin & _ & Hc).
  simpl in Hin. destruct Hin as [<- | []]. discriminate.
Qed.

(** The three rollback paths taken after a successful BEGIN. *)
Example rollback_on_duplicate_email :
  createUserWithSettings "newUser" "fail_email@example.com" "hashed_newPass"
                         Sample.settings Sample.t1 Sample.test
  = (Rejected (UNIQUE_failed "users.email"), Sample.test).
Proof. reflexivity. Qed.

Example rollback_on_failed_settings_insert :
  createUserWithSettings "u" "e@x.com" "h" Sample.settings Sample.t0
    (mk_db (db_schema initDB_test_env) empty_tables None
           [None; None; Some (STORE_fault "SQLITE_IOERR")])
  = (Rejected (STORE_fault "SQLITE_IOERR"), initDB_test_env).
Proof. reflexivity. Qed.

Example rollback_on_failed_commit :
  createUserWithSettings "u" "e@x.com" "h" Sample.settings Sample.t0
    (mk_db (db_schema initDB_test_env) empty_tables None
           [None; None; None; Some (STORE_fault "SQLITE_FULL")])
  = (Rejected (STORE_fault "SQLITE_FULL"), initDB_test_env).
Proof. reflexivity. Qed.

(** BEGIN also fails when a transaction is already open on the shared
    handle: the two rows are then written into that transaction, and the
    COMMIT of this call commits it. *)
Example failed_BEGIN_inside_a_transaction :
  createUserWithSettings "u" "e@x.com" "h" Sample.settings Sample.t0
                         Sample.in_transaction
  = (Rejected (TXN_error "cannot start a transaction within a transaction"),
     mk_db (mk_schema true true true)
           (mk_tables [User.mk 1 "u" "e@x.com" "h" Sample.t0 Sample.t0]
                      [Settings.mk 1 "EUR" "dark" Sample.t0 Sample.t0]
                      [] [] 1 0 0)
           None []).
Proof. reflexivity. Qed.

(** With a working store and no transaction open, the operation either
    rejects and leaves the store as it was, or resolves after adding both
    rows. *)
Lemma createUserWithSettings_atomic_on_working_store u e h s now d :
  txn d = None -> faults d = [] ->
  (exists err, createUserWithSettings u e h s now d = (Rejected err, d))
  \/ (exists uid d',
         createUserWithSettings u e h s now d = (Resolved uid, d')
         /\ users (cur d') = (users (cur d) ++ [User.mk uid u e h now now])%list
         /\ exists row, user_settings (cur d')
                        = (user_settings (cur d) ++ [row])%list
                        /\ Settings.user_id row = uid).
Proof.
  intros Hx Hf. rewrite createUserWithSettings_working by assumption.
  destruct (INSERT_users u e h now now d) as [[err|uid ch] d1] eqn:E1;
    [left; eexists; reflexivity|].
  destruct (INSERT_user_settings uid _ _ now now d1) as [[err|i ch'] d2] eqn:E2;
    [left; eexists; reflexivity|].
  right. exists uid, d2. split; [reflexivity|].
  apply INSERT_users_ok in E1 as (_ & Hu & Hs & _).
  apply INSERT_user_settings_ok in E2 as (Hu' & Hs' & _ & _).
  split; [congruence|]. eexists. split; [rewrite Hs', Hs; reflexivity|].
  reflexivity.
Qed.

(** When the environment fails the BEGIN and nothing else, the promise is
    rejected with BEGIN's error, and the two INSERTs still run, outside any
    transaction. *)
Lemma createUserWithSettings_failed_BEGIN u e h s now sc t e0 :
  createUserWithSettings u e h s now (mk_db sc t None [Some e0])
  = match INSERT_users u e h now now (mk_db sc t None []) with
    | (RunErr _, d1) => (Rejected e0, d1)
    | (RunOk userId _, d1) =>
        (Rejected e0,
         snd (INSERT_user_settings userId
                (js_or (DefaultSettings.default_currency s) "USD")
                (js_or (DefaultSettings.theme s) "light") now now d1))
    end.
Proof.
  unfold createUserWithSettings, db_run, next_fault. cbn.
  unfold INSERT_users. cbn.
  destruct (users_email_unique sc && _); [reflexivity|].
  destruct (users_username_unique sc && _); [reflexivity|].
  cbn. unfold INSERT_user_settings. cbn.
  destruct (existsb _ (user_settings t)); [reflexivity|].
  destruct (negb _); reflexivity.
Qed.

(** C1 (the code at the failing input): BEGIN fails on the empty test store;
    the promise is rejected with that error, yet afterwards the user row and
    its settings row are both stored. *)
Theorem createUserWithSettings_after_failed_BEGIN :
  createUserWithSettings "u" "e@x.com" "h" Sample.settings Sample.t0 Sample.busy
  = (Rejected (STORE_fault "SQLITE_BUSY: database is locked"),
     mk_db (mk_schema true true true)
           (mk_tables [User.mk 1 "u" "e@x.com" "h" Sample.t0 Sample.t0]
                      [Settings.mk 1 "EUR" "dark" Sample.t0 Sample.t0]
                      [] [] 1 0 0)
           None []).
Proof. reflexivity. Qed.

(** ** createUser and the two schemas *)

(** On a store whose [users] table declares both columns UNIQUE, a second
    user with a stored username or email is rejected and nothing changes. *)
Lemma createUser_duplicate_rejected u e h now d :
  faults d = [] ->
  users_username_unique (db_schema d) = true ->
  users_email_unique (db_schema d) = true ->
  (exists x, In x (users (cur d)) /\ (User.username x = u \/ User.email x = e)) ->
  exists columns, createUser u e h now d = (Rejected (UNIQUE_failed columns), d).
Proof.
  intros Hf Hu He (x & Hin & Hx).
  unfold createUser. rewrite db_run_working by exact Hf.
  unfold INSERT_users. rewrite Hu, He. simpl.
  destruct (existsb (fun u0 => String.eqb (User.email u0) e) (users (cur d)))
    eqn:E2; [eexists; reflexivity|].
  destruct (existsb (fun u0 => String.eqb (User.username u0) u) (users (cur d)))
    eqn:E1; [eexists; reflexivity|].
  exfalso. destruct Hx as [Hx|Hx].
  - assert (existsb (fun u0 => String.eqb (User.username u0) u) (users (cur d))
            = true); [|congruence].
    apply existsb_exists. exists x. split; [exact Hin|].
    apply String.eqb_eq, Hx.
  - assert (existsb (fun u0 => String.eqb (User.email u0) e) (users (cur d))
            = true); [|congruence].
    apply existsb_exists. exists x. split; [exact Hin|].
    apply String.eqb_eq, Hx.
Qed.

Example createUser_duplicate_on_test_env :
  createUser "anotheruser" "fail_email@example.com" "hashed_otherpass"
             Sample.t1 Sample.test
  = (Rejected (UNIQUE_failed "users.email"), Sample.test).
Proof. reflexivity. Qed.

(** C5 (the code at the failing input): on the store that [initDB] of
    [src/db/database.js] sets up, a second [createUser] with the username and
    the email of a stored user resolves with a new id, and both rows are
    stored. *)
Theorem createUser_duplicate_on_database_js :
  createUser "existingUser" "fail_email@example.com" "hashed_otherpass"
             Sample.t1 Sample.production
  = (Resolved 2,
     mk_db (mk_schema false false false)
           (mk_tables
              [User.mk 1 "existingUser" "fail_email@example.com" "hashed_pass"
                       Sample.t0 Sample.t0;
               User.mk 2 "existingUser" "fail_email@example.com"
                       "hashed_otherpass" Sample.t1 Sample.t1]
              [] [] [] 2 0 0)
           None []).
Proof. reflexivity. Qed.

(** ** The exports of user_repository.js *)

Example findUserByEmail_is_exported :
  userRepository !! "findUserByEmail" = Some fn_findUserByEmail.
Proof. reflexivity. Qed.

(** C7 (the code at the failing input): the module object of
    [user_repository.js] has no property [findUserByUsername], so calling it
    throws instead of resolving with a user or [null]. *)
Theorem findUserByUsername_is_not_exported :
  userRepository !! "findUserByUsername" = None
  /\ forall (A : Type) (body : user_repository_fn -> A),
       call_export "findUserByUsername" body
       = TypeError_is_not_a_function "findUserByUsername".
Proof.
  assert (H : userRepository !! "findUserByUsername" = None) by reflexivity.
  split; [exact H|]. intros A body. unfold call_export. rewrite H. reflexivity.
Qed.

(** ** The theorems at the sample stores *)

Lemma sample_store_healthy : healthy Sample.store.
Proof.
  constructor; try reflexivity; split;
    repeat (constructor; try set_solver); vm_compute; discriminate.
Qed.

Lemma sample_closed_store_healthy : healthy Sample.closed_store.
Proof.
  constructor; try reflexivity; split;
    repeat (constructor; try set_solver); vm_compute; discriminate.
Qed.

Lemma closeTrade_conditional_update_witness :
  healthy Sample.store
  /\ exists d' r',
       closeTrade Sample.closeData Sample.t2 Sample.store = (Resolved true, d')
       /\ trade_row 1 d' = Some r'
       /\ Trade.exit_price r' = Some (115 # 1)
       /\ Trade.exit_date r' = Some Sample.t2
       /\ Trade.st r' = closed
       /\ Trade.updated_at r' = Sample.t2.
Proof.
  split; [exact sample_store_healthy|].
  pose proof (closeTrade_conditional_update Sample.closeData Sample.t2
                Sample.store sample_store_healthy) as H.
  change (trade_row (CloseData.id Sample.closeData) Sample.store) with (Some
    (Trade.mk 1 1 (Some 1) "TST" (10 # 1) (100 # 1) None long open Sample.t0
              None (Some "Initial trade notes") (Some (199 # 100))
              Sample.t1 Sample.t1)) in H.
  destruct H as (changes & d' & _ & Hclose & _ & Hone & r' & Hrow & Hrest).
  exists d', r'. rewrite Hone in Hclose.
  split; [exact Hclose|]. split; [exact Hrow | exact Hrest].
Defined.

Lemma closeTrade_frame_witness :
  faults Sample.store = []
  /\ users (cur (snd (closeTrade Sample.closeData Sample.t2 Sample.store)))
     = users (cur Sample.store).
Proof.
  split; [reflexivity|].
  apply (closeTrade_frame Sample.closeData Sample.t2 Sample.store eq_refl).
Defined.

Lemma closed_is_terminal_witness :
  healthy Sample.closed_store
  /\ status_of 1 Sample.closed_store = Some closed
  /\ closeTrade Sample.closeData Sample.t3 Sample.closed_store
     = (Resolved false, Sample.closed_store)
  /\ forall ops,
       status_of 1 (run ops Sample.closed_store) = Some closed
       \/ status_of 1 (run ops Sample.closed_store) = None.
Proof.
  split; [exact sample_closed_store_healthy|]. split; [reflexivity|].
  destruct (closed_is_terminal Sample.closed_store sample_closed_store_healthy)
    as (_ & Hclose & _ & Hrun).
  split.
  - apply (Hclose Sample.closeData Sample.t3). reflexivity.
  - intros ops. apply (Hrun ops 1). reflexivity.
Defined.

Lemma updateTradeDetails_partial_merge_witness :
  healthy Sample.store
  /\ updateTradeDetails 1 (Updates.mk Undefined Undefined) Sample.t2 Sample.busy
     = (Resolved false, Sample.busy)
  /\ is_defined (Updates.notes (Updates.mk (Val "Updated notes") Undefined))
     || is_defined (Updates.commission (Updates.mk (Val "Updated notes") Undefined))
     = true
  /\ exists d' r',
       updateTradeDetails 1 (Updates.mk (Val "Updated notes") Undefined)
                          Sample.t2 Sample.store = (Resolved true, d')
       /\ trade_row 1 d' = Some r'
       /\ Trade.notes r' = Some "Updated notes"
       /\ Trade.updated_at r' = Sample.t2.
Proof.
  split; [exact sample_store_healthy|].
  split.
  { destruct (updateTradeDetails_partial_merge 1 (Updates.mk Undefined Undefined)
                Sample.t2 Sample.busy) as [H _].
    apply H; reflexivity. }
  split; [reflexivity|].
  destruct (updateTradeDetails_partial_merge 1
              (Updates.mk (Val "Updated notes") Undefined) Sample.t2 Sample.store)
    as [_ H].
  specialize (H sample_store_healthy eq_refl).
  change (trade_row 1 Sample.store) with (Some
    (Trade.mk 1 1 (Some 1) "TST" (10 # 1) (100 # 1) None long open Sample.t0
              None (Some "Initial trade notes") (Some (199 # 100))
              Sample.t1 Sample.t1)) in H.
  destruct H as (d' & r' & H1 & H2 & H3 & H4 & _).
  exists d', r'. repeat split; assumption.
Defined.

Lemma explicit_null_close_vs_update_witness :
  healthy Sample.store
  /\ (exists r, trade_row 1 Sample.store = Some r
      /\ (exists r',
             trade_row 1 (snd (closeTrade
                                 (CloseData.mk 1 (Val (115 # 1)) (Val Sample.t2)
                                               Null Null)
                                 Sample.t2 Sample.store))
             = Some r'
             /\ Trade.notes r' = Trade.notes r
             /\ Trade.commission r' = Trade.commission r)
      /\ (exists r',
             trade_row 1 (snd (updateTradeDetails 1 (Updates.mk Null Undefined)
                                                  Sample.t2 Sample.store))
             = Some r'
             /\ Trade.notes r' = None
             /\ Trade.commission r' = Trade.commission r)).
Proof.
  split; [exact sample_store_healthy|].
  eexists. split; [reflexivity|].
  destruct (explicit_null_close_vs_update 1 _ Sample.t2 Sample.store
              sample_store_healthy eq_refl) as [Hc Hu].
  split.
  - destruct (Hc (Val (115 # 1)) (Val Sample.t2) Null Null)
      as (r' & H1 & H2 & H3 & _).
    exists r'. split; [exact H1|]. split; [apply H2 | apply H3]; reflexivity.
  - destruct (Hu Null Undefined) as (r' & H1 & H2 & _ & _ & H3).
    exists r'. split; [exact H1|]. split; [apply H2 | apply H3]; reflexivity.
Defined.

Lemma findTradesBySubAccountId_sorted_page_witness :
  faults Sample.journal = []
  /\ (forall n, Some 2 = Some n ->
                -9223372036854775808 < n < 9223372036854775808)
  /\ (forall n, Some 1 = Some n ->
                -9223372036854775808 < n < 9223372036854775808)
  /\ Sample.ids (findTradesBySubAccountId 1 (Some 2) (Some 1) Sample.journal)
     = [4; 3]
  /\ exists sorted,
       findTradesBySubAccountId 1 (Some 2) (Some 1) Sample.journal
       = (Resolved (take 2 (drop 1 sorted)), Sample.journal)
       /\ (forall r, In r sorted <->
                     In r (trades (cur Sample.journal))
                     /\ Trade.sub_account_id r = Some 1
                     /\ Trade.user_id r = 1)
       /\ StronglySorted (precedes exit_date_DESC_entry_date_DESC) sorted.
Proof.
  assert (H2 : forall n, Some 2 = Some n ->
                         -9223372036854775808 < n < 9223372036854775808)
    by (intros n [= <-]; lia).
  assert (H1 : forall n, Some 1 = Some n ->
                         -9223372036854775808 < n < 9223372036854775808)
    by (intros n [= <-]; lia).
  split; [reflexivity|]. split; [exact H2|]. split; [exact H1|].
  split; [reflexivity|].
  pose proof (findTradesBySubAccountId_sorted_page 1 (Some 2) (Some 1)
                Sample.journal eq_refl H2 H1) as H.
  change (head (List.filter (fun a => SubAccount.id a =? 1)
                            (sub_accounts (cur Sample.journal))))
    with (Some (SubAccount.mk 1 1 "Trade Test SubAcc" (Some "for trade tests")
                              None Sample.t0 Sample.t0)) in H.
  cbv zeta in H. destruct H as (sorted & Hpage & _ & Hmem & Hsorted).
  exists sorted. split; [exact Hpage|]. split; [exact Hmem | exact Hsorted].
Defined.

Lemma settings_row_of_createUserWithSettings_witness :
  createUserWithSettings "testuserTx" "tx@example.com" "hashed_passwordTx"
                         Sample.settings Sample.t0 initDB_test_env
  = (Resolved 1,
     mk_db (mk_schema true true true)
           (mk_tables [User.mk 1 "testuserTx" "tx@example.com"
                               "hashed_passwordTx" Sample.t0 Sample.t0]
                      [Settings.mk 1 "EUR" "dark" Sample.t0 Sample.t0]
                      [] [] 1 0 0)
           None [])
  /\ exists row,
       [Settings.mk 1 "EUR" "dark" Sample.t0 Sample.t0] = [row]
       /\ Settings.default_currency row = "EUR"
       /\ Settings.theme row = "dark".
Proof.
  split; [reflexivity|].
  destruct (settings_row_of_createUserWithSettings
              "testuserTx" "tx@example.com" "hashed_passwordTx"
              Sample.settings Sample.t0 initDB_test_env 1 _ eq_refl)
    as (row & H1 & _ & _ & _ & _ & H2 & H3).
  exists row. split; [exact H1|]. split; [exact H2 | exact H3].
Defined.

(** * Further properties of the repositories *)

(** ** createTrade *)

Lemma createTrade_working td now d :
  faults d = [] ->
  createTrade td now d
  = (resolve_lastID
       (fst (INSERT_trades
               (bind (TradeData.userId td)) (bind (TradeData.subAccountId td))
               (bind (TradeData.ticker td)) (bind (TradeData.quantity td))
               (bind (TradeData.entryPrice td)) (bind (TradeData.direction td))
               (bind (TradeData.entryDate td)) (bind (TradeData.exitDate td))
               (bind (TradeData.exitPrice td)) (bind (TradeData.notes td))
               (bind (TradeData.commission td))
               (js_or (TradeData.status td) "open") now now d)),
     snd (INSERT_trades
            (bind (TradeData.userId td)) (bind (TradeData.subAccountId td))
            (bind (TradeData.ticker td)) (bind (TradeData.quantity td))
            (bind (TradeData.entryPrice td)) (bind (TradeData.direction td))
            (bind (TradeData.entryDate td)) (bind (TradeData.exitDate td))
            (bind (TradeData.exitPrice td)) (bind (TradeData.notes td))
            (bind (TradeData.commission td))
            (js_or (TradeData.status td) "open") now now d)).
Proof.
  intros Hf. unfold createTrade. rewrite db_run_working by exact Hf.
  destruct (INSERT_trades _ _ _ _ _ _ _ _ _ _ _ _ _ _ d). reflexivity.
Qed.

Lemma existsb_false_iff {A} (p : A -> bool) l :
  existsb p l = false <-> forall x, In x l -> p x = false.
Proof.
  induction l as [|a l IH]; simpl; [tauto|].
  rewrite orb_false_iff, IH. split.
  - intros [Ha Hl] x [<-|Hx]; auto.
  - intros H. split; [apply H; left; reflexivity | intros x Hx; apply H; right; exact Hx].
Qed.

Lemma existsb_id_In {A} (key : A -> Z) k l :
  existsb (fun a => key a =? k) l = true <-> In k (map key l).
Proof.
  rewrite existsb_exists, in_map_iff. split.
  - intros (x & Hx & Hk). exists x. split; [lia | exact Hx].
  - intros (x & Hk & Hx). exists x. split; [exact Hx | lia].
Qed.

Lemma check_direction_None s :
  check_direction s = None <-> s <> "long" /\ s <> "short".
Proof.
  unfold check_direction.
  destruct (String.eqb_spec s "long"); [split; [discriminate | tauto]|].
  destruct (String.eqb_spec s "short"); [split; [discriminate | tauto]|].
  tauto.
Qed.

Lemma check_status_None s :
  check_status s = None <-> s <> "open" /\ s <> "closed".
Proof.
  unfold check_status.
  destruct (String.eqb_spec s "open"); [split; [discriminate | tauto]|].
  destruct (String.eqb_spec s "closed"); [split; [discriminate | tauto]|].
  tauto.
Qed.

(** What a successful INSERT into [trades] tells and does. *)
Lemma INSERT_trades_ok uid sid tk q ep dr ed xd xp n c st cr up d i ch d' :
  INSERT_trades uid sid tk q ep dr ed xd xp n c st cr up d = (RunOk i ch, d') ->
  exists u t0 q0 e0 dr0 ed0 dir0 st0,
    uid = Some u /\ tk = Some t0 /\ q = Some q0 /\ ep = Some e0
    /\ dr = Some dr0 /\ ed = Some ed0
    /\ Qle_bool q0 0 = false
    /\ check_direction dr0 = Some dir0
    /\ check_status st = Some st0
    /\ In u (map User.id (users (cur d)))
    /\ match sid with
       | Some s => In s (map SubAccount.id (sub_accounts (cur d)))
       | None => True
       end
    /\ i = seq_trades (cur d) + 1
    /\ d' = set_cur d
              (mk_tables (users (cur d)) (user_settings (cur d))
                 (sub_accounts (cur d))
                 (trades (cur d)
                  ++ [Trade.mk i u sid t0 q0 e0 xp dir0 st0 ed0 xd n c cr up])
                 (seq_users (cur d)) (seq_sub_accounts (cur d)) i).
Proof.
  unfold INSERT_trades, not_null.
  destruct uid as [u|]; [|discriminate]. destruct tk as [t0|]; [|discriminate].
  destruct q as [q0|]; [|discriminate]. destruct ep as [e0|]; [|discriminate].
  destruct dr as [dr0|]; [|discriminate]. destruct ed as [ed0|]; [|discriminate].
  destruct (Qle_bool q0 0) eqn:Eq; [discriminate|].
  destruct (check_direction dr0) as [dir0|] eqn:Ed; [|discriminate].
  destruct (check_status st) as [st0|] eqn:Es; [|discriminate].
  destruct (existsb (fun x => User.id x =? u) (users (cur d))) eqn:Eu;
    [|discriminate].
  simpl.
  assert (Hs : match sid with
               | Some s => In s (map SubAccount.id (sub_accounts (cur d)))
               | None => True
               end
               \/ (match sid with
                   | Some s =>
                       negb (existsb (fun a => SubAccount.id a =? s)
                                     (sub_accounts (cur d)))
                   | None => false
                   end) = true).
  { destruct sid as [s|]; [|left; exact I].
    destruct (existsb _ (sub_accounts (cur d))) eqn:Ea;
      [left; apply existsb_id_In, Ea | right; reflexivity]. }
  destruct Hs as [Hs|Hs]; [|rewrite Hs; discriminate].
  destruct (match sid with Some _ => _ | None => false end); [discriminate|].
  intros H. injection H as <- _ <-.
  exists u, t0, q0, e0, dr0, ed0, dir0, st0.
  repeat (split; [first [reflexivity | assumption | apply existsb_id_In, Eu]|]).
  reflexivity.
Qed.

(** What a failed INSERT into [trades] tells: nothing was written, and the
    error names a constraint that the parameters break. *)
Lemma INSERT_trades_err uid sid tk q ep dr ed xd xp n c st cr up d e d' :
  INSERT_trades uid sid tk q ep dr ed xd xp n c st cr up d = (RunErr e, d') ->
  d' = d
  /\ match e with
     | NOT_NULL_failed _ =>
         uid = None \/ tk = None \/ q = None \/ ep = None \/ dr = None
         \/ ed = None
     | CHECK_failed _ =>
         (exists q0, q = Some q0 /\ (q0 <= 0)%Q)
         \/ (exists s, dr = Some s /\ s <> "long" /\ s <> "short")
         \/ (st <> "open" /\ st <> "closed")
     | FOREIGN_KEY_failed =>
         (exists u, uid = Some u /\ ~ In u (map User.id (users (cur d))))
         \/ (exists s, sid = Some s
                       /\ ~ In s (map SubAccount.id (sub_accounts (cur d))))
     | _ => False
     end.
Proof.
  unfold INSERT_trades, not_null.
  destruct uid as [u|]; [|intros H; injection H as <- <-; tauto].
  destruct tk as [t0|]; [|intros H; injection H as <- <-; tauto].
  destruct q as [q0|]; [|intros H; injection H as <- <-; tauto].
  destruct ep as [e0|]; [|intros H; injection H as <- <-; tauto].
  destruct dr as [dr0|]; [|intros H; injection H as <- <-; tauto].
  destruct ed as [ed0|]; [|intros H; injection H as <- <-; intuition].
  destruct (Qle_bool q0 0) eqn:Eq.
  { intros H; injection H as <- <-. split; [reflexivity|]. left.
    exists q0. split; [reflexivity | apply Qle_bool_iff, Eq]. }
  destruct (check_direction dr0) as [dir0|] eqn:Ed.
  2:{ intros H; injection H as <- <-. split; [reflexivity|]. right. left.
      exists dr0. split; [reflexivity | apply check_direction_None, Ed]. }
  destruct (check_status st) as [st0|] eqn:Es.
  2:{ intros H; injection H as <- <-. split; [reflexivity|]. right. right.
      apply check_status_None, Es. }
  destruct (existsb (fun x => User.id x =? u) (users (cur d))) eqn:Eu; simpl.
  2:{ intros H; injection H as <- <-. split; [reflexivity|]. left.
      exists u. split; [reflexivity|]. rewrite <- existsb_id_In. congruence. }
  destruct sid as [s|]; [|discriminate].
  destruct (existsb (fun a => SubAccount.id a =? s) (sub_accounts (cur d)))
    eqn:Ea; simpl; [discriminate|].
  intros H; injection H as <- <-. split; [reflexivity|]. right.
  exists s. split; [reflexivity|]. rewrite <- existsb_id_In. congruence.
Qed.

Lemma filter_fresh_key {A} (key : A -> Z) l seq k :
  Forall (fun i => i <= seq) (map key l) -> seq < k ->
  List.filter (fun a => key a =? k) l = [].
Proof.
  induction l as [|a l IH]; simpl; intros H Hk; [reflexivity|].
  apply Forall_cons in H as [Ha Hl].
  destruct (Z.eqb_spec (key a) k); [lia|]. auto.
Qed.

Lemma findTradeById_working k d :
  faults d = [] -> findTradeById k d = (Resolved (trade_row k d), d).
Proof.
  intros Hf. unfold findTradeById. rewrite db_get_working by exact Hf.
  reflexivity.
Qed.

Lemma createTrade_resolved td now d id d' :
  faults d = [] ->
  createTrade td now d = (Resolved id, d') ->
  exists ch,
    INSERT_trades
      (bind (TradeData.userId td)) (bind (TradeData.subAccountId td))
      (bind (TradeData.ticker td)) (bind (TradeData.quantity td))
      (bind (TradeData.entryPrice td)) (bind (TradeData.direction td))
      (bind (TradeData.entryDate td)) (bind (TradeData.exitDate td))
      (bind (TradeData.exitPrice td)) (bind (TradeData.notes td))
      (bind (TradeData.commission td))
      (js_or (TradeData.status td) "open") now now d = (RunOk id ch, d').
Proof.
  intros Hf. rewrite createTrade_working by exact Hf.
  destruct (INSERT_trades _ _ _ _ _ _ _ _ _ _ _ _ _ _ d) as [[e|i ch] d1];
    simpl; [discriminate|].
  intros H. injection H as -> ->. exists ch. reflexivity.
Qed.

(** X1: a trade that [createTrade] resolved with is found by [findTradeById]
    under the resolved id, which no trade had before; the row carries the
    bound fields of [tradeData], status ['open'] unless a status was given,
    the operation time in both timestamps; every other id finds what it found
    before. *)
Theorem createTrade_then_findTradeById
    (td : TradeData.t) (now : string) (d : db) (id : Z) (d' : db) :
  healthy d ->
  createTrade td now d = (Resolved id, d') ->
  exists r,
    findTradeById id d' = (Resolved (Some r), d')
    /\ findTradeById id d = (Resolved None, d)
    /\ Trade.id r = id
    /\ bind (TradeData.userId td) = Some (Trade.user_id r)
    /\ bind (TradeData.subAccountId td) = Trade.sub_account_id r
    /\ bind (TradeData.ticker td) = Some (Trade.ticker r)
    /\ bind (TradeData.quantity td) = Some (Trade.quantity r)
    /\ bind (TradeData.entryPrice td) = Some (Trade.entry_price r)
    /\ (exists s, bind (TradeData.direction td) = Some s
                  /\ check_direction s = Some (Trade.dir r))
    /\ bind (TradeData.entryDate td) = Some (Trade.entry_date r)
    /\ bind (TradeData.exitDate td) = Trade.exit_date r
    /\ bind (TradeData.exitPrice td) = Trade.exit_price r
    /\ bind (TradeData.notes td) = Trade.notes r
    /\ bind (TradeData.commission td) = Trade.commission r
    /\ check_status (js_or (TradeData.status td) "open") = Some (Trade.st r)
    /\ (bind (TradeData.status td) = None -> Trade.st r = open)
    /\ Trade.created_at r = now
    /\ Trade.updated_at r = now
    /\ forall k, k <> id -> findTradeById k d' = (fst (findTradeById k d), d').
Proof.
  intros Hd Hc. pose proof (healthy_faults d Hd) as Hf.
  destruct (createTrade_resolved td now d id d' Hf Hc) as [ch Hi].
  apply INSERT_trades_ok in Hi
    as (u & t0 & q0 & e0 & dr0 & ed0 & dir0 & st0 & Hu & Htk & Hq & Hep & Hdr
        & Hed & _ & Hdir & Hst & _ & _ & Hid & Hd').
  assert (Hf' : faults d' = []) by (subst d'; exact Hf).
  assert (Hold : trade_row id d = None).
  { unfold trade_row, SELECT_trades_WHERE_id.
    rewrite (filter_fresh_key Trade.id _ (seq_trades (cur d)));
      [reflexivity | apply Hd | lia]. }
  eexists. split.
  { rewrite findTradeById_working by exact Hf'.
    unfold trade_row, SELECT_trades_WHERE_id. subst d'. cbn.
    rewrite List.filter_app.
    rewrite (filter_fresh_key Trade.id _ (seq_trades (cur d)));
      [|apply Hd | lia].
    cbn. rewrite Z.eqb_refl. reflexivity. }
  split; [rewrite findTradeById_working by exact Hf; rewrite Hold; reflexivity|].
  cbn.
  repeat (split; [first [reflexivity | assumption | congruence
                        | eexists; split; eassumption]|]).
  split.
  { intros Hn. destruct (TradeData.status td); try discriminate;
      cbn in Hst; congruence. }
  split; [reflexivity|]. split; [reflexivity|].
  intros k Hk. rewrite !findTradeById_working by assumption. cbn [fst].
  f_equal. f_equal. unfold trade_row, SELECT_trades_WHERE_id. subst d'. cbn.
  rewrite List.filter_app. cbn.
  destruct (Z.eqb_spec id k); [congruence|]. rewrite app_nil_r. reflexivity.
Qed.

(** X2: a rejected [createTrade] writes nothing, and its error names a
    constraint that [tradeData] breaks: a missing required field for NOT NULL,
    a quantity that is not positive or a direction or status outside the
    enumeration for CHECK, an unknown user or sub-account for FOREIGN KEY.
    Conversely, each of these defects makes [createTrade] reject. *)
Theorem createTrade_rejects_what_breaks_a_constraint
    (td : TradeData.t) (now : string) (d : db) :
  faults d = [] ->
  (forall e d',
      createTrade td now d = (Rejected e, d') ->
      d' = d
      /\ match e with
         | NOT_NULL_failed _ =>
             bind (TradeData.userId td) = None
             \/ bind (TradeData.ticker td) = None
             \/ bind (TradeData.quantity td) = None
             \/ bind (TradeData.entryPrice td) = None
             \/ bind (TradeData.direction td) = None
             \/ bind (TradeData.entryDate td) = None
         | CHECK_failed _ =>
             (exists q, bind (TradeData.quantity td) = Some q /\ (q <= 0)%Q)
             \/ (exists s, bind (TradeData.direction td) = Some s
                           /\ s <> "long" /\ s <> "short")
             \/ (js_or (TradeData.status td) "open" <> "open"
                 /\ js_or (TradeData.status td) "open" <> "closed")
         | FOREIGN_KEY_failed =>
             (exists u, bind (TradeData.userId td) = Some u
                        /\ ~ In u (map User.id (users (cur d))))
             \/ (exists s, bind (TradeData.subAccountId td) = Some s
                           /\ ~ In s (map SubAccount.id (sub_accounts (cur d))))
         | _ => False
         end)
  /\ (bind (TradeData.userId td) = None
      \/ bind (TradeData.ticker td) = None
      \/ bind (TradeData.quantity td) = None
      \/ bind (TradeData.entryPrice td) = None
      \/ bind (TradeData.direction td) = None
      \/ bind (TradeData.entryDate td) = None
      \/ (exists q, bind (TradeData.quantity td) = Some q /\ (q <= 0)%Q)
      \/ (exists s, bind (TradeData.direction td) = Some s
                    /\ s <> "long" /\ s <> "short")
      \/ (js_or (TradeData.status td) "open" <> "open"
          /\ js_or (TradeData.status td) "open" <> "closed")
      \/ (exists u, bind (TradeData.userId td) = Some u
                    /\ ~ In u (map User.id (users (cur d))))
      \/ (exists s, bind (TradeData.subAccountId td) = Some s
                    /\ ~ In s (map SubAccount.id (sub_accounts (cur d)))) ->
      exists e, createTrade td now d = (Rejected e, d)).
Proof.
  intros Hf. rewrite createTrade_working by exact Hf. split.
  - intros e d'.
    destruct (INSERT_trades _ _ _ _ _ _ _ _ _ _ _ _ _ _ d) as [[e0|i ch] d1]
      eqn:Ei; simpl; [|discriminate].
    intros H. injection H as -> ->.
    apply INSERT_trades_err in Ei. exact Ei.
  - intros Hbad.
    destruct (INSERT_trades _ _ _ _ _ _ _ _ _ _ _ _ _ _ d) as [[e0|i ch] d1]
      eqn:Ei; simpl.
    + apply INSERT_trades_err in Ei as [-> _]. exists e0. reflexivity.
    + exfalso. apply INSERT_trades_ok in Ei
        as (u & t0 & q0 & e0 & dr0 & ed0 & dir0 & st0 & Hu & Htk & Hq & Hep
            & Hdr & Hed & Hqle & Hdir & Hst & Huser & Hsub & _).
      destruct Hbad as [H|[H|[H|[H|[H|[H|[H|[H|[H|[H|H]]]]]]]]]];
        try congruence.
      * destruct H as (q & Hq' & Hle). rewrite Hq in Hq'. injection Hq' as <-.
        apply Qle_bool_iff in Hle. congruence.
      * destruct H as (s & Hs & Hbad). rewrite Hdr in Hs. injection Hs as <-.
        apply check_direction_None in Hbad. congruence.
      * apply check_status_None in H. congruence.
      * destruct H as (u' & Hu' & Hn). rewrite Hu in Hu'. injection Hu' as <-.
        contradiction.
      * destruct H as (s & Hs & Hn). rewrite Hs in Hsub. contradiction.
Qed.

(** ** The ids of trades *)

Lemma seq_run ops d :
  healthy d -> seq_trades (cur d) <= seq_trades (cur (run ops d)).
Proof.
  unfold run. revert d.
  induction ops as [|[o now] ops IH]; intros d Hd; cbn [fold_left]; [lia|].
  pose proof (seq_step d o now Hd).
  pose proof (IH _ (healthy_step d o now Hd)). lia.
Qed.

(** X3: the id that [createTrade] resolves with was never the id of a trade
    before, whatever operations came in between: it is larger than the id of
    every trade stored at any earlier moment, deleted since or not. *)
Theorem createTrade_never_reuses_an_id
    (d : db) (ops : list (op * string)) (td : TradeData.t) (now : string)
    (id : Z) (d' : db) :
  healthy d ->
  createTrade td now (run ops d) = (Resolved id, d') ->
  seq_trades (cur d) < id
  /\ (forall r, In r (trades (cur d)) -> Trade.id r < id)
  /\ (forall r, In r (trades (cur (run ops d))) -> Trade.id r < id).
Proof.
  intros Hd Hc. pose proof (healthy_run ops d Hd) as Hd'.
  destruct (createTrade_resolved td now _ id d' (healthy_faults _ Hd') Hc)
    as [ch Hi].
  apply INSERT_trades_ok in Hi
    as (u & t0 & q0 & e0 & dr0 & ed0 & dir0 & st0 & _ & _ & _ & _ & _ & _ & _
        & _ & _ & _ & _ & Hid & _).
  pose proof (seq_run ops d Hd) as Hseq.
  split; [lia|]. split.
  - intros r Hr. destruct Hd as [_ [_ Hle] _ _].
    rewrite Forall_forall in Hle.
    assert (Trade.id r <= seq_trades (cur d))
      by (apply Hle, list_elem_of_In, in_map, Hr).
    lia.
  - intros r Hr. destruct Hd' as [_ [_ Hle] _ _].
    rewrite Forall_forall in Hle.
    assert (Trade.id r <= seq_trades (cur (run ops d)))
      by (apply Hle, list_elem_of_In, in_map, Hr).
    lia.
Qed.

(** ** deleteTrade *)

Lemma filter_all {A} (p : A -> bool) l :
  List.filter (fun a => negb (p a)) l = l <-> List.filter p l = [].
Proof.
  induction l as [|a l IH]; simpl; [tauto|].
  destruct (p a); simpl.
  - split; [|discriminate]. intros H.
    assert (Hlen : (length (List.filter (fun a0 => negb (p a0)) l)
                    <= length l)%nat) by apply List.filter_length_le.
    rewrite H in Hlen. simpl in Hlen. lia.
  - rewrite <- IH. split; [intros H; injection H; auto | intros ->; reflexivity].
Qed.

(** X4: [deleteTrade] resolves with [true] exactly when a trade has the id;
    afterwards no trade has it, every other id finds the row it found before,
    and a second [deleteTrade] of the id resolves with [false]; when no trade
    has the id the store is left as it was. *)
Theorem deleteTrade_removes_one_trade (id : Z) (d : db) :
  healthy d ->
  match trade_row id d with
  | Some _ =>
      exists d',
        deleteTrade id d = (Resolved true, d')
        /\ findTradeById id d' = (Resolved None, d')
        /\ (forall k, k <> id ->
                      findTradeById k d' = (fst (findTradeById k d), d'))
        /\ deleteTrade id d' = (Resolved false, d')
  | None => deleteTrade id d = (Resolved false, d)
  end.
Proof.
  intros Hd. pose proof (healthy_faults d Hd) as Hf.
  assert (Hch : forall d0, healthy d0 ->
            length (List.filter (fun r => Trade.id r =? id) (trades (cur d0)))
            = match trade_row id d0 with Some _ => 1%nat | None => 0%nat end).
  { intros d0 Hd0.
    rewrite (changes_by_id (fun r => Trade.id r =? id) (fun _ => true) id d0 Hd0).
    - destruct (trade_row id d0); reflexivity.
    - intros r. rewrite andb_true_r. reflexivity. }
  assert (Hnone : forall d0, healthy d0 -> trade_row id d0 = None ->
                             deleteTrade id d0 = (Resolved false, d0)).
  { intros d0 Hd0 Hr. unfold deleteTrade.
    rewrite db_run_working by apply (healthy_faults d0 Hd0).
    unfold DELETE_FROM_trades_WHERE_id. cbn.
    specialize (Hch d0 Hd0). rewrite Hr in Hch. rewrite Hch. cbn.
    apply length_zero_iff_nil in Hch.
    apply (filter_all (fun r => Trade.id r =? id)) in Hch. rewrite Hch.
    rewrite set_trades_same. reflexivity. }
  destruct (trade_row id d) as [r|] eqn:Er; [|apply Hnone; assumption].
  pose proof (healthy_DELETE_FROM_trades id d Hd) as Hd'.
  exists (snd (DELETE_FROM_trades_WHERE_id id d)).
  assert (Hgone : trade_row id (snd (DELETE_FROM_trades_WHERE_id id d)) = None)
    by (rewrite trade_row_DELETE_FROM_trades, Z.eqb_refl; reflexivity).
  split.
  { unfold deleteTrade. rewrite db_run_working by exact Hf.
    unfold DELETE_FROM_trades_WHERE_id at 1. cbn.
    specialize (Hch d Hd). rewrite Er in Hch. rewrite Hch. reflexivity. }
  split.
  { rewrite findTradeById_working by apply (healthy_faults _ Hd').
    rewrite Hgone. reflexivity. }
  split.
  { intros k Hk.
    rewrite !findTradeById_working by (exact Hf || apply (healthy_faults _ Hd')).
    rewrite trade_row_DELETE_FROM_trades.
    destruct (Z.eqb_spec k id); [contradiction | reflexivity]. }
  apply Hnone; assumption.
Qed.

(** ** The listings of trades *)

#[global] Instance entry_date_ASC_total : Total (precedes entry_date_ASC).
Proof.
  intros a b. unfold precedes, entry_date_ASC.
  rewrite (text_compare_antisym (Trade.entry_date b)).
  destruct (String_as_OT.compare _ _); simpl; auto.
Qed.

#[global] Instance entry_date_ASC_trans : Transitive (precedes entry_date_ASC).
Proof.
  intros a b c. unfold precedes, entry_date_ASC.
  destruct (String_as_OT.compare (Trade.entry_date a) (Trade.entry_date b))
    eqn:Eab; [| |discriminate]; intros _.
  - apply text_compare_eq in Eab. rewrite Eab. auto.
  - destruct (String_as_OT.compare (Trade.entry_date b) (Trade.entry_date c))
      eqn:Ebc; [| |discriminate]; intros _.
    + apply text_compare_eq in Ebc. rewrite <- Ebc, Eab. reflexivity.
    + rewrite (text_compare_lt_trans _ _ _ Eab Ebc). reflexivity.
Qed.

Lemma status_eqb_eq a b : status_eqb a b = true <-> a = b.
Proof. destruct a, b; simpl; split; congruence. Qed.

Lemma In_owned_with_status uid s l r :
  In r (List.filter (fun r => (Trade.user_id r =? uid)
                              && status_eqb (Trade.st r) s) l)
  <-> In r l /\ Trade.user_id r = uid /\ Trade.st r = s.
Proof.
  rewrite filter_In, andb_true_iff, Z.eqb_eq, status_eqb_eq. tauto.
Qed.

Lemma findOpenTradesByUserId_members userId d :
  faults d = [] ->
  exists rows,
    findOpenTradesByUserId userId d = (Resolved rows, d)
    /\ (forall r, In r rows <->
                  In r (trades (cur d))
                  /\ Trade.user_id r = userId /\ Trade.st r = open).
Proof.
  intros Hf. unfold findOpenTradesByUserId.
  rewrite db_all_working by exact Hf. cbn [resolve_rows].
  eexists. split; [reflexivity|].
  unfold SELECT_open_trades, ORDER_BY.
  intros r. rewrite <- In_owned_with_status, <- !list_elem_of_In.
  rewrite sorter_Permutation. reflexivity.
Qed.

(** X5: [findOpenTradesByUserId] resolves with exactly the open trades of the
    user, each once, ordered by entry date ascending; the store is not
    changed. *)
Theorem findOpenTradesByUserId_sorted (userId : Z) (d : db) :
  faults d = [] ->
  exists rows,
    findOpenTradesByUserId userId d = (Resolved rows, d)
    /\ Permutation rows
         (List.filter (fun r => (Trade.user_id r =? userId)
                                && status_eqb (Trade.st r) open)
                      (trades (cur d)))
    /\ (forall r, In r rows <->
                  In r (trades (cur d))
                  /\ Trade.user_id r = userId /\ Trade.st r = open)
    /\ StronglySorted (precedes entry_date_ASC) rows.
Proof.
  intros Hf. unfold findOpenTradesByUserId.
  rewrite db_all_working by exact Hf. cbn [resolve_rows].
  eexists. split; [reflexivity|].
  unfold SELECT_open_trades, ORDER_BY.
  split; [apply sorter_Permutation|]. split.
  - intros r. rewrite <- In_owned_with_status, <- !list_elem_of_In.
    rewrite sorter_Permutation. reflexivity.
  - apply (StronglySorted_sorter entry_date_ASC).
    + exact entry_date_ASC_total.
    + exact entry_date_ASC_trans.
Qed.

Lemma take_then_take_of_drop {A} (n m : nat) (l : list A) :
  (take n l ++ take m (drop n l))%list = take (n + m) l.
Proof.
  revert l. induction n as [|n IH]; intros l; [reflexivity|].
  destruct l as [|a l]; simpl.
  - destruct m; reflexivity.
  - f_equal. apply IH.
Qed.

Lemma LIMIT_OFFSET_in_range {A} (limit offset : Z) (l : list A) :
  -9223372036854775808 < limit < 9223372036854775808 ->
  -9223372036854775808 < offset < 9223372036854775808 ->
  LIMIT_OFFSET limit offset l
  = inr (if limit <? 0 then drop (Z.to_nat offset) l
         else take (Z.to_nat limit) (drop (Z.to_nat offset) l)).
Proof.
  intros Hl Ho. unfold LIMIT_OFFSET.
  rewrite (proj2 (reads_as_integer_iff limit) Hl).
  rewrite (proj2 (reads_as_integer_iff offset) Ho). reflexivity.
Qed.

Lemma pages_join {A} (limit offset : Z) (l : list A) :
  0 <= limit -> 0 <= offset ->
  (take (Z.to_nat limit) (drop (Z.to_nat offset) l)
   ++ take (Z.to_nat limit) (drop (Z.to_nat (offset + limit)) l))%list
  = take (Z.to_nat (2 * limit)) (drop (Z.to_nat offset) l).
Proof.
  intros Hl Ho.
  replace (Z.to_nat (offset + limit))
    with (Z.to_nat offset + Z.to_nat limit)%nat by lia.
  rewrite <- drop_drop, take_then_take_of_drop. f_equal. lia.
Qed.

(** A limit or an offset that is not read as an integer rejects the
    promise. *)
Lemma findClosedTradesByUserId_out_of_range userId limit offset d :
  faults d = [] ->
  reads_as_integer (match limit with Some n => n | None => 50 end)
  && reads_as_integer (match offset with Some n => n | None => 0 end) = false ->
  findClosedTradesByUserId userId limit offset d
  = (Rejected DATATYPE_mismatch, d).
Proof.
  intros Hf Hout. unfold findClosedTradesByUserId.
  rewrite db_all_working by exact Hf.
  unfold SELECT_closed_trades, LIMIT_OFFSET.
  rewrite !default_param_given, Hout. reflexivity.
Qed.

Lemma not_read_as_integer l o :
  l <= -9223372036854775808 \/ 9223372036854775808 <= l
  \/ o <= -9223372036854775808 \/ 9223372036854775808 <= o ->
  reads_as_integer l && reads_as_integer o = false.
Proof.
  intros H. apply andb_false_iff.
  destruct (reads_as_integer l) eqn:El; [|left; reflexivity].
  destruct (reads_as_integer o) eqn:Eo; [|right; reflexivity].
  apply reads_as_integer_iff in El, Eo. lia.
Qed.

(** X6: [findClosedTradesByUserId] pages through one list: the closed trades
    of the user, each once, ordered by exit date and then entry date, both
    descending.  For a limit and an offset that are not negative and small
    enough for [2 * limit] and [offset + limit] to stay below 2^63, a page
    holds at most [limit] rows, the page at [offset] followed by the page at
    [offset + limit] is the page of [2 * limit] rows at [offset] (no overlap,
    no gap); without arguments the first 50 rows are returned.  A limit or
    an offset at or beyond 2^63, or at or below -2^63, rejects the promise
    with the datatype mismatch of the statement, the store untouched. *)
Theorem findClosedTradesByUserId_pages (userId limit offset : Z) (d : db) :
  faults d = [] ->
  0 <= limit ->
  0 <= offset ->
  2 * limit < 9223372036854775808 ->
  offset + limit < 9223372036854775808 ->
  exists sorted page1 page2,
    Permutation sorted
      (List.filter (fun r => (Trade.user_id r =? userId)
                             && status_eqb (Trade.st r) closed)
                   (trades (cur d)))
    /\ (forall r, In r sorted <->
                  In r (trades (cur d))
                  /\ Trade.user_id r = userId /\ Trade.st r = closed)
    /\ StronglySorted (precedes exit_date_DESC_entry_date_DESC) sorted
    /\ findClosedTradesByUserId userId (Some limit) (Some offset) d
       = (Resolved page1, d)
    /\ findClosedTradesByUserId userId (Some limit) (Some (offset + limit)) d
       = (Resolved page2, d)
    /\ page1 = take (Z.to_nat limit) (drop (Z.to_nat offset) sorted)
    /\ (Z.of_nat (length page1) <= limit)
    /\ findClosedTradesByUserId userId (Some (2 * limit)) (Some offset) d
       = (Resolved (page1 ++ page2)%list, d)
    /\ findClosedTradesByUserId userId None None d
       = (Resolved (take 50 sorted), d)
    /\ (forall l o,
          l <= -9223372036854775808 \/ 9223372036854775808 <= l
          \/ o <= -9223372036854775808 \/ 9223372036854775808 <= o ->
          findClosedTradesByUserId userId (Some l) (Some o) d
          = (Rejected DATATYPE_mismatch, d)).
Proof.
  intros Hf Hl Ho Hl2 Hol.
  assert (Hout : forall l o,
             l <= -9223372036854775808 \/ 9223372036854775808 <= l
             \/ o <= -9223372036854775808 \/ 9223372036854775808 <= o ->
             findClosedTradesByUserId userId (Some l) (Some o) d
             = (Rejected DATATYPE_mismatch, d)).
  { intros l o H. apply findClosedTradesByUserId_out_of_range; [exact Hf|].
    apply not_read_as_integer, H. }
  unfold findClosedTradesByUserId in *.
  rewrite !db_all_working by exact Hf. cbn [default_param].
  unfold SELECT_closed_trades.
  rewrite !LIMIT_OFFSET_in_range by lia.
  destruct (Z.ltb_spec limit 0); [lia|].
  destruct (Z.ltb_spec (2 * limit) 0); [lia|].
  change (50 <? 0) with false. cbn [resolve_rows].
  pose proof (ORDER_BY_exit_entry_DESC
                (List.filter (fun r => (Trade.user_id r =? userId)
                                       && status_eqb (Trade.st r) closed)
                             (trades (cur d)))) as [Hperm Hsorted].
  do 3 eexists. split; [exact Hperm|]. split.
  { intros r. rewrite <- In_owned_with_status, <- !list_elem_of_In.
    rewrite Hperm. reflexivity. }
  split; [exact Hsorted|]. split; [reflexivity|]. split; [reflexivity|].
  split; [reflexivity|].
  split; [rewrite length_take; lia|].
  split; [rewrite pages_join by assumption; reflexivity|].
  split; [reflexivity | exact Hout].
Qed.

Lemma trade_row_In k d r : trade_row k d = Some r -> In r (trades (cur d)).
Proof.
  unfold trade_row, SELECT_trades_WHERE_id. intros Er.
  destruct (List.filter _ _) as [|x l] eqn:Efl; [discriminate|].
  simpl in Er. injection Er as ->.
  assert (Hin : In r (List.filter (fun r0 => Trade.id r0 =? k) (trades (cur d))))
    by (rewrite Efl; left; reflexivity).
  apply filter_In in Hin. tauto.
Qed.

(** X7: closing an open trade takes it off its user's list of open trades,
    which is otherwise the same rows as before, and puts it, with the exit
    price and exit date of the call, on the user's list of closed trades
    (read without a limit). *)
Theorem closeTrade_moves_the_trade_between_lists
    (cd : CloseData.t) (now : string) (d : db) (r : Trade.t) :
  healthy d ->
  trade_row (CloseData.id cd) d = Some r ->
  Trade.st r = open ->
  exists d' before after closed_after r',
    closeTrade cd now d = (Resolved true, d')
    /\ findOpenTradesByUserId (Trade.user_id r) d = (Resolved before, d)
    /\ findOpenTradesByUserId (Trade.user_id r) d' = (Resolved after, d')
    /\ findClosedTradesByUserId (Trade.user_id r) (Some (-1)) None d'
       = (Resolved closed_after, d')
    /\ In r before
    /\ (forall x, In x after <-> In x before /\ Trade.id x <> CloseData.id cd)
    /\ In r' closed_after
    /\ Trade.id r' = CloseData.id cd
    /\ Trade.exit_price r' = bind (CloseData.exitPrice cd)
    /\ Trade.exit_date r' = bind (CloseData.exitDate cd).
Proof.
  intros Hd Er Hopen. pose proof (healthy_faults d Hd) as Hf.
  pose proof (trade_row_id _ _ _ Er) as Hid.
  pose proof (trade_row_In _ _ _ Er) as Hin.
  set (f := fun x => if open_with_id (CloseData.id cd) x
                     then SET_close (bind (CloseData.exitPrice cd))
                            (bind (CloseData.exitDate cd)) now
                            (bind (CloseData.notes cd))
                            (bind (CloseData.commission cd)) x
                     else x).
  assert (Htr : trades (cur (snd (closeTrade_sql cd now d)))
                = map f (trades (cur d))) by reflexivity.
  assert (Hf' : faults (snd (closeTrade_sql cd now d)) = []) by exact Hf.
  assert (Hch : length (List.filter (open_with_id (CloseData.id cd))
                                    (trades (cur d))) = 1%nat).
  { rewrite (changes_by_id (open_with_id (CloseData.id cd))
               (fun x => status_eqb (Trade.st x) open)
               (CloseData.id cd) d Hd (fun x => eq_refl)).
    rewrite Er, Hopen. reflexivity. }
  destruct (findOpenTradesByUserId_members (Trade.user_id r) d Hf)
    as (before & Hb & Hbefore).
  destruct (findOpenTradesByUserId_members (Trade.user_id r) _ Hf')
    as (after & Ha & Hafter).
  exists (snd (closeTrade_sql cd now d)), before, after.
  eexists. exists (f r).
  split; [rewrite closeTrade_working by exact Hf; rewrite Hch; reflexivity|].
  split; [exact Hb|]. split; [exact Ha|].
  split.
  { unfold findClosedTradesByUserId. rewrite db_all_working by exact Hf'.
    cbn [default_param]. unfold SELECT_closed_trades.
    rewrite LIMIT_OFFSET_in_range by lia.
    change (-1 <? 0) with true. cbn [resolve_rows Z.to_nat drop].
    reflexivity. }
  assert (Hfr : f r = SET_close (bind (CloseData.exitPrice cd))
                        (bind (CloseData.exitDate cd)) now
                        (bind (CloseData.notes cd))
                        (bind (CloseData.commission cd)) r).
  { unfold f, open_with_id. rewrite Hid, Z.eqb_refl, Hopen. reflexivity. }
  split; [apply Hbefore; auto|]. split.
  { intros x. rewrite Hafter, Hbefore, Htr, in_map_iff. split.
    - intros ((y & Hy & Hiny) & Hu & Hs). unfold f in Hy.
      destruct (open_with_id (CloseData.id cd) y) eqn:Ey.
      + subst x. discriminate.
      + subst y. split; [auto|]. intros Hx.
        unfold open_with_id in Ey. rewrite Hx, Z.eqb_refl, Hs in Ey.
        discriminate.
    - intros ((Hx & Hu & Hs) & Hne). split; [|auto].
      exists x. split; [|exact Hx]. unfold f, open_with_id.
      destruct (Z.eqb_spec (Trade.id x) (CloseData.id cd)); [contradiction|].
      reflexivity. }
  split.
  { apply list_elem_of_In. unfold ORDER_BY. rewrite sorter_Permutation.
    apply list_elem_of_In, In_owned_with_status. rewrite Htr.
    split; [apply in_map, Hin|]. rewrite Hfr. split; reflexivity. }
  rewrite Hfr. repeat split. exact Hid.
Qed.

(** ** sub_account_repository.js *)

Lemma createSubAccount_working userId name description now d :
  faults d = [] ->
  createSubAccount userId name description now d
  = (resolve_lastID
       (fst (INSERT_sub_accounts userId name (bind description) now now d)),
     snd (INSERT_sub_accounts userId name (bind description) now now d)).
Proof.
  intros Hf. unfold createSubAccount. rewrite db_run_working by exact Hf.
  destruct (INSERT_sub_accounts _ _ _ _ _ d). reflexivity.
Qed.

Lemma findSubAccountById_working k d :
  faults d = [] ->
  findSubAccountById k d
  = (Resolved (head (SELECT_sub_accounts_WHERE_id k (cur d))), d).
Proof.
  intros Hf. unfold findSubAccountById. rewrite db_get_working by exact Hf.
  reflexivity.
Qed.

Lemma name_taken_iff userId name l :
  existsb (fun a => (SubAccount.user_id a =? userId)
                    && String.eqb (SubAccount.name a) name) l = true
  <-> exists a, In a l /\ SubAccount.user_id a = userId
                /\ SubAccount.name a = name.
Proof.
  rewrite existsb_exists. split; intros (a & Ha & H); exists a.
  - apply andb_true_iff in H as [H1 H2]. apply String.eqb_eq in H2.
    split; [exact Ha|]. split; [lia | exact H2].
  - destruct H as [H1 H2]. split; [exact Ha|].
    apply andb_true_iff. split; [lia | apply String.eqb_eq, H2].
Qed.

(** X8: [createSubAccount] rejects with the UNIQUE error, writing nothing,
    when the user already has a sub-account of that name; otherwise it rejects
    with the FOREIGN KEY error, writing nothing, when no user has the id;
    otherwise it resolves with the next id and appends one row with the given
    fields, a NULL broker and both timestamps at the operation time.  A name
    used by another user is no obstacle. *)
Theorem createSubAccount_cases
    (userId : Z) (name : string) (description : jsval string) (now : string)
    (d : db) :
  faults d = [] ->
  ((exists a, In a (sub_accounts (cur d)) /\ SubAccount.user_id a = userId
              /\ SubAccount.name a = name) ->
   createSubAccount userId name description now d
   = (Rejected (UNIQUE_failed "sub_accounts.user_id, sub_accounts.name"), d))
  /\ (~ (exists a, In a (sub_accounts (cur d)) /\ SubAccount.user_id a = userId
                   /\ SubAccount.name a = name) ->
      ~ In userId (map User.id (users (cur d))) ->
      createSubAccount userId name description now d
      = (Rejected FOREIGN_KEY_failed, d))
  /\ (~ (exists a, In a (sub_accounts (cur d)) /\ SubAccount.user_id a = userId
                   /\ SubAccount.name a = name) ->
      In userId (map User.id (users (cur d))) ->
      exists d',
        createSubAccount userId name description now d
        = (Resolved (seq_sub_accounts (cur d) + 1), d')
        /\ sub_accounts (cur d')
           = (sub_accounts (cur d)
              ++ [SubAccount.mk (seq_sub_accounts (cur d) + 1) userId name
                                (bind description) None now now])%list
        /\ users (cur d') = users (cur d)
        /\ user_settings (cur d') = user_settings (cur d)
        /\ trades (cur d') = trades (cur d)).
Proof.
  intros Hf. rewrite createSubAccount_working by exact Hf.
  unfold INSERT_sub_accounts.
  pose proof (name_taken_iff userId name (sub_accounts (cur d))) as Htaken.
  pose proof (existsb_id_In User.id userId (users (cur d))) as Hknown.
  destruct (existsb _ (sub_accounts (cur d))).
  - split; [reflexivity|].
    split; intros Hn; exfalso; apply Hn, Htaken; reflexivity.
  - split; [intros H; apply Htaken in H; discriminate|].
    destruct (existsb _ (users (cur d))); cbn.
    + split; [intros _ Hn; exfalso; apply Hn, Hknown; reflexivity|].
      intros _ _. eexists. repeat split.
    + split; [reflexivity|].
      intros _ H. apply Hknown in H. discriminate.
Qed.

Lemma count_by_key {A} (key : A -> Z) k l :
  NoDup (map key l) ->
  length (List.filter (fun a => key a =? k) l)
  = match head (List.filter (fun a => key a =? k) l) with
    | Some _ => 1%nat
    | None => 0%nat
    end.
Proof.
  induction l as [|a l IH]; simpl; intros Hnd; [reflexivity|].
  apply NoDup_cons in Hnd as [Hnotin Hnd].
  destruct (Z.eqb_spec (key a) k) as [Heq|Hne]; simpl; [|auto].
  assert (Hnil : List.filter (fun a => key a =? k) l = []).
  { clear IH Hnd. induction l as [|b l IHl]; simpl; [reflexivity|].
    simpl in Hnotin. rewrite not_elem_of_cons in Hnotin.
    destruct Hnotin as [Hb Hl].
    destruct (Z.eqb_spec (key b) k); [congruence|]. auto. }
  rewrite Hnil. reflexivity.
Qed.

Lemma head_filter_key {A} (key : A -> Z) k l a :
  head (List.filter (fun a => key a =? k) l) = Some a -> In a l /\ key a = k.
Proof.
  intros E. destruct (List.filter _ l) as [|x l'] eqn:Efl; [discriminate|].
  simpl in E. injection E as ->.
  assert (Hin : In a (List.filter (fun a => key a =? k) l))
    by (rewrite Efl; left; reflexivity).
  apply filter_In in Hin. split; [tauto | lia].
Qed.

(** X9: a sub-account that [createSubAccount] resolved with is found by
    [findSubAccountById] under the resolved id, which found nothing before,
    as the row just written; every other id finds what it found before, and
    the ids stay distinct and bounded by the counter. *)
Theorem createSubAccount_then_findSubAccountById
    (userId : Z) (name : string) (description : jsval string) (now : string)
    (d : db) (id : Z) (d' : db) :
  faults d = [] ->
  sub_account_keys_ok d ->
  createSubAccount userId name description now d = (Resolved id, d') ->
  findSubAccountById id d'
  = (Resolved (Some (SubAccount.mk id userId name (bind description) None
                                   now now)), d')
  /\ findSubAccountById id d = (Resolved None, d)
  /\ (forall k, k <> id ->
                findSubAccountById k d' = (fst (findSubAccountById k d), d'))
  /\ sub_account_keys_ok d'.
Proof.
  intros Hf [Hnd Hle]. rewrite createSubAccount_working by exact Hf.
  unfold INSERT_sub_accounts.
  destruct (existsb _ (sub_accounts (cur d))); [discriminate|].
  destruct (negb _); [discriminate|]. cbn.
  intros H. injection H as <- <-.
  assert (Hfresh : List.filter
                     (fun a => SubAccount.id a =? seq_sub_accounts (cur d) + 1)
                     (sub_accounts (cur d)) = [])
    by (apply (filter_fresh_key SubAccount.id _ (seq_sub_accounts (cur d)));
        [assumption | lia]).
  rewrite !findSubAccountById_working by exact Hf.
  unfold SELECT_sub_accounts_WHERE_id. cbn.
  split.
  { rewrite List.filter_app, Hfresh.
    cbn. rewrite Z.eqb_refl. reflexivity. }
  split; [rewrite Hfresh; reflexivity|]. split.
  { intros k Hk. rewrite !findSubAccountById_working by exact Hf.
    unfold SELECT_sub_accounts_WHERE_id. cbn.
    rewrite List.filter_app. cbn.
    destruct (Z.eqb_spec (seq_sub_accounts (cur d) + 1) k); [congruence|].
    rewrite app_nil_r. reflexivity. }
  unfold sub_account_keys_ok. cbn.
  apply keys_ok_snoc; [reflexivity | split; assumption].
Qed.

#[global] Instance name_precedes_total : Total name_precedes.
Proof.
  intros a b. unfold name_precedes, name_ASC.
  rewrite (text_compare_antisym (SubAccount.name b)).
  destruct (String_as_OT.compare _ _); simpl; auto.
Qed.

#[global] Instance name_precedes_trans : Transitive name_precedes.
Proof.
  intros a b c. unfold name_precedes, name_ASC.
  destruct (String_as_OT.compare (SubAccount.name a) (SubAccount.name b))
    eqn:Eab; [| |discriminate]; intros _.
  - apply text_compare_eq in Eab. rewrite Eab. auto.
  - destruct (String_as_OT.compare (SubAccount.name b) (SubAccount.name c))
      eqn:Ebc; [| |discriminate]; intros _.
    + apply text_compare_eq in Ebc. rewrite <- Ebc, Eab. reflexivity.
    + rewrite (text_compare_lt_trans _ _ _ Eab Ebc). reflexivity.
Qed.

(** X10: [findSubAccountsByUserId] resolves with exactly the sub-accounts of
    the user, each once, ordered by name ascending, and with the empty list
    when the user has none; the store is not changed. *)
Theorem findSubAccountsByUserId_sorted (userId : Z) (d : db) :
  faults d = [] ->
  exists rows,
    findSubAccountsByUserId userId d = (Resolved rows, d)
    /\ Permutation rows
         (List.filter (fun a => SubAccount.user_id a =? userId)
                      (sub_accounts (cur d)))
    /\ (forall a, In a rows <->
                  In a (sub_accounts (cur d)) /\ SubAccount.user_id a = userId)
    /\ StronglySorted name_precedes rows
    /\ ((forall a, In a (sub_accounts (cur d)) ->
                   SubAccount.user_id a <> userId) -> rows = []).
Proof.
  intros Hf. unfold findSubAccountsByUserId.
  rewrite db_all_working by exact Hf. cbn [resolve_rows].
  eexists. split; [reflexivity|]. unfold SELECT_sub_accounts_WHERE_user_id.
  split; [apply sorter_Permutation|].
  assert (Hmem : forall a,
             In a (sorter name_ASC
                     (List.filter (fun a => SubAccount.user_id a =? userId)
                                  (sub_accounts (cur d))))
             <-> In a (sub_accounts (cur d)) /\ SubAccount.user_id a = userId).
  { intros a. split.
    - intros H. apply list_elem_of_In in H.
      rewrite sorter_Permutation in H.
      apply list_elem_of_In, filter_In in H. destruct H as [H1 H2].
      split; [exact H1 | lia].
    - intros [H1 H2]. apply list_elem_of_In. rewrite sorter_Permutation.
      apply list_elem_of_In, filter_In. split; [exact H1 | lia]. }
  split; [exact Hmem|].
  split.
  { apply (StronglySorted_sorter name_ASC).
    - exact name_precedes_total.
    - exact name_precedes_trans. }
  intros Hnone.
  destruct (sorter name_ASC _) as [|a l]; [reflexivity|].
  exfalso. destruct (proj1 (Hmem a) (or_introl eq_refl)) as [Hin Hu].
  exact (Hnone a Hin Hu).
Qed.

Lemma store_same d :
  set_cur d (mk_tables (users (cur d)) (user_settings (cur d))
                       (sub_accounts (cur d)) (trades (cur d))
                       (seq_users (cur d)) (seq_sub_accounts (cur d))
                       (seq_trades (cur d))) = d.
Proof. destruct d as [s [] x f]. reflexivity. Qed.

Lemma key_determines_row {A} (key : A -> Z) l a b :
  NoDup (map key l) -> In a l -> In b l -> key a = key b -> a = b.
Proof.
  induction l as [|x l IH]; simpl; intros Hnd Ha Hb Hk; [contradiction|].
  apply NoDup_cons in Hnd as [Hnotin Hnd].
  destruct Ha as [->|Ha], Hb as [->|Hb]; auto.
  - exfalso. apply Hnotin. rewrite Hk. apply list_elem_of_In, in_map, Hb.
  - exfalso. apply Hnotin. rewrite <- Hk. apply list_elem_of_In, in_map, Ha.
Qed.

Lemma map_unchanged {A} (f : A -> A) l :
  (forall a, In a l -> f a = a) -> map f l = l.
Proof.
  induction l as [|a l IH]; simpl; intros H; [reflexivity|].
  rewrite H by (left; reflexivity). f_equal. apply IH. intros b Hb.
  apply H. right. exact Hb.
Qed.

Lemma updateSubAccount_working id name description broker now d :
  faults d = [] ->
  updateSubAccount id name description broker now d
  = (resolve_changes
       (fst (UPDATE_sub_accounts name (bind description) (bind broker) now id d)),
     snd (UPDATE_sub_accounts name (bind description) (bind broker) now id d)).
Proof.
  intros Hf. unfold updateSubAccount. rewrite db_run_working by exact Hf.
  destruct (UPDATE_sub_accounts _ _ _ _ _ d). reflexivity.
Qed.

(** X11: on a store whose [sub_accounts] table was created without the
    [broker] column, [updateSubAccount] rejects and changes nothing.  On a
    store that has the column it resolves with [false], the store untouched,
    when no sub-account has the id.  When one has, it rejects with the UNIQUE
    error, the store untouched, if another sub-account of the same user
    already bears the new name; otherwise it resolves with [true] and the row
    is rewritten as a whole: the new name, the description and the broker of
    the call (NULL for each one left out or null, whatever was stored), the
    operation time as [updated_at], while id, owner and [created_at] stay; all
    other rows stay as they were. *)
Theorem updateSubAccount_overwrites
    (id : Z) (name : string) (description broker : jsval string) (now : string)
    (d : db) :
  faults d = [] ->
  NoDup (map SubAccount.id (sub_accounts (cur d))) ->
  (sub_accounts_broker (db_schema d) = false ->
   updateSubAccount id name description broker now d
   = (Rejected (NO_SUCH_COLUMN "broker"), d))
  /\ (sub_accounts_broker (db_schema d) = true ->
      match head (SELECT_sub_accounts_WHERE_id id (cur d)) with
      | None =>
          updateSubAccount id name description broker now d
          = (Resolved false, d)
      | Some a =>
          ((exists b, In b (sub_accounts (cur d)) /\ SubAccount.id b <> id
                      /\ SubAccount.user_id b = SubAccount.user_id a
                      /\ SubAccount.name b = name) ->
           updateSubAccount id name description broker now d
           = (Rejected (UNIQUE_failed "sub_accounts.user_id, sub_accounts.name"),
              d))
          /\ (~ (exists b, In b (sub_accounts (cur d)) /\ SubAccount.id b <> id
                           /\ SubAccount.user_id b = SubAccount.user_id a
                           /\ SubAccount.name b = name) ->
              exists d',
                updateSubAccount id name description broker now d
                = (Resolved true, d')
                /\ findSubAccountById id d'
                   = (Resolved
                        (Some (SubAccount.mk id (SubAccount.user_id a) name
                                 match description with
                                 | Val s => Some s
                                 | Undefined | Null => None
                                 end
                                 match broker with
                                 | Val s => Some s
                                 | Undefined | Null => None
                                 end
                                 (SubAccount.created_at a) now)), d')
                /\ (forall k, k <> id ->
                      findSubAccountById k d'
                      = (fst (findSubAccountById k d), d'))
                /\ users (cur d') = users (cur d)
                /\ user_settings (cur d') = user_settings (cur d)
                /\ trades (cur d') = trades (cur d))
      end).
Proof.
  intros Hf Hnd. rewrite updateSubAccount_working by exact Hf.
  unfold UPDATE_sub_accounts.
  split; [intros Hb; rewrite Hb; reflexivity|].
  intros Hb. rewrite Hb. cbn [negb].
  pose proof (count_by_key SubAccount.id id (sub_accounts (cur d)) Hnd) as Hcount.
  unfold SELECT_sub_accounts_WHERE_id.
  destruct (head (List.filter (fun a => SubAccount.id a =? id)
                              (sub_accounts (cur d)))) as [a|] eqn:Ea.
  - apply head_filter_key in Ea as Ha. destruct Ha as [Hin Hid].
    set (clashing := exists b, In b (sub_accounts (cur d))
                               /\ SubAccount.id b <> id
                               /\ SubAccount.user_id b = SubAccount.user_id a
                               /\ SubAccount.name b = name).
    assert (Hclash :
      existsb (fun a0 =>
                 (SubAccount.id a0 =? id)
                 && existsb (fun b => negb (SubAccount.id b =? id)
                                      && (SubAccount.user_id b
                                          =? SubAccount.user_id a0)
                                      && String.eqb (SubAccount.name b) name)
                            (sub_accounts (cur d)))
              (sub_accounts (cur d)) = true <-> clashing).
    { rewrite existsb_exists. split.
      - intros (x & Hx & H). apply andb_true_iff in H as [Hhit H].
        assert (x = a)
          by (apply (key_determines_row SubAccount.id (sub_accounts (cur d)));
              [assumption.. | lia]).
        subst x. apply existsb_exists in H as (b & Hb' & H).
        apply andb_true_iff in H as [H Hn]. apply andb_true_iff in H as [H1 H2].
        exists b. split; [exact Hb'|]. apply String.eqb_eq in Hn.
        apply negb_true_iff in H1. split; [lia|]. split; [lia | exact Hn].
      - intros (b & Hb' & H1 & H2 & H3). exists a. split; [exact Hin|].
        apply andb_true_iff. split; [lia|]. apply existsb_exists.
        exists b. split; [exact Hb'|]. rewrite !andb_true_iff, negb_true_iff.
        split; [split; lia | apply String.eqb_eq, H3]. }
    destruct (existsb _ (sub_accounts (cur d))).
    + split; [reflexivity|]. intros Hn. exfalso. apply Hn, Hclash. reflexivity.
    + split; [intros H; apply Hclash in H; discriminate|]. intros _.
      eexists. cbn [fst snd resolve_changes]. rewrite Hcount.
      split; [reflexivity|].
      rewrite !findSubAccountById_working by exact Hf.
      unfold SELECT_sub_accounts_WHERE_id. cbn.
      split.
      { rewrite (filter_key_map SubAccount.id)
          by (intros x; destruct (SubAccount.id x =? id); reflexivity).
        rewrite head_map, Ea. cbn. rewrite Hid, Z.eqb_refl. reflexivity. }
      split; [|repeat split].
      intros k Hk. rewrite !findSubAccountById_working by exact Hf.
      unfold SELECT_sub_accounts_WHERE_id. cbn.
      rewrite (filter_key_map SubAccount.id)
        by (intros x; destruct (SubAccount.id x =? id); reflexivity).
      rewrite map_unchanged; [reflexivity|].
      intros x Hx. apply filter_In in Hx as [_ Hx].
      destruct (Z.eqb_spec (SubAccount.id x) id); [lia | reflexivity].
  - assert (Hnil : List.filter (fun a => SubAccount.id a =? id)
                               (sub_accounts (cur d)) = [])
      by (apply length_zero_iff_nil; exact Hcount).
    assert (Hmiss : forall x, In x (sub_accounts (cur d)) ->
                              (SubAccount.id x =? id) = false).
    { intros x Hx. destruct (SubAccount.id x =? id) eqn:E; [|reflexivity].
      assert (In x (List.filter (fun a => SubAccount.id a =? id)
                                (sub_accounts (cur d))))
        by (apply filter_In; auto).
      rewrite Hnil in H. contradiction. }
    rewrite (proj2 (existsb_false_iff _ _)).
    2:{ intros x Hx. rewrite (Hmiss x Hx). reflexivity. }
    cbn [fst snd resolve_changes]. rewrite Hnil. cbn.
    rewrite map_unchanged.
    2:{ intros x Hx. rewrite (Hmiss x Hx). reflexivity. }
    rewrite store_same. reflexivity.
Qed.

Lemma deleteSubAccount_working id d :
  faults d = [] ->
  deleteSubAccount id d
  = (resolve_changes (fst (DELETE_FROM_sub_accounts_WHERE_id id d)),
     snd (DELETE_FROM_sub_accounts_WHERE_id id d)).
Proof.
  intros Hf. unfold deleteSubAccount. rewrite db_run_working by exact Hf.
  reflexivity.
Qed.

(** X12: [deleteSubAccount] resolves with [false], the store untouched, when
    no sub-account has the id.  When one has, it resolves with [true], the
    sub-account is gone, and no trade is deleted: the trades that referred to
    it are kept with [sub_account_id] NULL and all their other fields, the
    other trades are kept as they were; afterwards
    [findTradesBySubAccountId] of the id resolves with the empty list. *)
Theorem deleteSubAccount_keeps_the_trades (id : Z) (d : db) :
  faults d = [] ->
  NoDup (map SubAccount.id (sub_accounts (cur d))) ->
  match head (SELECT_sub_accounts_WHERE_id id (cur d)) with
  | None => deleteSubAccount id d = (Resolved false, d)
  | Some _ =>
      exists d',
        deleteSubAccount id d = (Resolved true, d')
        /\ findSubAccountById id d' = (Resolved None, d')
        /\ (forall k, k <> id ->
              findSubAccountById k d' = (fst (findSubAccountById k d), d'))
        /\ users (cur d') = users (cur d)
        /\ user_settings (cur d') = user_settings (cur d)
        /\ Forall2
             (fun r r' =>
                match Trade.sub_account_id r with
                | Some s =>
                    if s =? id
                    then r' = Trade.mk (Trade.id r) (Trade.user_id r) None
                                (Trade.ticker r) (Trade.quantity r)
                                (Trade.entry_price r) (Trade.exit_price r)
                                (Trade.dir r) (Trade.st r) (Trade.entry_date r)
                                (Trade.exit_date r) (Trade.notes r)
                                (Trade.commission r) (Trade.created_at r)
                                (Trade.updated_at r)
                    else r' = r
                | None => r' = r
                end)
             (trades (cur d)) (trades (cur d'))
        /\ findTradesBySubAccountId id None None d' = (Resolved [], d')
  end.
Proof.
  intros Hf Hnd. rewrite deleteSubAccount_working by exact Hf.
  unfold DELETE_FROM_sub_accounts_WHERE_id.
  pose proof (count_by_key SubAccount.id id (sub_accounts (cur d)) Hnd) as Hcount.
  unfold SELECT_sub_accounts_WHERE_id.
  destruct (head (List.filter (fun a => SubAccount.id a =? id)
                              (sub_accounts (cur d)))) as [a|] eqn:Ea;
    cbn [fst snd resolve_changes]; rewrite Hcount.
  - eexists. split; [reflexivity|].
    rewrite !findSubAccountById_working by exact Hf.
    unfold SELECT_sub_accounts_WHERE_id. cbn.
    rewrite (filter_filter_key SubAccount.id), Z.eqb_refl.
    split; [reflexivity|]. split.
    { intros k Hk. rewrite !findSubAccountById_working by exact Hf.
      unfold SELECT_sub_accounts_WHERE_id. cbn.
      rewrite (filter_filter_key SubAccount.id).
      destruct (Z.eqb_spec k id); [contradiction | reflexivity]. }
    split; [reflexivity|]. split; [reflexivity|]. split.
    { induction (trades (cur d)) as [|r l IH]; simpl; constructor; [|exact IH].
      destruct (Trade.sub_account_id r) as [s|]; [|reflexivity].
      destruct (s =? id); reflexivity. }
    unfold findTradesBySubAccountId. rewrite db_get_working by exact Hf.
    unfold SELECT_user_id_FROM_sub_accounts_WHERE_id. cbn.
    rewrite (filter_filter_key SubAccount.id), Z.eqb_refl. reflexivity.
  - assert (Hnil : List.filter (fun a => SubAccount.id a =? id)
                               (sub_accounts (cur d)) = [])
      by (apply length_zero_iff_nil; exact Hcount).
    cbn. rewrite (proj2 (filter_all (fun a => SubAccount.id a =? id) _) Hnil).
    rewrite map_unchanged.
    2:{ intros r _. destruct (Trade.sub_account_id r) as [s|]; [|reflexivity].
        rewrite andb_false_r. reflexivity. }
    rewrite store_same. reflexivity.
Qed.

(** ** What every sequence of operations keeps *)

Section Kept.
Variable P : db -> Prop.
Hypothesis P_INSERT_users :
  forall u e h c m d, P d -> P (snd (INSERT_users u e h c m d)).
Hypothesis P_INSERT_user_settings :
  forall uid c t0 cr up d, P d -> P (snd (INSERT_user_settings uid c t0 cr up d)).
Hypothesis P_INSERT_sub_accounts :
  forall uid n ds cr up d, P d -> P (snd (INSERT_sub_accounts uid n ds cr up d)).
Hypothesis P_UPDATE_sub_accounts :
  forall n ds b up i d, P d -> P (snd (UPDATE_sub_accounts n ds b up i d)).
Hypothesis P_DELETE_FROM_sub_accounts :
  forall i d, P d -> P (snd (DELETE_FROM_sub_accounts_WHERE_id i d)).
Hypothesis P_INSERT_trades :
  forall uid sid tk q ep dr ed xd xp n c st cr up d,
    P d -> P (snd (INSERT_trades uid sid tk q ep dr ed xd xp n c st cr up d)).
Hypothesis P_UPDATE_trades :
  forall SET WHERE d,
    (forall r, Trade.id (SET r) = Trade.id r
               /\ Trade.user_id (SET r) = Trade.user_id r
               /\ Trade.sub_account_id (SET r) = Trade.sub_account_id r) ->
    P d -> P (snd (UPDATE_trades SET WHERE d)).
Hypothesis P_DELETE_FROM_trades :
  forall i d, P d -> P (snd (DELETE_FROM_trades_WHERE_id i d)).

Lemma SET_fields_owner fs r :
  Trade.id (SET_fields fs r) = Trade.id r
  /\ Trade.user_id (SET_fields fs r) = Trade.user_id r
  /\ Trade.sub_account_id (SET_fields fs r) = Trade.sub_account_id r.
Proof.
  unfold SET_fields. revert r.
  induction fs as [|a fs IH]; intros r; simpl; [auto|].
  destruct (IH (assign r a)) as (-> & -> & ->). destruct a; auto.
Qed.

Lemma kept_by_step d o now : healthy d -> P d -> P (step d (o, now)).
Proof.
  intros Hd HP. pose proof (healthy_faults d Hd) as Hf.
  destruct o; cbn [step].
  - unfold createUser. rewrite snd_resolved, db_run_working by exact Hf. auto.
  - destruct (createUserWithSettings_store username email passwordHash
                defaultSettings now d Hd) as [-> | (uid & c & t0 & ->)]; auto.
  - unfold createSubAccount. rewrite snd_resolved, db_run_working by exact Hf.
    auto.
  - unfold updateSubAccount. rewrite snd_resolved, db_run_working by exact Hf.
    auto.
  - unfold deleteSubAccount. rewrite snd_resolved, db_run_working by exact Hf.
    auto.
  - unfold createTrade. rewrite snd_resolved, db_run_working by exact Hf. auto.
  - unfold closeTrade. rewrite snd_resolved, db_run_working by exact Hf.
    apply P_UPDATE_trades; [intros r; repeat split | exact HP].
  - unfold updateTradeDetails. destruct (_ && _); [exact HP|].
    rewrite snd_resolved, db_run_working by exact Hf.
    apply P_UPDATE_trades; [apply SET_fields_owner | exact HP].
  - unfold deleteTrade. rewrite snd_resolved, db_run_working by exact Hf. auto.
Qed.

Lemma kept_by_run ops d : healthy d -> P d -> P (run ops d).
Proof.
  unfold run. revert d.
  induction ops as [|[o now] ops IH]; intros d Hd HP; cbn [fold_left];
    [exact HP|].
  apply IH; [apply healthy_step, Hd | apply kept_by_step; assumption].
Qed.
End Kept.

Ltac split_stmt :=
  repeat match goal with
         | |- context [if ?b then _ else _] => destruct b eqn:?
         end; cbn [snd cur set_cur users user_settings sub_accounts trades
                   db_schema].

(** *** Foreign keys *)

Lemma In_ids_snoc {A} (key : A -> Z) l row k :
  In k (map key l) -> In k (map key (l ++ [row])).
Proof. rewrite map_app, in_app_iff. auto. Qed.

Lemma references_INSERT_users u e h c m d :
  references_ok d -> references_ok (snd (INSERT_users u e h c m d)).
Proof.
  intros [H1 H2 H3 H4]. unfold INSERT_users. split_stmt;
    try (constructor; assumption).
  constructor; cbn; try assumption.
  - eapply Forall_impl; [exact H1|]. cbn. intros x Hx. apply In_ids_snoc, Hx.
  - eapply Forall_impl; [exact H2|]. cbn. intros x Hx. apply In_ids_snoc, Hx.
  - eapply Forall_impl; [exact H3|]. cbn. intros x Hx. apply In_ids_snoc, Hx.
Qed.

Lemma references_INSERT_user_settings uid c t0 cr up d :
  references_ok d -> references_ok (snd (INSERT_user_settings uid c t0 cr up d)).
Proof.
  intros [H1 H2 H3 H4]. unfold INSERT_user_settings. split_stmt;
    try (constructor; assumption).
  constructor; cbn; try assumption.
  apply Forall_app. split; [exact H1|]. constructor; [|constructor]. cbn.
  apply existsb_id_In. apply negb_false_iff. assumption.
Qed.

Lemma references_INSERT_sub_accounts uid n ds cr up d :
  references_ok d -> references_ok (snd (INSERT_sub_accounts uid n ds cr up d)).
Proof.
  intros [H1 H2 H3 H4]. unfold INSERT_sub_accounts. split_stmt;
    try (constructor; assumption).
  constructor; cbn; try assumption.
  - apply Forall_app. split; [exact H2|]. constructor; [|constructor]. cbn.
    apply existsb_id_In. apply negb_false_iff. assumption.
  - eapply Forall_impl; [exact H4|]. cbn. intros r Hr.
    destruct (Trade.sub_account_id r); [apply In_ids_snoc, Hr | exact I].
Qed.

Lemma references_UPDATE_sub_accounts n ds b up i d :
  references_ok d -> references_ok (snd (UPDATE_sub_accounts n ds b up i d)).
Proof.
  intros [H1 H2 H3 H4]. unfold UPDATE_sub_accounts. split_stmt;
    try (constructor; assumption).
  constructor; cbn; try assumption.
  - apply Forall_forall. intros x Hx. apply list_elem_of_In in Hx.
    apply in_map_iff in Hx as (a & <- & Ha).
    rewrite Forall_forall in H2. specialize (H2 a (proj2 (list_elem_of_In _ _) Ha)).
    destruct (SubAccount.id a =? i); exact H2.
  - rewrite map_map.
    rewrite (map_ext _ SubAccount.id); [exact H4|].
    intros a. destruct (SubAccount.id a =? i); reflexivity.
Qed.

Lemma references_DELETE_FROM_sub_accounts i d :
  references_ok d -> references_ok (snd (DELETE_FROM_sub_accounts_WHERE_id i d)).
Proof.
  intros [H1 H2 H3 H4]. unfold DELETE_FROM_sub_accounts_WHERE_id.
  constructor; cbn; try assumption.
  - rewrite Forall_forall in H2 |- *. intros a Ha.
    apply H2. apply list_elem_of_In. apply list_elem_of_In in Ha.
    apply filter_In in Ha. tauto.
  - rewrite Forall_forall in H3 |- *. intros x Hx. apply list_elem_of_In in Hx.
    apply in_map_iff in Hx as (r & <- & Hr).
    specialize (H3 r (proj2 (list_elem_of_In _ _) Hr)).
    destruct (Trade.sub_account_id r); [|exact H3].
    destruct (_ && _); exact H3.
  - rewrite Forall_forall in H4 |- *. intros x Hx. apply list_elem_of_In in Hx.
    apply in_map_iff in Hx as (r & <- & Hr).
    specialize (H4 r (proj2 (list_elem_of_In _ _) Hr)).
    destruct (Trade.sub_account_id r) as [s|] eqn:Es; [|rewrite Es; exact I].
    apply in_map_iff in H4 as (a & Ha & Hin).
    destruct (Z.eqb_spec s i) as [Heq|Hne]; cbn.
    + destruct (List.filter (fun a0 => SubAccount.id a0 =? i)
                            (sub_accounts (cur d))) as [|g gs] eqn:Eg; cbn.
      * exfalso.
        assert (In a (List.filter (fun a0 => SubAccount.id a0 =? i)
                                  (sub_accounts (cur d))))
          by (apply filter_In; split; [exact Hin | lia]).
        rewrite Eg in H. contradiction.
      * exact I.
    + rewrite Es. apply in_map_iff. exists a. split; [exact Ha|].
      apply filter_In. split; [exact Hin|].
      apply negb_true_iff. lia.
Qed.

Lemma references_INSERT_trades uid sid tk q ep dr ed xd xp n c st cr up d :
  references_ok d ->
  references_ok (snd (INSERT_trades uid sid tk q ep dr ed xd xp n c st cr up d)).
Proof.
  intros H.
  destruct (INSERT_trades uid sid tk q ep dr ed xd xp n c st cr up d)
    as [[e|i ch] d'] eqn:Ei.
  - apply INSERT_trades_err in Ei as [-> _]. exact H.
  - apply INSERT_trades_ok in Ei
      as (u & t0 & q0 & e0 & dr0 & ed0 & dir0 & st0 & _ & _ & _ & _ & _ & _ & _
          & _ & _ & Hu & Hs & _ & ->).
    destruct H as [H1 H2 H3 H4]. constructor; cbn; try assumption.
    + apply Forall_app. split; [exact H3|]. constructor; [exact Hu | constructor].
    + apply Forall_app. split; [exact H4|]. constructor; [exact Hs | constructor].
Qed.

Lemma references_UPDATE_trades SET WHERE d :
  (forall r, Trade.id (SET r) = Trade.id r
             /\ Trade.user_id (SET r) = Trade.user_id r
             /\ Trade.sub_account_id (SET r) = Trade.sub_account_id r) ->
  references_ok d -> references_ok (snd (UPDATE_trades SET WHERE d)).
Proof.
  intros HS [H1 H2 H3 H4]. unfold UPDATE_trades.
  constructor; cbn; try assumption.
  - rewrite Forall_forall in H3 |- *. intros x Hx. apply list_elem_of_In in Hx.
    apply in_map_iff in Hx as (r & <- & Hr).
    specialize (H3 r (proj2 (list_elem_of_In _ _) Hr)).
    destruct (WHERE r); [|exact H3].
    destruct (HS r) as (_ & -> & _). exact H3.
  - rewrite Forall_forall in H4 |- *. intros x Hx. apply list_elem_of_In in Hx.
    apply in_map_iff in Hx as (r & <- & Hr).
    specialize (H4 r (proj2 (list_elem_of_In _ _) Hr)).
    destruct (WHERE r); [|exact H4].
    destruct (HS r) as (_ & _ & ->). exact H4.
Qed.

Lemma references_DELETE_FROM_trades i d :
  references_ok d -> references_ok (snd (DELETE_FROM_trades_WHERE_id i d)).
Proof.
  intros [H1 H2 H3 H4]. unfold DELETE_FROM_trades_WHERE_id.
  constructor; cbn; try assumption.
  - rewrite Forall_forall in H3 |- *. intros r Hr. apply H3.
    apply list_elem_of_In. apply list_elem_of_In in Hr.
    apply filter_In in Hr. tauto.
  - rewrite Forall_forall in H4 |- *. intros r Hr. apply H4.
    apply list_elem_of_In. apply list_elem_of_In in Hr.
    apply filter_In in Hr. tauto.
Qed.

(** X13: the foreign keys hold after every sequence of repository operations
    on a working store: each settings row, sub-account and trade belongs to a
    stored user, and each trade with a sub-account refers to a stored one; in
    particular [deleteSubAccount] leaves no trade pointing at the deleted
    row. *)
Theorem references_hold_after_any_operations
    (d : db) (ops : list (op * string)) :
  healthy d -> references_ok d -> references_ok (run ops d).
Proof.
  apply kept_by_run.
  - apply references_INSERT_users.
  - apply references_INSERT_user_settings.
  - apply references_INSERT_sub_accounts.
  - apply references_UPDATE_sub_accounts.
  - apply references_DELETE_FROM_sub_accounts.
  - apply references_INSERT_trades.
  - apply references_UPDATE_trades.
  - apply references_DELETE_FROM_trades.
Qed.

(** *** Unique usernames and emails, primary keys *)

(** The statements that do not write to [users]. *)
Lemma users_untouched d :
  (forall uid c t0 cr up,
      users (cur (snd (INSERT_user_settings uid c t0 cr up d))) = users (cur d)
      /\ db_schema (snd (INSERT_user_settings uid c t0 cr up d)) = db_schema d)
  /\ (forall uid n ds cr up,
         users (cur (snd (INSERT_sub_accounts uid n ds cr up d))) = users (cur d)
         /\ db_schema (snd (INSERT_sub_accounts uid n ds cr up d)) = db_schema d)
  /\ (forall n ds b up i,
         users (cur (snd (UPDATE_sub_accounts n ds b up i d))) = users (cur d)
         /\ db_schema (snd (UPDATE_sub_accounts n ds b up i d)) = db_schema d)
  /\ (forall uid sid tk q ep dr ed xd xp n c st cr up,
         users (cur (snd (INSERT_trades uid sid tk q ep dr ed xd xp n c st
                                        cr up d))) = users (cur d)
         /\ db_schema (snd (INSERT_trades uid sid tk q ep dr ed xd xp n c st
                                          cr up d)) = db_schema d).
Proof.
  split; [|split; [|split]]; intros.
  - unfold INSERT_user_settings. split_stmt; split; reflexivity.
  - unfold INSERT_sub_accounts. split_stmt; split; reflexivity.
  - unfold UPDATE_sub_accounts. split_stmt; split; reflexivity.
  - destruct (INSERT_trades uid sid tk q ep dr ed xd xp n c st cr up d)
      as [[e|i ch] d'] eqn:Ei.
    + apply INSERT_trades_err in Ei as [-> _]. split; reflexivity.
    + apply INSERT_trades_ok in Ei
        as (u & t0 & q0 & e0 & dr0 & ed0 & dir0 & st0 & _ & _ & _ & _ & _ & _
            & _ & _ & _ & _ & _ & _ & ->).
      split; reflexivity.
Qed.

Lemma NoDup_snoc_text (names : list string) (x : string) :
  NoDup names -> ~ In x names -> NoDup (names ++ [x]).
Proof.
  intros Hnd Hx. apply NoDup_app. split; [exact Hnd|]. split.
  - intros y Hy Hy'. apply list_elem_of_singleton in Hy'. subst y.
    apply Hx, list_elem_of_In, Hy.
  - apply NoDup_singleton.
Qed.

Lemma existsb_text_In {A} (key : A -> string) k l :
  existsb (fun a => String.eqb (key a) k) l = true <-> In k (map key l).
Proof.
  rewrite existsb_exists, in_map_iff. split.
  - intros (x & Hx & Hk). exists x. split; [apply String.eqb_eq, Hk | exact Hx].
  - intros (x & Hk & Hx). exists x. split; [exact Hx | apply String.eqb_eq, Hk].
Qed.

(** X14: on a store whose [users] table declares username and email UNIQUE
    (the schema of [database_test_env.js]), no sequence of repository
    operations on a working store ever leaves two users with the same
    username or the same email. *)
Theorem users_stay_unique (d : db) (ops : list (op * string)) :
  healthy d ->
  users_username_unique (db_schema d) = true ->
  users_email_unique (db_schema d) = true ->
  users_unique d ->
  users_unique (run ops d) /\ db_schema (run ops d) = db_schema d.
Proof.
  intros Hd Hu He Huniq.
  assert (Hsame : forall x y : db,
             users (cur y) = users (cur x) /\ db_schema y = db_schema x ->
             db_schema x = db_schema d /\ users_unique x ->
             db_schema y = db_schema d /\ users_unique y).
  { intros x y [Hus Hsc] [H1 H2]. split; [congruence|].
    unfold users_unique in *. rewrite Hus. exact H2. }
  assert (HP : db_schema (run ops d) = db_schema d /\ users_unique (run ops d)).
  { apply (kept_by_run (fun x => db_schema x = db_schema d /\ users_unique x));
      try exact Hd; try (split; [reflexivity | exact Huniq]).
    - intros u e h c m x [Hsc [Hun Hem]]. unfold INSERT_users.
      rewrite Hsc, Hu, He. cbn [andb].
      destruct (existsb _ (users (cur x))) eqn:E2;
        [cbn; split; [exact Hsc | split; assumption]|].
      destruct (existsb (fun u0 => String.eqb (User.username u0) u)
                        (users (cur x)))
        eqn:E1; [cbn; split; [exact Hsc | split; assumption]|].
      split; [exact Hsc|]. unfold users_unique. cbn. rewrite !map_app. cbn.
      split; apply NoDup_snoc_text; try assumption.
      + rewrite <- existsb_text_In. congruence.
      + rewrite <- existsb_text_In. congruence.
    - intros. eapply Hsame; [apply users_untouched | assumption].
    - intros. eapply Hsame; [apply users_untouched | assumption].
    - intros. eapply Hsame; [apply users_untouched | assumption].
    - intros. eapply Hsame; [|eassumption]. split; reflexivity.
    - intros. eapply Hsame; [apply users_untouched | assumption].
    - intros. eapply Hsame; [|eassumption]. split; reflexivity.
    - intros. eapply Hsame; [|eassumption]. split; reflexivity. }
  destruct HP as [H1 H2]. split; assumption.
Qed.

(** X15: after every sequence of repository operations on a working store no
    user has two settings rows, and the ids of the sub-accounts are pairwise
    distinct and at most the counter of their table. *)
Theorem settings_and_sub_account_keys_stay_distinct
    (d : db) (ops : list (op * string)) :
  healthy d ->
  one_settings_row_per_user d ->
  sub_account_keys_ok d ->
  one_settings_row_per_user (run ops d) /\ sub_account_keys_ok (run ops d).
Proof.
  intros Hd Hs Hk.
  apply (kept_by_run
           (fun x => one_settings_row_per_user x /\ sub_account_keys_ok x));
    try exact Hd; try (split; assumption);
    unfold one_settings_row_per_user, sub_account_keys_ok.
  - intros u e h c m x H. unfold INSERT_users. split_stmt; exact H.
  - intros uid c t0 cr up x [H1 H2]. unfold INSERT_user_settings.
    split_stmt; try (split; assumption).
    split; [|exact H2]. cbn. rewrite map_app. cbn.
    apply NoDup_app. split; [exact H1|]. split; [|apply NoDup_singleton].
    intros y Hy Hy'. apply list_elem_of_singleton in Hy'. subst y.
    apply list_elem_of_In, existsb_id_In in Hy. congruence.
  - intros uid n ds cr up x [H1 H2]. unfold INSERT_sub_accounts.
    split_stmt; try (split; assumption).
    split; [exact H1|]. cbn. apply keys_ok_snoc; [reflexivity | exact H2].
  - intros n ds b up i x [H1 H2]. unfold UPDATE_sub_accounts.
    split_stmt; try (split; assumption).
    split; [exact H1|]. cbn. apply keys_ok_map; [|exact H2].
    intros a. destruct (SubAccount.id a =? i); reflexivity.
  - intros i x [H1 H2]. unfold DELETE_FROM_sub_accounts_WHERE_id. cbn.
    split; [exact H1|]. apply keys_ok_filter, H2.
  - intros uid sid tk q ep dr ed xd xp n c st cr up x H.
    destruct (INSERT_trades uid sid tk q ep dr ed xd xp n c st cr up x)
      as [[e|i ch] d'] eqn:Ei.
    + apply INSERT_trades_err in Ei as [-> _]. exact H.
    + apply INSERT_trades_ok in Ei
        as (u & t0 & q0 & e0 & dr0 & ed0 & dir0 & st0 & _ & _ & _ & _ & _ & _
            & _ & _ & _ & _ & _ & _ & ->).
      exact H.
  - intros SET WHERE x _ H. exact H.
  - intros i x H. exact H.
Qed.

(** ** user_repository.js: writing and finding users *)

Lemma findUserById_working k d :
  faults d = [] ->
  findUserById k d = (Resolved (head (SELECT_users_WHERE_id k (cur d))), d).
Proof.
  intros Hf. unfold findUserById. rewrite db_get_working by exact Hf.
  reflexivity.
Qed.

Lemma findUserByEmail_working e d :
  faults d = [] ->
  findUserByEmail e d
  = (Resolved (head (SELECT_users_WHERE_email e (cur d))), d).
Proof.
  intros Hf. unfold findUserByEmail. rewrite db_get_working by exact Hf.
  reflexivity.
Qed.

Lemma no_such_email {A} (key : A -> string) k l :
  existsb (fun a => String.eqb (key a) k) l = false ->
  List.filter (fun a => String.eqb (key a) k) l = [].
Proof.
  induction l as [|a l IH]; simpl; [reflexivity|].
  destruct (String.eqb (key a) k); simpl; [discriminate | exact IH].
Qed.

(** The two finders on a store to which a user row was just appended under a
    fresh id and an email that no stored user has. *)
Lemma finders_after_append d d' row :
  faults d = [] ->
  faults d' = [] ->
  keys_ok (map User.id (users (cur d))) (seq_users (cur d)) ->
  User.id row = seq_users (cur d) + 1 ->
  existsb (fun x => String.eqb (User.email x) (User.email row)) (users (cur d))
  = false ->
  users (cur d') = (users (cur d) ++ [row])%list ->
  findUserById (User.id row) d' = (Resolved (Some row), d')
  /\ findUserByEmail (User.email row) d' = (Resolved (Some row), d')
  /\ findUserById (User.id row) d = (Resolved None, d)
  /\ findUserByEmail (User.email row) d = (Resolved None, d)
  /\ (forall k, k <> User.id row ->
                findUserById k d' = (fst (findUserById k d), d')).
Proof.
  intros Hf Hf' [_ Hle] Hid Hem Hus.
  assert (Hfresh : List.filter (fun x => User.id x =? User.id row)
                               (users (cur d)) = [])
    by (apply (filter_fresh_key User.id _ (seq_users (cur d))); [exact Hle | lia]).
  rewrite !findUserById_working, !findUserByEmail_working by assumption.
  unfold SELECT_users_WHERE_id, SELECT_users_WHERE_email.
  rewrite Hus, !List.filter_app, Hfresh, (no_such_email _ _ _ Hem). cbn.
  rewrite Z.eqb_refl, String.eqb_refl. repeat (split; [reflexivity|]).
  intros k Hk. rewrite !findUserById_working by assumption.
  unfold SELECT_users_WHERE_id. rewrite Hus, List.filter_app. cbn.
  destruct (Z.eqb_spec (User.id row) k); [congruence|].
  rewrite app_nil_r. reflexivity.
Qed.

(** X16: on a store that declares emails UNIQUE, a user that [createUser]
    resolved with is found by [findUserById] under the resolved id and by
    [findUserByEmail] under its email, in both cases as the row with the given
    username, email and hash and the operation time in both timestamps;
    before the call both lookups resolved with [null], and every other id
    finds what it found before. *)
Theorem createUser_then_find
    (u e h now : string) (d : db) (id : Z) (d' : db) :
  healthy d ->
  users_email_unique (db_schema d) = true ->
  createUser u e h now d = (Resolved id, d') ->
  findUserById id d' = (Resolved (Some (User.mk id u e h now now)), d')
  /\ findUserByEmail e d' = (Resolved (Some (User.mk id u e h now now)), d')
  /\ findUserById id d = (Resolved None, d)
  /\ findUserByEmail e d = (Resolved None, d)
  /\ (forall k, k <> id -> findUserById k d' = (fst (findUserById k d), d')).
Proof.
  intros Hd He. pose proof (healthy_faults d Hd) as Hf.
  unfold createUser. rewrite db_run_working by exact Hf.
  unfold INSERT_users. rewrite He. cbn [andb].
  destruct (existsb _ (users (cur d))) eqn:Eem; [discriminate|].
  destruct (_ && _); [discriminate|].
  cbn. intros H. injection H as <- <-.
  apply (finders_after_append d _
           (User.mk (seq_users (cur d) + 1) u e h now now));
    try assumption; try reflexivity.
  apply Hd.
Qed.

(** X17: on a store that declares emails UNIQUE, or that holds no user with
    the email, after [createUserWithSettings] resolved with an id,
    [findUserById] of that id and [findUserByEmail] of the email both resolve
    with the new user row (both resolved with [null] before), and the
    [user_settings] table, which had no row for that id, holds exactly one:
    the row written by the call, with the caller's currency and theme where
    they are non-empty strings and ['USD'], ['light'] otherwise. *)
Theorem createUserWithSettings_then_find
    (u e h : string) (s : DefaultSettings.t) (now : string) (d : db)
    (id : Z) (d' : db) :
  healthy d ->
  users_email_unique (db_schema d) = true
  \/ ~ In e (map User.email (users (cur d))) ->
  createUserWithSettings u e h s now d = (Resolved id, d') ->
  findUserById id d' = (Resolved (Some (User.mk id u e h now now)), d')
  /\ findUserByEmail e d' = (Resolved (Some (User.mk id u e h now now)), d')
  /\ List.filter (fun r => Settings.user_id r =? id) (user_settings (cur d'))
     = [Settings.mk id
          match DefaultSettings.default_currency s with
          | Val c => if String.eqb c "" then "USD" else c
          | Undefined | Null => "USD"
          end
          match DefaultSettings.theme s with
          | Val t => if String.eqb t "" then "light" else t
          | Undefined | Null => "light"
          end
          now now]
  /\ List.filter (fun r => Settings.user_id r =? id) (user_settings (cur d)) = []
  /\ findUserById id d = (Resolved None, d)
  /\ findUserByEmail e d = (Resolved None, d).
Proof.
  intros Hd He Hc. pose proof (healthy_faults d Hd) as Hf.
  pose proof Hc as Hr.
  apply createUserWithSettings_resolved in Hr
    as (_ & _ & Hid & Hus & Hst & Hnone).
  rewrite createUserWithSettings_working in Hc by (apply Hd || exact Hf).
  assert (Hem : existsb (fun x => String.eqb (User.email x) e) (users (cur d))
                = false).
  { destruct He as [He|He].
    - unfold INSERT_users in Hc. rewrite He in Hc. cbn [andb] in Hc.
      destruct (existsb _ (users (cur d))); [discriminate | reflexivity].
    - destruct (existsb _ (users (cur d))) eqn:E; [|reflexivity].
      exfalso. apply He. apply (existsb_text_In User.email). exact E. }
  assert (Hf' : faults d' = []).
  { destruct (INSERT_users u e h now now d) as [[err|uid ch] d1] eqn:E1;
      [discriminate|].
    destruct (INSERT_user_settings uid _ _ now now d1) as [[err|i ch'] d2]
      eqn:E2; [discriminate|].
    injection Hc as _ <-.
    unfold INSERT_users in E1.
    repeat match type of E1 with
           | context [if ?b then _ else _] => destruct b; [discriminate|]
           end.
    injection E1 as _ _ <-.
    unfold INSERT_user_settings in E2.
    repeat match type of E2 with
           | context [if ?b then _ else _] => destruct b; [discriminate|]
           end.
    injection E2 as _ _ <-. exact Hf. }
  assert (Hsel0 : List.filter (fun r => Settings.user_id r =? id)
                              (user_settings (cur d)) = []).
  { clear -Hnone. induction (user_settings (cur d)) as [|x l IH]; [reflexivity|].
    simpl in *. destruct (Settings.user_id x =? id); [discriminate|].
    apply IH, Hnone. }
  destruct (finders_after_append d d' (User.mk id u e h now now))
    as (H1 & H2 & H3 & H4 & _); try assumption; try apply Hd.
  repeat (split; [assumption|]).
  split; [|split; [exact Hsel0 | split; assumption]].
  rewrite Hst, List.filter_app, Hsel0. cbn. rewrite Z.eqb_refl. reflexivity.
Qed.

(** X18: if [createUserWithSettings] would resolve on a working store, then
    one failure inflicted by the environment on the user INSERT, on the
    settings INSERT or on the COMMIT (BEGIN having succeeded) makes it reject
    with that very error, and the ROLLBACK leaves the store exactly as it was
    before the call, with no transaction open. *)
Theorem createUserWithSettings_undoes_a_late_failure
    (u e h : string) (s : DefaultSettings.t) (now : string)
    (sc : schema) (t : tables) (id : Z) (d1 : db) (n : nat) (err : sqlerr) :
  createUserWithSettings u e h s now (mk_db sc t None []) = (Resolved id, d1) ->
  (1 <= n <= 3)%nat ->
  createUserWithSettings u e h s now
    (mk_db sc t None (replicate n None ++ [Some err]))
  = (Rejected err, mk_db sc t None []).
Proof.
  intros H Hn.
  unfold createUserWithSettings, db_run, next_fault, BEGIN_TRANSACTION in *.
  cbn in H. unfold INSERT_users in *. cbn in H.
  destruct (users_email_unique sc && _) eqn:E2; [discriminate|].
  destruct (users_username_unique sc && _) eqn:E1; [discriminate|].
  cbn in H. unfold INSERT_user_settings in *. cbn in H.
  destruct (existsb _ (user_settings t)) eqn:E3; [discriminate|].
  destruct (negb _) eqn:E4; [discriminate|].
  destruct n as [|[|[|[|n]]]]; try lia; cbn; rewrite ?E1, ?E2; cbn;
    rewrite ?E3; cbn; rewrite ?E4; reflexivity.
Qed.

(** ** updateTradeDetails twice *)

(** X21: two [updateTradeDetails] calls on a stored trade merge field by
    field: each of [notes] and [commission] ends as the second call gave it,
    or else as the first call gave it, or else as it was stored; the row's
    [updated_at] is the time of the last call that supplied a field, and its
    status is untouched. *)
Theorem updateTradeDetails_twice_merges
    (id : Z) (u1 u2 : Updates.t) (now1 now2 : string) (d : db) (r : Trade.t) :
  healthy d ->
  trade_row id d = Some r ->
  exists r',
    trade_row id (snd (updateTradeDetails id u2 now2
                         (snd (updateTradeDetails id u1 now1 d)))) = Some r'
    /\ Trade.notes r'
       = match Updates.notes u2, Updates.notes u1 with
         | Undefined, Undefined => Trade.notes r
         | Undefined, v => bind v
         | v, _ => bind v
         end
    /\ Trade.commission r'
       = match Updates.commission u2, Updates.commission u1 with
         | Undefined, Undefined => Trade.commission r
         | Undefined, v => bind v
         | v, _ => bind v
         end
    /\ Trade.updated_at r'
       = (if is_defined (Updates.notes u2) || is_defined (Updates.commission u2)
          then now2
          else if is_defined (Updates.notes u1)
                  || is_defined (Updates.commission u1)
               then now1
               else Trade.updated_at r)
    /\ Trade.st r' = Trade.st r.
Proof.
  intros Hd Er. pose proof (healthy_faults d Hd) as Hf.
  assert (Hone : forall u now x rx,
             faults x = [] -> trade_row id x = Some rx ->
             faults (snd (updateTradeDetails id u now x)) = []
             /\ trade_row id (snd (updateTradeDetails id u now x))
                = Some (if is_defined (Updates.notes u)
                           || is_defined (Updates.commission u)
                        then SET_fields (fieldsToUpdate u now) rx
                        else rx)).
  { intros u now x rx Hfx Hx.
    destruct (is_defined (Updates.notes u) || is_defined (Updates.commission u))
      eqn:Hsome.
    - rewrite updateTradeDetails_working by assumption. cbn [snd].
      split; [exact Hfx | apply updateTradeDetails_sql_row, Hx].
    - apply orb_false_iff in Hsome as [Hn Hc].
      rewrite updateTradeDetails_nothing;
        [split; assumption | |].
      + destruct (Updates.notes u); [reflexivity | discriminate..].
      + destruct (Updates.commission u); [reflexivity | discriminate..]. }
  destruct (Hone u1 now1 d r Hf Er) as [Hf1 Hr1].
  destruct (Hone u2 now2 _ _ Hf1 Hr1) as [_ Hr2].
  eexists. split; [exact Hr2|].
  unfold fieldsToUpdate.
  destruct (Updates.notes u1), (Updates.commission u1),
           (Updates.notes u2), (Updates.commission u2); cbn; repeat split.
Qed.

(** ** src/db/database_test_env.js: the connection *)

(** X19: once [connectToDatabase] has resolved with a handle, every further
    call resolves with that same handle without opening anything, whatever
    the environment would answer; a handle resolved from the unconnected
    state is on the file chosen by NODE_ENV and has foreign keys enforced.
    [closeDb] resolves and does nothing when there is no connection, resets
    the connection when closing succeeds, so that a second [closeDb] resolves
    as well, and keeps the connection when closing fails. *)
Theorem connection_is_shared_and_closes_once
    (NODE_ENV : string) (env env' : Connection.answers)
    (db : option Connection.handle) :
  (forall h db',
      Connection.connectToDatabase NODE_ENV env db = (Resolved h, db') ->
      db' = Some h
      /\ Connection.connectToDatabase NODE_ENV env' db' = (Resolved h, db')
      /\ (db = None ->
          Connection.foreign_keys h = true
          /\ Connection.file h = Connection.dbFileName NODE_ENV))
  /\ Connection.closeDb env None = (Resolved tt, None)
  /\ (forall db',
         Connection.closeDb env db = (Resolved tt, db') ->
         db' = None /\ Connection.closeDb env' db' = (Resolved tt, None))
  /\ (forall err db',
         Connection.closeDb env db = (Rejected err, db') ->
         db' = db /\ Connection.close_err env = Some err /\ db <> None).
Proof.
  split; [|split; [reflexivity|split]].
  - intros h db'. unfold Connection.connectToDatabase.
    destruct db as [h0|].
    + intros H. injection H as <- <-.
      split; [reflexivity|]. split; [reflexivity|]. discriminate.
    + destruct (Connection.open_err env); [discriminate|].
      destruct (Connection.pragma_err env); [discriminate|].
      cbn. intros H. injection H as <- <-. repeat split.
  - intros db'. unfold Connection.closeDb. destruct db as [h0|].
    + destruct (Connection.close_err env); [discriminate|].
      intros H. injection H as <-. split; reflexivity.
    + intros H. injection H as <-. split; reflexivity.
  - intros err db'. unfold Connection.closeDb. destruct db as [h0|].
    + destruct (Connection.close_err env) as [e0|]; [|discriminate].
      intros H. injection H as <- <-.
      split; [reflexivity|]. split; [reflexivity|]. discriminate.
    + discriminate.
Qed.

(** X20: a call of [connectToDatabase] that fails at opening the file rejects
    and leaves the module unconnected, so the next call opens again.  A call
    that fails at the PRAGMA rejects too, but the connection object stays in
    the module variable: the next call resolves with it at once, without
    running the PRAGMA, and that handle does not enforce foreign keys. *)
Theorem connectToDatabase_after_a_failure
    (NODE_ENV : string) (env env' : Connection.answers) (err : sqlerr) :
  (Connection.open_err env = Some err ->
   Connection.connectToDatabase NODE_ENV env None = (Rejected err, None))
  /\ (Connection.open_err env = None ->
      Connection.pragma_err env = Some err ->
      exists h,
        Connection.connectToDatabase NODE_ENV env None = (Rejected err, Some h)
        /\ Connection.connectToDatabase NODE_ENV env' (Some h)
           = (Resolved h, Some h)
        /\ Connection.foreign_keys h = false).
Proof.
  unfold Connection.connectToDatabase. split.
  - intros ->. reflexivity.
  - intros -> ->. eexists. repeat split.
Qed.

(** ** The further properties at the sample stores *)

Lemma journal_healthy : healthy Sample.journal.
Proof. apply healthy_run, sample_store_healthy. Qed.

Lemma accounts_healthy : healthy Demo.accounts.
Proof. apply healthy_run, healthy_initDB. Qed.

Lemma createTrade_then_findTradeById_witness :
  healthy Sample.store
  /\ createTrade Sample.tradeData Sample.t2 Sample.store
     = (Resolved 2, snd (createTrade Sample.tradeData Sample.t2 Sample.store))
  /\ exists r,
       findTradeById 2 (snd (createTrade Sample.tradeData Sample.t2 Sample.store))
       = (Resolved (Some r),
          snd (createTrade Sample.tradeData Sample.t2 Sample.store))
       /\ Trade.st r = open
       /\ Trade.created_at r = Sample.t2.
Proof.
  split; [exact sample_store_healthy|]. split; [reflexivity|].
  destruct (createTrade_then_findTradeById Sample.tradeData Sample.t2
              Sample.store 2 _ sample_store_healthy eq_refl)
    as (r & H1 & _ & _ & _ & _ & _ & _ & _ & _ & _ & _ & _ & _ & _ & _ & H2
        & H3 & _).
  exists r. split; [exact H1|]. split; [apply H2; reflexivity | exact H3].
Defined.

Lemma createTrade_rejects_what_breaks_a_constraint_witness :
  faults initDB_test_env = []
  /\ (exists u, bind (TradeData.userId (Sample.entered "TST" Sample.t0)) = Some u
                /\ ~ In u (map User.id (users (cur initDB_test_env))))
  /\ exists e,
       createTrade (Sample.entered "TST" Sample.t0) Sample.t2 initDB_test_env
       = (Rejected e, initDB_test_env).
Proof.
  assert (Hu : exists u,
             bind (TradeData.userId (Sample.entered "TST" Sample.t0)) = Some u
             /\ ~ In u (map User.id (users (cur initDB_test_env)))).
  { exists 1. split; [reflexivity|]. intros []. }
  split; [reflexivity|]. split; [exact Hu|].
  destruct (createTrade_rejects_what_breaks_a_constraint
              (Sample.entered "TST" Sample.t0) Sample.t2 initDB_test_env eq_refl)
    as [_ H].
  apply H. do 9 right. left. exact Hu.
Defined.

Lemma createTrade_never_reuses_an_id_witness :
  healthy Sample.store
  /\ createTrade Sample.tradeData Sample.t3
       (run [(op_deleteTrade 1, Sample.t2)] Sample.store)
     = (Resolved 2,
        snd (createTrade Sample.tradeData Sample.t3
               (run [(op_deleteTrade 1, Sample.t2)] Sample.store)))
  /\ seq_trades (cur Sample.store) < 2.
Proof.
  split; [exact sample_store_healthy|]. split; [reflexivity|].
  apply (createTrade_never_reuses_an_id Sample.store
           [(op_deleteTrade 1, Sample.t2)] Sample.tradeData Sample.t3 2 _
           sample_store_healthy eq_refl).
Defined.

Lemma deleteTrade_removes_one_trade_witness :
  healthy Sample.store
  /\ exists d',
       deleteTrade 1 Sample.store = (Resolved true, d')
       /\ findTradeById 1 d' = (Resolved None, d')
       /\ deleteTrade 1 d' = (Resolved false, d').
Proof.
  split; [exact sample_store_healthy|].
  pose proof (deleteTrade_removes_one_trade 1 Sample.store sample_store_healthy)
    as H.
  change (trade_row 1 Sample.store) with (Some
    (Trade.mk 1 1 (Some 1) "TST" (10 # 1) (100 # 1) None long open Sample.t0
              None (Some "Initial trade notes") (Some (199 # 100))
              Sample.t1 Sample.t1)) in H.
  destruct H as (d' & H1 & H2 & _ & H3).
  exists d'. repeat split; assumption.
Defined.

Lemma findOpenTradesByUserId_sorted_witness :
  faults Sample.journal = []
  /\ exists rows,
       findOpenTradesByUserId 1 Sample.journal = (Resolved rows, Sample.journal)
       /\ StronglySorted (precedes entry_date_ASC) rows.
Proof.
  split; [reflexivity|].
  destruct (findOpenTradesByUserId_sorted 1 Sample.journal eq_refl)
    as (rows & H1 & _ & _ & H2).
  exists rows. split; assumption.
Defined.

Lemma findClosedTradesByUserId_pages_witness :
  faults Sample.journal = [] /\ 0 <= 2 /\ 0 <= 0
  /\ 2 * 2 < 9223372036854775808 /\ 0 + 2 < 9223372036854775808
  /\ Sample.ids (findClosedTradesByUserId 1 (Some 2) (Some 0) Sample.journal)
     = [2; 4]
  /\ Sample.ids (findClosedTradesByUserId 1 (Some 2) (Some (0 + 2))
                                          Sample.journal)
     = [3]
  /\ exists page1 page2,
       findClosedTradesByUserId 1 (Some 2) (Some 0) Sample.journal
       = (Resolved page1, Sample.journal)
       /\ findClosedTradesByUserId 1 (Some 2) (Some (0 + 2)) Sample.journal
          = (Resolved page2, Sample.journal)
       /\ findClosedTradesByUserId 1 (Some (2 * 2)) (Some 0) Sample.journal
          = (Resolved (page1 ++ page2)%list, Sample.journal)
       /\ findClosedTradesByUserId 1 (Some (10 ^ 19)) (Some 0) Sample.journal
          = (Rejected DATATYPE_mismatch, Sample.journal).
Proof.
  split; [reflexivity|]. split; [lia|]. split; [lia|].
  split; [lia|]. split; [lia|]. split; [reflexivity|]. split; [reflexivity|].
  destruct (findClosedTradesByUserId_pages 1 2 0 Sample.journal eq_refl)
    as (sorted & page1 & page2 & _ & _ & _ & H1 & H2 & _ & _ & H3 & _ & H4);
    [lia | lia | lia | lia |].
  exists page1, page2. split; [exact H1|]. split; [exact H2|].
  split; [exact H3|]. apply H4. right. left. discriminate.
Defined.

Lemma closeTrade_moves_the_trade_between_lists_witness :
  healthy Sample.store
  /\ (exists r, trade_row (CloseData.id Sample.closeData) Sample.store = Some r
                /\ Trade.st r = open)
  /\ exists d' before after,
       closeTrade Sample.closeData Sample.t2 Sample.store = (Resolved true, d')
       /\ findOpenTradesByUserId 1 Sample.store = (Resolved before, Sample.store)
       /\ findOpenTradesByUserId 1 d' = (Resolved after, d')
       /\ forall x, In x after <-> In x before /\ Trade.id x <> 1.
Proof.
  split; [exact sample_store_healthy|].
  split; [eexists; split; reflexivity|].
  destruct (closeTrade_moves_the_trade_between_lists Sample.closeData Sample.t2
              Sample.store _ sample_store_healthy eq_refl eq_refl)
    as (d' & before & after & ca & r' & H1 & H2 & H3 & _ & _ & H4 & _).
  exists d', before, after.
  split; [exact H1|]. split; [exact H2|]. split; [exact H3 | exact H4].
Defined.

Lemma createSubAccount_cases_witness :
  faults Demo.accounts = []
  /\ (exists a, In a (sub_accounts (cur Demo.accounts))
                /\ SubAccount.user_id a = 1 /\ SubAccount.name a = "Account A")
  /\ createSubAccount 1 "Account A" Undefined Sample.t2 Demo.accounts
     = (Rejected (UNIQUE_failed "sub_accounts.user_id, sub_accounts.name"),
        Demo.accounts)
  /\ (exists d', createSubAccount 2 "Account A" Undefined Sample.t2 Demo.accounts
                 = (Resolved 4, d')).
Proof.
  assert (Htaken : exists a, In a (sub_accounts (cur Demo.accounts))
                             /\ SubAccount.user_id a = 1
                             /\ SubAccount.name a = "Account A").
  { eexists. split; [right; right; left; reflexivity|]. split; reflexivity. }
  split; [reflexivity|]. split; [exact Htaken|].
  split.
  - apply (createSubAccount_cases 1 "Account A" Undefined Sample.t2
             Demo.accounts eq_refl), Htaken.
  - destruct (createSubAccount_cases 2 "Account A" Undefined Sample.t2
                Demo.accounts eq_refl) as (_ & _ & H).
    destruct H as (d' & H & _).
    + intros (a & Hin & Hu & Hn). cbn in Hin.
      destruct Hin as [<-|[<-|[<-|[]]]]; discriminate.
    + right. left. reflexivity.
    + exists d'. exact H.
Defined.

Lemma accounts_keys_ok : sub_account_keys_ok Demo.accounts.
Proof.
  split; apply (bool_decide_unpack _); vm_compute; exact I.
Qed.

Lemma createSubAccount_then_findSubAccountById_witness :
  faults Demo.accounts = []
  /\ sub_account_keys_ok Demo.accounts
  /\ createSubAccount 2 "Account A" (Val "Desc") Sample.t2 Demo.accounts
     = (Resolved 4,
        snd (createSubAccount 2 "Account A" (Val "Desc") Sample.t2 Demo.accounts))
  /\ findSubAccountById 4
       (snd (createSubAccount 2 "Account A" (Val "Desc") Sample.t2 Demo.accounts))
     = (Resolved (Some (SubAccount.mk 4 2 "Account A" (Some "Desc") None
                                      Sample.t2 Sample.t2)),
        snd (createSubAccount 2 "Account A" (Val "Desc") Sample.t2 Demo.accounts)).
Proof.
  split; [reflexivity|]. split; [exact accounts_keys_ok|].
  split; [reflexivity|].
  apply (createSubAccount_then_findSubAccountById 2 "Account A" (Val "Desc")
           Sample.t2 Demo.accounts 4 _ eq_refl accounts_keys_ok eq_refl).
Defined.

Lemma findSubAccountsByUserId_sorted_witness :
  faults Demo.accounts = []
  /\ exists rows,
       findSubAccountsByUserId 1 Demo.accounts = (Resolved rows, Demo.accounts)
       /\ StronglySorted name_precedes rows.
Proof.
  split; [reflexivity|].
  destruct (findSubAccountsByUserId_sorted 1 Demo.accounts eq_refl)
    as (rows & H1 & _ & _ & H2 & _).
  exists rows. split; assumption.
Defined.

Lemma updateSubAccount_overwrites_witness :
  faults Demo.accounts = []
  /\ NoDup (map SubAccount.id (sub_accounts (cur Demo.accounts)))
  /\ sub_accounts_broker (db_schema Demo.accounts) = true
  /\ updateSubAccount 99999 "NonExistentUpdate" Undefined Undefined Sample.t2
                      Demo.accounts
     = (Resolved false, Demo.accounts)
  /\ updateSubAccount 1 "Account A" Undefined Undefined Sample.t2 Demo.accounts
     = (Rejected (UNIQUE_failed "sub_accounts.user_id, sub_accounts.name"),
        Demo.accounts)
  /\ exists d',
       updateSubAccount 1 "Renamed" Undefined (Val "Broker X") Sample.t2
                        Demo.accounts
       = (Resolved true, d')
       /\ findSubAccountById 1 d'
          = (Resolved (Some (SubAccount.mk 1 1 "Renamed" None (Some "Broker X")
                                           Sample.t1 Sample.t2)), d').
Proof.
  split; [reflexivity|]. split; [apply accounts_keys_ok|].
  split; [reflexivity|]. split; [|split].
  - apply (updateSubAccount_overwrites 99999 "NonExistentUpdate" Undefined
             Undefined Sample.t2 Demo.accounts eq_refl (proj1 accounts_keys_ok)).
    reflexivity.
  - destruct (updateSubAccount_overwrites 1 "Account A" Undefined Undefined
                Sample.t2 Demo.accounts eq_refl (proj1 accounts_keys_ok))
      as [_ H].
    specialize (H eq_refl).
    change (head (SELECT_sub_accounts_WHERE_id 1 (cur Demo.accounts)))
      with (Some (SubAccount.mk 1 1 "Account B" (Some "Desc B") None
                                Sample.t1 Sample.t1)) in H.
    destruct H as [H _]. apply H.
    eexists. split; [right; right; left; reflexivity|].
    split; [discriminate|]. split; reflexivity.
  - destruct (updateSubAccount_overwrites 1 "Renamed" Undefined (Val "Broker X")
                Sample.t2 Demo.accounts eq_refl (proj1 accounts_keys_ok))
      as [_ H].
    specialize (H eq_refl).
    change (head (SELECT_sub_accounts_WHERE_id 1 (cur Demo.accounts)))
      with (Some (SubAccount.mk 1 1 "Account B" (Some "Desc B") None
                                Sample.t1 Sample.t1)) in H.
    destruct H as [_ H].
    destruct H as (d' & Hup & Hfind & _).
    + intros (b & Hin & _ & _ & Hname).
      change (sub_accounts (cur Demo.accounts))
        with [SubAccount.mk 1 1 "Account B" (Some "Desc B") None
                            Sample.t1 Sample.t1;
              SubAccount.mk 2 2 "Other Account" (Some "Other Desc") None
                            Sample.t1 Sample.t1;
              SubAccount.mk 3 1 "Account A" (Some "Desc A") None
                            Sample.t1 Sample.t1] in Hin.
      destruct Hin as [<-|[<-|[<-|[]]]]; discriminate Hname.
    + exists d'. split; [exact Hup | exact Hfind].
Defined.

Lemma sample_store_sub_account_ids :
  NoDup (map SubAccount.id (sub_accounts (cur Sample.store))).
Proof. apply (bool_decide_unpack _); vm_compute; exact I. Qed.

Lemma deleteSubAccount_keeps_the_trades_witness :
  faults Sample.store = []
  /\ NoDup (map SubAccount.id (sub_accounts (cur Sample.store)))
  /\ exists d',
       deleteSubAccount 1 Sample.store = (Resolved true, d')
       /\ findSubAccountById 1 d' = (Resolved None, d')
       /\ findTradesBySubAccountId 1 None None d' = (Resolved [], d').
Proof.
  split; [reflexivity|]. split; [exact sample_store_sub_account_ids|].
  pose proof (deleteSubAccount_keeps_the_trades 1 Sample.store eq_refl
                sample_store_sub_account_ids) as H.
  change (head (SELECT_sub_accounts_WHERE_id 1 (cur Sample.store)))
    with (Some (SubAccount.mk 1 1 "Trade Test SubAcc" (Some "for trade tests")
                              None Sample.t0 Sample.t0)) in H.
  destruct H as (d' & H1 & H2 & _ & _ & _ & _ & H3).
  exists d'. repeat split; assumption.
Defined.

Lemma initDB_references_ok : references_ok initDB_test_env.
Proof. constructor; constructor. Qed.

Lemma references_hold_after_any_operations_witness :
  healthy initDB_test_env
  /\ references_ok initDB_test_env
  /\ references_ok Sample.store
  /\ references_ok (run [(op_deleteSubAccount 1, Sample.t2)] Sample.store).
Proof.
  split; [apply healthy_initDB|]. split; [exact initDB_references_ok|].
  assert (H : references_ok Sample.store).
  { unfold Sample.store.
    apply (references_hold_after_any_operations initDB_test_env _
             (proj1 healthy_initDB) initDB_references_ok). }
  split; [exact H|].
  apply (references_hold_after_any_operations Sample.store _
           sample_store_healthy H).
Defined.

Lemma initDB_users_unique : users_unique initDB_test_env.
Proof. split; constructor. Qed.

Lemma users_stay_unique_witness :
  healthy initDB_test_env
  /\ users_username_unique (db_schema initDB_test_env) = true
  /\ users_email_unique (db_schema initDB_test_env) = true
  /\ users_unique initDB_test_env
  /\ users_unique Demo.accounts.
Proof.
  split; [apply healthy_initDB|]. split; [reflexivity|]. split; [reflexivity|].
  split; [exact initDB_users_unique|].
  unfold Demo.accounts.
  apply (users_stay_unique initDB_test_env _ (proj1 healthy_initDB)
           eq_refl eq_refl initDB_users_unique).
Defined.

Lemma settings_and_sub_account_keys_stay_distinct_witness :
  healthy initDB_test_env
  /\ one_settings_row_per_user initDB_test_env
  /\ sub_account_keys_ok initDB_test_env
  /\ sub_account_keys_ok Demo.accounts.
Proof.
  assert (H1 : one_settings_row_per_user initDB_test_env) by constructor.
  assert (H2 : sub_account_keys_ok initDB_test_env) by (split; constructor).
  split; [apply healthy_initDB|]. split; [exact H1|]. split; [exact H2|].
  unfold Demo.accounts.
  apply (settings_and_sub_account_keys_stay_distinct initDB_test_env _
           (proj1 healthy_initDB) H1 H2).
Defined.

Lemma createUser_then_find_witness :
  healthy Sample.test
  /\ users_email_unique (db_schema Sample.test) = true
  /\ createUser "testuser2" "test2@example.com" "hashed_password123" Sample.t1
                Sample.test
     = (Resolved 2,
        snd (createUser "testuser2" "test2@example.com" "hashed_password123"
                        Sample.t1 Sample.test))
  /\ findUserByEmail "test2@example.com"
       (snd (createUser "testuser2" "test2@example.com" "hashed_password123"
                        Sample.t1 Sample.test))
     = (Resolved (Some (User.mk 2 "testuser2" "test2@example.com"
                                "hashed_password123" Sample.t1 Sample.t1)),
        snd (createUser "testuser2" "test2@example.com" "hashed_password123"
                        Sample.t1 Sample.test)).
Proof.
  assert (H : healthy Sample.test).
  { change Sample.test
      with (run [(op_createUser "existingUser" "fail_email@example.com"
                                "hashed_pass", Sample.t0)] initDB_test_env).
    apply healthy_run, healthy_initDB. }
  split; [exact H|]. split; [reflexivity|]. split; [reflexivity|].
  apply (createUser_then_find "testuser2" "test2@example.com"
           "hashed_password123" Sample.t1 Sample.test 2 _ H eq_refl eq_refl).
Defined.

Lemma createUserWithSettings_then_find_witness :
  healthy initDB_database
  /\ (users_email_unique (db_schema initDB_database) = true
      \/ ~ In "testuser@example.com"
              (map User.email (users (cur initDB_database))))
  /\ exists d',
       createUserWithSettings "testuser" "testuser@example.com"
         "testpasswordhash" (DefaultSettings.mk (Val "USD") (Val "dark"))
         Sample.t0 initDB_database
       = (Resolved 1, d')
       /\ findUserById 1 d'
          = (Resolved (Some (User.mk 1 "testuser" "testuser@example.com"
                                     "testpasswordhash" Sample.t0 Sample.t0)),
             d')
       /\ findUserByEmail "testuser@example.com" d'
          = (Resolved (Some (User.mk 1 "testuser" "testuser@example.com"
                                     "testpasswordhash" Sample.t0 Sample.t0)),
             d')
       /\ List.filter (fun r => Settings.user_id r =? 1) (user_settings (cur d'))
          = [Settings.mk 1 "USD" "dark" Sample.t0 Sample.t0].
Proof.
  assert (Hnew : users_email_unique (db_schema initDB_database) = true
                 \/ ~ In "testuser@example.com"
                         (map User.email (users (cur initDB_database))))
    by (right; intros []).
  split; [apply healthy_initDB|]. split; [exact Hnew|].
  eexists. split; [reflexivity|].
  destruct (createUserWithSettings_then_find "testuser" "testuser@example.com"
              "testpasswordhash" (DefaultSettings.mk (Val "USD") (Val "dark"))
              Sample.t0 initDB_database 1 _ (proj2 healthy_initDB) Hnew eq_refl)
    as (H1 & H2 & H3 & _).
  split; [exact H1|]. split; [exact H2 | exact H3].
Defined.

Lemma createUserWithSettings_undoes_a_late_failure_witness :
  createUserWithSettings "u" "e@x.com" "h" Sample.settings Sample.t0
                         initDB_test_env
  = (Resolved 1,
     snd (createUserWithSettings "u" "e@x.com" "h" Sample.settings Sample.t0
                                 initDB_test_env))
  /\ (1 <= 1 <= 3)%nat
  /\ createUserWithSettings "u" "e@x.com" "h" Sample.settings Sample.t0
                            Demo.second_statement_fails
     = (Rejected (STORE_fault "SQLITE_IOERR"), initDB_test_env).
Proof.
  split; [reflexivity|]. split; [lia|].
  apply (createUserWithSettings_undoes_a_late_failure "u" "e@x.com" "h"
           Sample.settings Sample.t0 (mk_schema true true true) empty_tables 1 _ 1%nat
           (STORE_fault "SQLITE_IOERR") eq_refl).
  lia.
Defined.

Lemma updateTradeDetails_twice_merges_witness :
  healthy Sample.store
  /\ exists r r',
       trade_row 1 Sample.store = Some r
       /\ trade_row 1
            (snd (updateTradeDetails 1 (Updates.mk Undefined (Val (5 # 1)))
                    Sample.t3
                    (snd (updateTradeDetails 1
                            (Updates.mk (Val "Updated notes") Undefined)
                            Sample.t2 Sample.store)))) = Some r'
       /\ Trade.notes r' = Some "Updated notes"
       /\ Trade.commission r' = Some (5 # 1)
       /\ Trade.updated_at r' = Sample.t3.
Proof.
  split; [exact sample_store_healthy|].
  eexists.
  destruct (updateTradeDetails_twice_merges 1
              (Updates.mk (Val "Updated notes") Undefined)
              (Updates.mk Undefined (Val (5 # 1))) Sample.t2 Sample.t3
              Sample.store _ sample_store_healthy eq_refl)
    as (r' & H1 & H2 & H3 & H4 & _).
  exists r'. split; [reflexivity|]. repeat split; assumption.
Defined.

Lemma connection_is_shared_and_closes_once_witness :
  Connection.connectToDatabase "test" Demo.fine None
  = (Resolved (Connection.mk_handle "trading_app_test.db" true),
     Some (Connection.mk_handle "trading_app_test.db" true))
  /\ Connection.connectToDatabase "test" Demo.pragma_fails
       (Some (Connection.mk_handle "trading_app_test.db" true))
     = (Resolved (Connection.mk_handle "trading_app_test.db" true),
        Some (Connection.mk_handle "trading_app_test.db" true))
  /\ Connection.closeDb Demo.fine
       (Some (Connection.mk_handle "trading_app_test.db" true))
     = (Resolved tt, None)
  /\ Connection.closeDb Demo.pragma_fails None = (Resolved tt, None).
Proof.
  split; [reflexivity|]. split.
  - destruct (connection_is_shared_and_closes_once "test" Demo.fine
                Demo.pragma_fails None) as [H _].
    apply (H _ _ eq_refl).
  - split; [reflexivity|].
    destruct (connection_is_shared_and_closes_once "test" Demo.fine
                Demo.pragma_fails
                (Some (Connection.mk_handle "trading_app_test.db" true)))
      as (_ & _ & H & _).
    apply (H None eq_refl).
Defined.

Lemma connectToDatabase_after_a_failure_witness :
  Connection.open_err Demo.pragma_fails = None
  /\ Connection.pragma_err Demo.pragma_fails = Some (STORE_fault "SQLITE_BUSY")
  /\ exists h,
       Connection.connectToDatabase "test" Demo.pragma_fails None
       = (Rejected (STORE_fault "SQLITE_BUSY"), Some h)
       /\ Connection.connectToDatabase "test" Demo.fine (Some h)
          = (Resolved h, Some h)
       /\ Connection.foreign_keys h = false.
Proof.
  split; [reflexivity|]. split; [reflexivity|].
  destruct (connectToDatabase_after_a_failure "test" Demo.pragma_fails Demo.fine
              (STORE_fault "SQLITE_BUSY")) as [_ H].
  apply H; reflexivity.
Defined.
